(** * SoftGate console: the invocation tracker and the function store

    A shallow embedding of the client-side run tracker of the SoftGate
    console page ([normalizeStatus], [clearPoll], [handleRun] and the
    callbacks it installs, [handleSave]) and of the zustand function store
    ([upsertFunction], [removeFunction], [setSelected]).

    The page is single-threaded and event-driven.  Each handler body runs to
    completion; what happens between two handler bodies is decided by the
    browser (which timer fires, which request settles).  The model therefore
    is a step function over explicit events, acting on a state that holds
    the React state of the component, its refs, and the part of the browser
    the handlers talk to: the table of live timers, the requests in flight
    and the log of network calls. *)

From Stdlib Require Import String Ascii List ZArith NArith Lia Bool Arith.
From Stdlib Require Import DecimalString.
Import ListNotations.
Open Scope string_scope.
Open Scope list_scope.
Open Scope nat_scope.

#[local] Set Warnings "-register-all".

(* ================================================================== *)
(** * Part I: the model *)
(* ================================================================== *)

(* ================================================================== *)
(** ** JavaScript strings *)
(* ================================================================== *)

Module Js.

(** [String.prototype.toLowerCase] on the ASCII range.  The keywords looked
    for by the page are ASCII, and no character outside the ASCII range
    lowers to a run of characters that completes one of them, so the
    ASCII table is all the status normalizer depends on. *)
Definition is_upper (c : ascii) : bool :=
  (65 <=? N_of_ascii c)%N && (N_of_ascii c <=? 90)%N.

Definition lower_char (c : ascii) : ascii :=
  if is_upper c then ascii_of_N (N_of_ascii c + 32) else c.

Fixpoint toLowerCase (s : string) : string :=
  match s with
  | EmptyString => EmptyString
  | String c s' => String (lower_char c) (toLowerCase s')
  end.

(** [s.includes(k)]: [k] occurs in [s] as a contiguous run. *)
Fixpoint includes (s k : string) : bool :=
  match s with
  | EmptyString => prefix k EmptyString
  | String _ s' => prefix k s || includes s' k
  end.

(** Truthiness of a [string | undefined]. *)
Definition truthy_str (o : option string) : bool :=
  match o with
  | Some s => negb (s =? "")%string
  | None => false
  end.

(** Template interpolation of an integer-valued number: its decimal
    digits.  That is what JavaScript prints for an integer below 2^53 in
    magnitude; a larger id reaches the page as the nearest double and is
    printed with that double's shortest digits. *)
Definition show_Z (z : Z) : string := NilZero.string_of_int (Z.to_int z).

End Js.

(* ================================================================== *)
(** ** Run status and the status normalizer *)
(* ================================================================== *)

(** [type RunStatus = "idle" | "queued" | "processing" | "success" | "fail"] *)
Inductive RunStatus : Type := idle | queued | processing | success | fail.

Definition RunStatus_eqb (a b : RunStatus) : bool :=
  match a, b with
  | idle, idle | queued, queued | processing, processing
  | success, success | fail, fail => true
  | _, _ => false
  end.

(** The string a status is (it is interpolated into log lines). *)
Definition status_text (st : RunStatus) : string :=
  match st with
  | idle => "idle"
  | queued => "queued"
  | processing => "processing"
  | success => "success"
  | fail => "fail"
  end.

(** [normalizeStatus(status?: string): RunStatus] *)
Definition normalizeStatus (status : option string) : RunStatus :=
  let normalized :=
    match status with Some s => Js.toLowerCase s | None => "" end in
  if Js.includes normalized "queue" then queued
  else if Js.includes normalized "process" || Js.includes normalized "run"
  then processing
  else if Js.includes normalized "success"
          || Js.includes normalized "complete"
          || Js.includes normalized "done"
  then success
  else if Js.includes normalized "fail" || Js.includes normalized "error"
  then fail
  else processing.

(** *** The normalizer as the specification words it

    A table of keyword groups, looked up in order, the first group with a
    keyword that occurs in the raw status deciding; occurrence is compared
    letter by letter, ignoring case, without lowering the input first. *)
Module NormalizeSpec.

Definition same_letter (c d : ascii) : bool :=
  (c =? d)%char
  || (Js.is_upper c && (N_of_ascii d =? N_of_ascii c + 32)%N)
  || (Js.is_upper d && (N_of_ascii c =? N_of_ascii d + 32)%N).

(** [k] is read at the head of [s], case ignored. *)
Fixpoint heads_ci (k s : string) : bool :=
  match k, s with
  | EmptyString, _ => true
  | String a k', String b s' => same_letter a b && heads_ci k' s'
  | String _ _, EmptyString => false
  end.

Fixpoint contains_ci (s k : string) : bool :=
  match s with
  | EmptyString => heads_ci k EmptyString
  | String _ s' => heads_ci k s || contains_ci s' k
  end.

Definition rules : list (list string * RunStatus) :=
  [ (["queue"], queued);
    (["process"; "run"], processing);
    (["success"; "complete"; "done"], success);
    (["fail"; "error"], fail) ].

Fixpoint first_match (raw : string) (rs : list (list string * RunStatus))
  : RunStatus :=
  match rs with
  | [] => processing
  | (keys, st) :: rest =>
      if existsb (contains_ci raw) keys then st else first_match raw rest
  end.

Definition normalize (rawStatus : option string) : RunStatus :=
  first_match (match rawStatus with Some s => s | None => "" end) rules.

Definition canonical (st : RunStatus) : Prop :=
  st = queued \/ st = processing \/ st = success \/ st = fail.

End NormalizeSpec.

(* ================================================================== *)
(** ** JSON values and what the engine provides *)
(* ================================================================== *)

(** A parsed JSON value.  Numbers are kept as integers: the handlers only
    test them for presence and truthiness and print them. *)
Inductive json : Type :=
| JNull
| JBool (b : bool)
| JNum (n : Z)
| JStr (s : string)
| JArr (items : list json)
| JObj (fields : list (string * json)).

(** JavaScript truthiness of a value, and of a possibly missing property. *)
Definition truthy (v : json) : bool :=
  match v with
  | JNull => false
  | JBool b => b
  | JNum n => negb (n =? 0)%Z
  | JStr s => negb (s =? "")%string
  | JArr _ => true
  | JObj _ => true
  end.

Definition truthy_prop (o : option json) : bool :=
  match o with Some v => truthy v | None => false end.

(** Truthiness of a [number | undefined]. *)
Definition truthy_num (o : option Z) : bool :=
  match o with Some n => negb (n =? 0)%Z | None => false end.

(** The two built-ins the page calls and does not define: [JSON.parse]
    ([None] when it throws) and [JSON.stringify(v, null, 2)]. *)
Class JsEngine : Type := {
  JSON_parse : string -> option json;
  JSON_stringify : json -> string
}.

(** What a rejected promise or a [catch] clause receives. *)
Inductive Thrown : Type :=
| ErrorObject (message : string)
| NotAnError.

(** [error instanceof Error ? error.message : "Unknown error"] *)
Definition error_text (error : Thrown) : string :=
  match error with
  | ErrorObject message => message
  | NotAnError => "Unknown error"
  end.

(* ================================================================== *)
(** ** The function store (use-function-store) *)
(* ================================================================== *)

Inductive Language : Type := python | node | go.

Definition Language_eqb (a b : Language) : bool :=
  match a, b with
  | python, python | node, node | go, go => true
  | _, _ => false
  end.

Record SoftGateFunction : Type := {
  fn_id : Z;
  fn_name : string;
  fn_language : Language;
  fn_code : string;
  fn_description : option string
}.

Record FunctionStore : Type := {
  functions : list SoftGateFunction;
  selectedId : option Z
}.

(** [{ ...item, ...fn }].  Every object the page hands to the store is a
    literal listing all five keys, so each key of [fn] overrides. *)
Definition spread (item fn : SoftGateFunction) : SoftGateFunction :=
  {| fn_id := fn_id fn;
     fn_name := fn_name fn;
     fn_language := fn_language fn;
     fn_code := fn_code fn;
     fn_description := fn_description fn |}.

Definition upsertFunction (fn : SoftGateFunction) (state : FunctionStore)
  : FunctionStore :=
  match find (fun item => fn_id item =? fn_id fn)%Z (functions state) with
  | Some _ =>
      {| functions :=
           map (fun item =>
                  if (fn_id item =? fn_id fn)%Z then spread item fn else item)
               (functions state);
         selectedId :=
           match selectedId state with
           | Some cur => Some cur
           | None => Some (fn_id fn)
           end |}
  | None =>
      {| functions := functions state ++ [fn];
         selectedId := Some (fn_id fn) |}
  end.

Definition removeFunction (id : Z) (state : FunctionStore) : FunctionStore :=
  let filtered :=
    filter (fun fn => negb (fn_id fn =? id)%Z) (functions state) in
  let nextSelected :=
    match selectedId state with
    | Some cur =>
        if (cur =? id)%Z
        then match filtered with
             | first :: _ => Some (fn_id first)
             | [] => None
             end
        else Some cur
    | None => None
    end in
  {| functions := filtered; selectedId := nextSelected |}.

Definition setSelected (id : Z) (state : FunctionStore) : FunctionStore :=
  match selectedId state with
  | Some cur =>
      if (cur =? id)%Z then state
      else {| functions := functions state; selectedId := Some id |}
  | None => {| functions := functions state; selectedId := Some id |}
  end.

(** [functions.find((fn) => fn.id === selectedId) ?? null] *)
Definition selectedFunctionOf (state : FunctionStore)
  : option SoftGateFunction :=
  match selectedId state with
  | Some cur => find (fun fn => fn_id fn =? cur)%Z (functions state)
  | None => None
  end.

(** Where an id is shown in the list: the index of its first entry. *)
Fixpoint position (id : Z) (l : list SoftGateFunction) : option nat :=
  match l with
  | [] => None
  | fn :: rest =>
      if (fn_id fn =? id)%Z then Some 0%nat
      else option_map S (position id rest)
  end.

Definition ids (l : list SoftGateFunction) : list Z := map fn_id l.

(* ================================================================== *)
(** ** Saving a draft ([handleSave]) *)
(* ================================================================== *)

(** [FunctionDetail], the registry's answer to a create call. *)
Record FunctionDetail : Type := {
  fd_id : Z;
  fd_name : string;
  fd_runtime : string;
  fd_description : option string;
  fd_code : option string;
  fd_sample_event : option json
}.

Record CreateFunctionRequest : Type := {
  rq_name : string;
  rq_runtime : string;
  rq_code : string;
  rq_description : option string;
  rq_sample_event : option json
}.

Definition runtimeForLanguage (l : Language) : string :=
  match l with
  | python => "python"
  | node => "node"
  | go => "go"
  end.

Definition mapRuntimeToLanguage (runtime : option string) : Language :=
  let normalized :=
    match runtime with Some r => Js.toLowerCase r | None => "" end in
  if Js.includes normalized "py" then python
  else if Js.includes normalized "go" then go
  else node.

Inductive ToastType : Type := toast_success | toast_error.

(** The part of the page [handleSave] reads and writes. *)
Record SavePage : Type := {
  store : FunctionStore;
  payload_text : string;
  isSaving : bool;
  toast : option (ToastType * string)
}.

Definition with_store (f : FunctionStore -> FunctionStore) (p : SavePage)
  : SavePage :=
  {| store := f (store p);
     payload_text := payload_text p;
     isSaving := isSaving p;
     toast := toast p |}.

Definition setIsSaving (b : bool) (p : SavePage) : SavePage :=
  {| store := store p;
     payload_text := payload_text p;
     isSaving := b;
     toast := toast p |}.

Definition showToast (ty : ToastType) (message : string) (p : SavePage)
  : SavePage :=
  {| store := store p;
     payload_text := payload_text p;
     isSaving := isSaving p;
     toast := Some (ty, message) |}.

(** What [handleSave] keeps across its [await]: the function that was
    selected when it was called. *)
Record SaveClosure : Type := {
  sv_selectedFunction : SoftGateFunction
}.

Section Save.
Context {engine : JsEngine}.

(** [handleSave] up to [await createFunction(...)]: the page, and the
    request with the continuation's closure when a request is sent. *)
Definition handleSave (p : SavePage)
  : SavePage * option (CreateFunctionRequest * SaveClosure) :=
  match selectedFunctionOf (store p) with
  | None => (p, None)
  | Some selectedFunction =>
      if (0 <? fn_id selectedFunction)%Z
      then (showToast toast_error
              "API에 업데이트 엔드포인트가 없어 기존 함수는 저장할 수 없습니다. 새 초안을 만든 뒤 저장하세요."
              p, None)
      else
        (setIsSaving true p,
         Some ({| rq_name := fn_name selectedFunction;
                  rq_runtime :=
                    runtimeForLanguage (fn_language selectedFunction);
                  rq_code := fn_code selectedFunction;
                  rq_description := fn_description selectedFunction;
                  rq_sample_event := JSON_parse (payload_text p) |},
               {| sv_selectedFunction := selectedFunction |}))
  end.

End Save.

(** The [try] body after the [await], then [finally]. *)
Definition savedFnOf (selectedFunction : SoftGateFunction)
  (res : FunctionDetail) : SoftGateFunction :=
  {| fn_id := fd_id res;
     fn_name := fd_name res;
     fn_language := mapRuntimeToLanguage (Some (fd_runtime res));
     fn_code :=
       match fd_code res with
       | Some c => c
       | None => fn_code selectedFunction
       end;
     fn_description := fd_description res |}.

Definition handleSave_resolved (cl : SaveClosure) (res : FunctionDetail)
  (p : SavePage) : SavePage :=
  let draftId := fn_id (sv_selectedFunction cl) in
  let savedFn := savedFnOf (sv_selectedFunction cl) res in
  let p := with_store (removeFunction draftId) p in
  let p := with_store (upsertFunction savedFn) p in
  let p := with_store (setSelected (fn_id savedFn)) p in
  let p := showToast toast_success "저장되었습니다 (서버에 생성됨)." p in
  setIsSaving false p.

(** The [catch] clause, then [finally]. *)
Definition handleSave_rejected (error : Thrown) (p : SavePage) : SavePage :=
  let p := showToast toast_error ("저장 실패: " ++ error_text error)%string p in
  setIsSaving false p.

(* ================================================================== *)
(** ** The run tracker: state *)
(* ================================================================== *)

(** [InvokeResponse], the answer to both the invoke call and the
    invocation-status call.  A field is [None] when the key is missing
    ([undefined]).  The handlers test [duration_ms] with [!== undefined],
    which tells a [null] in the JSON from a missing key, so that field
    says which it is: [Some None] is [null].  Every other field is only
    tested for truthiness or read through [??], which treat the two
    alike. *)
Record InvokeResponse : Type := {
  duration_ms : option (option Z);
  error_message : option string;
  function_id : option Z;
  input_event : option json;
  invocation_id : option Z;
  logged_at : option string;
  result : option json;
  status : option string
}.

Inductive Tab : Type := output | history.

(** The React state of the page that the run handlers write. *)
Record View : Type := {
  jsonError : option string;
  isRunning : bool;
  runMessage : option string;
  activeTab : Tab;
  runStatus : RunStatus;
  runLogs : list string;
  runResult : string;
  runDurationMs : option Z
}.

(** The refs of the page ([useRef]). *)
Record Refs : Type := {
  pollRef : option nat;
  runTimeoutRef : option nat;
  pollAttemptsRef : nat;
  lastStatusRef : option RunStatus;
  stuckCountRef : nat
}.

(** What the interval callback closes over: [selectedFunction.id],
    [invokeRes.invocation_id] and [startedAt]. *)
Record PollClosure : Type := {
  poll_functionId : Z;
  poll_invocationId : Z;
  poll_startedAt : Z
}.

(** What the [.then]/[.catch] callbacks of the invoke call close over. *)
Record InvokeClosure : Type := {
  inv_functionId : Z;
  inv_startedAt : Z
}.

(** A live [setInterval] timer and a live [setTimeout] timer. *)
Record Interval : Type := {
  iv_id : nat;
  iv_period : Z;
  iv_closure : PollClosure
}.

Record Timeout : Type := {
  to_id : nat;
  to_delay : Z
}.

(** A request sent by the page. *)
Inductive Call : Type :=
| CallInvoke (id : Z) (params : json)
| CallGetInvocationStatus (id invocationId : Z).

(** The browser as the run handlers see it: the live timers, the requests
    whose promise has not settled, and every request sent so far. *)
Record Browser : Type := {
  nextTimer : nat;
  intervals : list Interval;
  timeouts : list Timeout;
  nextRequest : nat;
  invoking : list (nat * InvokeClosure);
  polling : list (nat * PollClosure);
  calls : list Call
}.

Record State : Type := {
  view : View;
  refs : Refs;
  browser : Browser
}.

Definition MAX_POLL_ATTEMPTS : nat := 60.
Definition MAX_STUCK_ATTEMPTS : nat := 30.
(** The literals passed to [setTimeout] and [setInterval], in ms. *)
Definition RUN_TIMEOUT_MS : Z := 60000.
Definition POLL_INTERVAL_MS : Z := 1000.

(** *** Field updates *)

Definition on_view (f : View -> View) (s : State) : State :=
  {| view := f (view s); refs := refs s; browser := browser s |}.
Definition on_refs (f : Refs -> Refs) (s : State) : State :=
  {| view := view s; refs := f (refs s); browser := browser s |}.
Definition on_browser (f : Browser -> Browser) (s : State) : State :=
  {| view := view s; refs := refs s; browser := f (browser s) |}.

Definition setJsonError (v : option string) : State -> State :=
  on_view (fun w =>
    {| jsonError := v; isRunning := isRunning w; runMessage := runMessage w;
       activeTab := activeTab w; runStatus := runStatus w;
       runLogs := runLogs w; runResult := runResult w;
       runDurationMs := runDurationMs w |}).
Definition setIsRunning (v : bool) : State -> State :=
  on_view (fun w =>
    {| jsonError := jsonError w; isRunning := v; runMessage := runMessage w;
       activeTab := activeTab w; runStatus := runStatus w;
       runLogs := runLogs w; runResult := runResult w;
       runDurationMs := runDurationMs w |}).
Definition setRunMessage (v : option string) : State -> State :=
  on_view (fun w =>
    {| jsonError := jsonError w; isRunning := isRunning w; runMessage := v;
       activeTab := activeTab w; runStatus := runStatus w;
       runLogs := runLogs w; runResult := runResult w;
       runDurationMs := runDurationMs w |}).
Definition setActiveTab (v : Tab) : State -> State :=
  on_view (fun w =>
    {| jsonError := jsonError w; isRunning := isRunning w;
       runMessage := runMessage w; activeTab := v; runStatus := runStatus w;
       runLogs := runLogs w; runResult := runResult w;
       runDurationMs := runDurationMs w |}).
Definition setRunStatus (v : RunStatus) : State -> State :=
  on_view (fun w =>
    {| jsonError := jsonError w; isRunning := isRunning w;
       runMessage := runMessage w; activeTab := activeTab w; runStatus := v;
       runLogs := runLogs w; runResult := runResult w;
       runDurationMs := runDurationMs w |}).
(** [setRunLogs] takes the updater function, as in the source. *)
Definition setRunLogs (f : list string -> list string) : State -> State :=
  on_view (fun w =>
    {| jsonError := jsonError w; isRunning := isRunning w;
       runMessage := runMessage w; activeTab := activeTab w;
       runStatus := runStatus w; runLogs := f (runLogs w);
       runResult := runResult w; runDurationMs := runDurationMs w |}).
Definition setRunResult (v : string) : State -> State :=
  on_view (fun w =>
    {| jsonError := jsonError w; isRunning := isRunning w;
       runMessage := runMessage w; activeTab := activeTab w;
       runStatus := runStatus w; runLogs := runLogs w; runResult := v;
       runDurationMs := runDurationMs w |}).
Definition setRunDurationMs (v : option Z) : State -> State :=
  on_view (fun w =>
    {| jsonError := jsonError w; isRunning := isRunning w;
       runMessage := runMessage w; activeTab := activeTab w;
       runStatus := runStatus w; runLogs := runLogs w;
       runResult := runResult w; runDurationMs := v |}).

Definition set_pollRef (v : option nat) : State -> State :=
  on_refs (fun r =>
    {| pollRef := v; runTimeoutRef := runTimeoutRef r;
       pollAttemptsRef := pollAttemptsRef r;
       lastStatusRef := lastStatusRef r; stuckCountRef := stuckCountRef r |}).
Definition set_runTimeoutRef (v : option nat) : State -> State :=
  on_refs (fun r =>
    {| pollRef := pollRef r; runTimeoutRef := v;
       pollAttemptsRef := pollAttemptsRef r;
       lastStatusRef := lastStatusRef r; stuckCountRef := stuckCountRef r |}).
Definition set_pollAttemptsRef (v : nat) : State -> State :=
  on_refs (fun r =>
    {| pollRef := pollRef r; runTimeoutRef := runTimeoutRef r;
       pollAttemptsRef := v;
       lastStatusRef := lastStatusRef r; stuckCountRef := stuckCountRef r |}).
Definition set_lastStatusRef (v : option RunStatus) : State -> State :=
  on_refs (fun r =>
    {| pollRef := pollRef r; runTimeoutRef := runTimeoutRef r;
       pollAttemptsRef := pollAttemptsRef r;
       lastStatusRef := v; stuckCountRef := stuckCountRef r |}).
Definition set_stuckCountRef (v : nat) : State -> State :=
  on_refs (fun r =>
    {| pollRef := pollRef r; runTimeoutRef := runTimeoutRef r;
       pollAttemptsRef := pollAttemptsRef r;
       lastStatusRef := lastStatusRef r; stuckCountRef := v |}).

(** *** Browser primitives *)

Definition clearInterval (t : nat) : State -> State :=
  on_browser (fun b =>
    {| nextTimer := nextTimer b;
       intervals := filter (fun iv => negb (Nat.eqb (iv_id iv) t)) (intervals b);
       timeouts := timeouts b;
       nextRequest := nextRequest b; invoking := invoking b;
       polling := polling b; calls := calls b |}).

Definition clearTimeout (t : nat) : State -> State :=
  on_browser (fun b =>
    {| nextTimer := nextTimer b;
       intervals := intervals b;
       timeouts := filter (fun tm => negb (Nat.eqb (to_id tm) t)) (timeouts b);
       nextRequest := nextRequest b; invoking := invoking b;
       polling := polling b; calls := calls b |}).

(** [window.setInterval(cb, period)]: a fresh id, returned with the state. *)
Definition setInterval (cl : PollClosure) (period : Z) (s : State)
  : nat * State :=
  let b := browser s in
  let t := nextTimer b in
  (t, on_browser (fun b =>
        {| nextTimer := S (nextTimer b);
           intervals :=
             intervals b
             ++ [{| iv_id := t; iv_period := period; iv_closure := cl |}];
           timeouts := timeouts b;
           nextRequest := nextRequest b; invoking := invoking b;
           polling := polling b; calls := calls b |}) s).

(** [window.setTimeout(cb, delay)] for the run-timeout callback. *)
Definition setTimeout (delay : Z) (s : State) : nat * State :=
  let b := browser s in
  let t := nextTimer b in
  (t, on_browser (fun b =>
        {| nextTimer := S (nextTimer b);
           intervals := intervals b;
           timeouts := timeouts b ++ [{| to_id := t; to_delay := delay |}];
           nextRequest := nextRequest b; invoking := invoking b;
           polling := polling b; calls := calls b |}) s).

(** [invokeFunction(id, parsed)]: the request goes out, its promise is
    pending. *)
Definition invokeFunction (cl : InvokeClosure) (parsed : json)
  : State -> State :=
  on_browser (fun b =>
    {| nextTimer := nextTimer b; intervals := intervals b;
       timeouts := timeouts b;
       nextRequest := S (nextRequest b);
       invoking := invoking b ++ [(nextRequest b, cl)];
       polling := polling b;
       calls := calls b ++ [CallInvoke (inv_functionId cl) parsed] |}).

(** [getInvocationStatus(id, invocationId)], awaited by the tick. *)
Definition getInvocationStatus (cl : PollClosure) : State -> State :=
  on_browser (fun b =>
    {| nextTimer := nextTimer b; intervals := intervals b;
       timeouts := timeouts b;
       nextRequest := S (nextRequest b);
       invoking := invoking b;
       polling := polling b ++ [(nextRequest b, cl)];
       calls :=
         calls b
         ++ [CallGetInvocationStatus (poll_functionId cl)
               (poll_invocationId cl)] |}).

(** A pending promise settles: it leaves the table. *)
Definition settle_invoke (rq : nat) : State -> State :=
  on_browser (fun b =>
    {| nextTimer := nextTimer b; intervals := intervals b;
       timeouts := timeouts b; nextRequest := nextRequest b;
       invoking := filter (fun p => negb (Nat.eqb (fst p) rq)) (invoking b);
       polling := polling b; calls := calls b |}).

Definition settle_poll (rq : nat) : State -> State :=
  on_browser (fun b =>
    {| nextTimer := nextTimer b; intervals := intervals b;
       timeouts := timeouts b; nextRequest := nextRequest b;
       invoking := invoking b;
       polling := filter (fun p => negb (Nat.eqb (fst p) rq)) (polling b);
       calls := calls b |}).

Definition lookup {A : Type} (k : nat) (l : list (nat * A)) : option A :=
  option_map snd (find (fun p => Nat.eqb (fst p) k) l).

Definition find_interval (t : nat) (s : State) : option Interval :=
  find (fun iv => Nat.eqb (iv_id iv) t) (intervals (browser s)).

Definition find_timeout (t : nat) (s : State) : option Timeout :=
  find (fun tm => Nat.eqb (to_id tm) t) (timeouts (browser s)).

(* ================================================================== *)
(** ** The run tracker: handlers *)
(* ================================================================== *)

Definition clearPoll (s : State) : State :=
  let s :=
    match pollRef (refs s) with
    | Some t => set_pollRef None (clearInterval t s)
    | None => s
    end in
  let s := set_pollAttemptsRef 0 s in
  let s := set_stuckCountRef 0 s in
  let s := set_lastStatusRef None s in
  match runTimeoutRef (refs s) with
  | Some t => set_runTimeoutRef None (clearTimeout t s)
  | None => s
  end.

(** The callback handed to [setTimeout] by [handleRun]. *)
Definition onRunTimeout (s : State) : State :=
  let s := clearPoll s in
  let s := setIsRunning false s in
  let s := setRunStatus fail s in
  let s := setRunMessage (Some "실행 시간 초과") s in
  setRunLogs (fun prev => (prev ++ ["[Error] 실행 시간 초과"])%list) s.

(** The status a poll response is taken to report: the normalized status,
    with the two overrides of the interval callback. *)
Definition polledStatusOf (res : InvokeResponse) : RunStatus :=
  let polledStatus := normalizeStatus (status res) in
  let polledStatus :=
    if RunStatus_eqb polledStatus processing && truthy_prop (result res)
    then success else polledStatus in
  let polledStatus :=
    if RunStatus_eqb polledStatus processing
       && Js.truthy_str (error_message res)
    then fail else polledStatus in
  polledStatus.

Definition option_RunStatus_eqb (a : RunStatus) (b : option RunStatus)
  : bool :=
  match b with Some b' => RunStatus_eqb a b' | None => false end.

(** The interval callback up to its [await]. *)
Definition onTick (cl : PollClosure) (s : State) : State :=
  let s := set_pollAttemptsRef (pollAttemptsRef (refs s) + 1) s in
  if MAX_POLL_ATTEMPTS <=? pollAttemptsRef (refs s) then
    let s := clearPoll s in
    let s := setIsRunning false s in
    let s := setRunStatus fail s in
    let s := setRunMessage (Some "폴링 타임아웃") s in
    setRunLogs (fun prev => (prev ++ ["[Error] 폴링 타임아웃"])%list) s
  else getInvocationStatus cl s.

Section Handlers.
Context {engine : JsEngine}.

(** The interval callback after its [await], when the call succeeded.
    [now] is what [Date.now()] reads. *)
Definition onPollResolved (cl : PollClosure) (res : InvokeResponse)
  (now : Z) (s : State) : State :=
  let polledStatus := polledStatusOf res in
  let s := setRunStatus polledStatus s in
  let s :=
    match duration_ms res with
    | Some d => setRunDurationMs d s
    | None => s
    end in
  let s :=
    match result res with
    | Some v => if truthy v then setRunResult (JSON_stringify v) s else s
    | None => s
    end in
  let s :=
    match logged_at res with
    | Some at_ =>
        if Js.truthy_str (Some at_)
        then setRunLogs
               (fun prev =>
                  (prev ++ [("[" ++ status_text polledStatus ++ "] " ++ at_)%string])
                  %list) s
        else s
    | None => s
    end in
  let s :=
    if option_RunStatus_eqb polledStatus (lastStatusRef (refs s))
    then set_stuckCountRef (stuckCountRef (refs s) + 1) s
    else set_stuckCountRef 0 s in
  let s := set_lastStatusRef (Some polledStatus) s in
  if (RunStatus_eqb polledStatus processing
      || RunStatus_eqb polledStatus queued)
     && (MAX_STUCK_ATTEMPTS <=? stuckCountRef (refs s))
  then
    let s := clearPoll s in
    let s := setIsRunning false s in
    let s := setRunStatus fail s in
    let s := setRunMessage (Some "상태 변화 없이 대기 시간 초과") s in
    setRunLogs (fun prev => (prev ++ ["[Error] 상태 변화 없음으로 중단"])%list) s
  else if RunStatus_eqb polledStatus success
          || RunStatus_eqb polledStatus fail
  then
    let s := clearPoll s in
    let s := setIsRunning false s in
    let s :=
      setRunMessage
        (Some (if RunStatus_eqb polledStatus success
               then "실행 완료"
               else match error_message res with
                    | Some m => m
                    | None => "실행 실패"
                    end)) s in
    match duration_ms res with
    | None => setRunDurationMs (Some (now - poll_startedAt cl)%Z) s
    | Some _ => s
    end
  else s.

(** The [catch] clause of the interval callback. *)
Definition onPollRejected (error : Thrown) (s : State) : State :=
  let s := clearPoll s in
  let s := setIsRunning false s in
  let s := setRunStatus fail s in
  let s := setRunMessage (Some ("폴링 실패: " ++ error_text error)%string) s in
  setRunLogs (fun prev => (prev ++ [("[Error] " ++ error_text error)%string])%list) s.

(** The [.then] callback of the invoke call. *)
Definition onInvokeResolved (cl : InvokeClosure) (invokeRes : InvokeResponse)
  (s : State) : State :=
  let status_ := normalizeStatus (status invokeRes) in
  let s := setRunStatus status_ s in
  let s :=
    match result invokeRes with
    | Some v => if truthy v then setRunResult (JSON_stringify v) s else s
    | None => s
    end in
  let s :=
    match duration_ms invokeRes with
    | Some d => setRunDurationMs d s
    | None => s
    end in
  match invocation_id invokeRes with
  | Some invocationId =>
      if truthy_num (Some invocationId) then
        let s :=
          setRunLogs
            (fun prev =>
               (prev
                ++ [("[Invoke] id=" ++ Js.show_Z invocationId ++ " status="
                     ++ match status invokeRes with
                        | Some raw => raw
                        | None => "queued"
                        end)%string])%list) s in
        let '(t, s) :=
          setInterval
            {| poll_functionId := inv_functionId cl;
               poll_invocationId := invocationId;
               poll_startedAt := inv_startedAt cl |}
            POLL_INTERVAL_MS s in
        set_pollRef (Some t) s
      else
        let s :=
          setRunLogs
            (fun prev =>
             (prev ++ ["[Error] invocation_id가 응답에 없습니다."])%list)
            s in
        let s := setRunStatus fail s in
        let s := setIsRunning false s in
        setRunMessage (Some "invocation_id 누락") s
  | None =>
      let s :=
        setRunLogs
          (fun prev =>
             (prev ++ ["[Error] invocation_id가 응답에 없습니다."])%list)
          s in
      let s := setRunStatus fail s in
      let s := setIsRunning false s in
      setRunMessage (Some "invocation_id 누락") s
  end.

(** The [.catch] callback of the invoke call. *)
Definition onInvokeRejected (error : Thrown) (s : State) : State :=
  let s := clearPoll s in
  let s := setIsRunning false s in
  let s := setRunStatus fail s in
  let s := setRunMessage (Some ("실행 요청 실패: " ++ error_text error)%string) s in
  setRunLogs (fun prev => (prev ++ [("[Error] " ++ error_text error)%string])%list) s.

(** [handleRun], with what its closure reads from the render
    ([selectedFunction], [payload]) and what [Date.now()] reads. *)
Definition handleRun (selectedFunction : option SoftGateFunction)
  (payload : string) (now : Z) (s : State) : State :=
  match selectedFunction with
  | None => setRunMessage (Some "함수를 선택하세요.") s
  | Some fn =>
      if (fn_id fn <? 0)%Z
      then setRunMessage (Some "저장 후 실행할 수 있습니다.") s
      else
        match JSON_parse payload with
        | None => setJsonError (Some "유효한 JSON 형식이 아닙니다.") s
        | Some parsed =>
            let s := setJsonError None s in
            let s := setActiveTab output s in
            let s := setRunStatus queued s in
            let s := setRunLogs (fun _ => ["[Queued] Job accepted"]) s in
            let s := setRunResult "" s in
            let s := setRunDurationMs None s in
            let s := clearPoll s in
            let s := set_pollAttemptsRef 0 s in
            let s := set_stuckCountRef 0 s in
            let s := set_lastStatusRef None s in
            let s := setIsRunning true s in
            let s := setRunMessage (Some "실행 요청 전송 중...") s in
            let s :=
              match runTimeoutRef (refs s) with
              | Some t => clearTimeout t s
              | None => s
              end in
            let '(t, s) := setTimeout RUN_TIMEOUT_MS s in
            let s := set_runTimeoutRef (Some t) s in
            let startedAt := now in
            invokeFunction
              {| inv_functionId := fn_id fn; inv_startedAt := startedAt |}
              parsed s
        end
  end.

(** What [handleDelete] does to the run once the function is removed (a
    draft at once, a saved function after the registry has confirmed). *)
Definition onDeleted (s : State) : State :=
  let s := clearPoll s in
  let s := setRunStatus idle s in
  let s := setRunLogs (fun _ => []) s in
  let s := setRunResult "" s in
  let s := setRunDurationMs None s in
  setRunMessage None s.

(** What [handleCreateFunction] does to the run when a draft is made. *)
Definition onDraftCreated (s : State) : State :=
  let s := setRunStatus idle s in
  let s := setRunLogs (fun _ => []) s in
  let s := setRunResult "" s in
  let s := setRunDurationMs None s in
  setRunMessage
    (Some "새 함수 초안이 생성되었습니다. 코드 편집 후 저장하세요.") s.

(** [handlePayloadChange]: the payload editor reports whether its text
    parses. *)
Definition handlePayloadChange (value : option string) (s : State) : State :=
  let next := match value with Some v => v | None => "" end in
  match JSON_parse next with
  | Some _ => setJsonError None s
  | None => setJsonError (Some "유효한 JSON 형식이 아닙니다.") s
  end.

(** The Run button: [disabled={Boolean(jsonError) || isRunning ||
    !selectedFunction || selectedFunction.id < 0}]. *)
Definition runDisabled (selectedFunction : option SoftGateFunction)
  (s : State) : bool :=
  Js.truthy_str (jsonError (view s))
  || isRunning (view s)
  || match selectedFunction with
     | None => true
     | Some fn => (fn_id fn <? 0)%Z
     end.

(* ================================================================== *)
(** ** The run tracker: events *)
(* ================================================================== *)

(** What can happen to the page as far as a run is concerned: the user
    runs, a request settles, a timer fires, the selected function is
    deleted, a draft is created, the payload is edited.  Request and timer
    events name the request or timer; an event that names one that is not
    pending or live cannot happen. *)
Inductive Event : Type :=
| Run (selectedFunction : option SoftGateFunction) (payload : string)
      (now : Z)
| InvokeResolved (rq : nat) (invokeRes : InvokeResponse)
| InvokeRejected (rq : nat) (error : Thrown)
| Tick (t : nat)
| PollResolved (rq : nat) (res : InvokeResponse) (now : Z)
| PollRejected (rq : nat) (error : Thrown)
| RunTimeout (t : nat)
| Deleted
| DraftCreated
| PayloadChanged (value : option string).

Definition step (s : State) (e : Event) : option State :=
  match e with
  | Run selectedFunction payload now =>
      Some (handleRun selectedFunction payload now s)
  | InvokeResolved rq invokeRes =>
      match lookup rq (invoking (browser s)) with
      | Some cl => Some (onInvokeResolved cl invokeRes (settle_invoke rq s))
      | None => None
      end
  | InvokeRejected rq error =>
      match lookup rq (invoking (browser s)) with
      | Some _ => Some (onInvokeRejected error (settle_invoke rq s))
      | None => None
      end
  | Tick t =>
      match find_interval t s with
      | Some iv => Some (onTick (iv_closure iv) s)
      | None => None
      end
  | PollResolved rq res now =>
      match lookup rq (polling (browser s)) with
      | Some cl => Some (onPollResolved cl res now (settle_poll rq s))
      | None => None
      end
  | PollRejected rq error =>
      match lookup rq (polling (browser s)) with
      | Some _ => Some (onPollRejected error (settle_poll rq s))
      | None => None
      end
  | RunTimeout t =>
      match find_timeout t s with
      | Some _ => Some (onRunTimeout (clearTimeout t s))
      | None => None
      end
  | Deleted => Some (onDeleted s)
  | DraftCreated => Some (onDraftCreated s)
  | PayloadChanged value => Some (handlePayloadChange value s)
  end.

(** A run of events; [None] when one of them cannot happen. *)
Fixpoint exec (s : State) (es : list Event) : option State :=
  match es with
  | [] => Some s
  | e :: rest =>
      match step s e with
      | Some s' => exec s' rest
      | None => None
      end
  end.

End Handlers.

(** The page as mounted: nothing run, no timer, no request. *)
Definition mounted : State :=
  {| view :=
       {| jsonError := None; isRunning := false; runMessage := None;
          activeTab := output; runStatus := idle; runLogs := [];
          runResult := ""; runDurationMs := None |};
     refs :=
       {| pollRef := None; runTimeoutRef := None; pollAttemptsRef := 0;
          lastStatusRef := None; stuckCountRef := 0 |};
     browser :=
       {| nextTimer := 1; intervals := []; timeouts := [];
          nextRequest := 0; invoking := []; polling := []; calls := [] |} |}.

(** The calls of a log that poll an invocation. *)
Definition is_poll (c : Call) : bool :=
  match c with
  | CallGetInvocationStatus _ _ => true
  | CallInvoke _ _ => false
  end.

Definition poll_calls (s : State) : list Call :=
  filter is_poll (calls (browser s)).

(* ================================================================== *)
(** ** Well-formed sessions, UI-gated runs, sample data *)
(* ================================================================== *)

(** No orphaned polling timer: every live interval is the one [pollRef]
    holds. *)
Definition single_session (s : State) : Prop :=
  forall iv, In iv (intervals (browser s)) ->
             pollRef (refs s) = Some (iv_id iv).

(** Every live run-timeout is the one [runTimeoutRef] holds. *)
Definition single_timeout (s : State) : Prop :=
  forall tm, In tm (timeouts (browser s)) ->
             runTimeoutRef (refs s) = Some (to_id tm).

Definition is_run (e : Event) : bool :=
  match e with
  | Run _ _ _ => true
  | _ => false
  end.

(** The count [stuckCountRef] holds once a poll response has been compared
    with [lastStatusRef]. *)
Definition repeatCountAfter (res : InvokeResponse) (s : State) : nat :=
  if option_RunStatus_eqb (polledStatusOf res) (lastStatusRef (refs s))
  then stuckCountRef (refs s) + 1
  else 0.

Section Rounds.
Context {engine : JsEngine}.

(** One poll that is answered before the next tick: the tick of timer [t],
    then the response to the request that tick sent. *)
Definition poll_round (t : nat) (res : InvokeResponse) (now : Z) (s : State)
  : option State :=
  match step s (Tick t) with
  | Some s1 => step s1 (PollResolved (nextRequest (browser s)) res now)
  | None => None
  end.

Fixpoint poll_rounds (t : nat) (rs : list (InvokeResponse * Z)) (s : State)
  : option State :=
  match rs with
  | [] => Some s
  | (res, now) :: rest =>
      match poll_round t res now s with
      | Some s' => poll_rounds t rest s'
      | None => None
      end
  end.

(** Events as the page lets them happen: a click on Run only reaches
    [handleRun] while the button is enabled. *)
Definition step_ui (s : State) (e : Event) : option State :=
  match e with
  | Run selectedFunction _ _ =>
      if runDisabled selectedFunction s then None else step s e
  | _ => step s e
  end.

Fixpoint exec_ui (s : State) (es : list Event) : option State :=
  match es with
  | [] => Some s
  | e :: rest =>
      match step_ui s e with
      | Some s' => exec_ui s' rest
      | None => None
      end
  end.

End Rounds.

(** The three preconditions of a run, and how each is reported. *)
Inductive Precondition : Type := NoSelection | UnsavedDraft | InvalidJson.

Definition unmet {engine : JsEngine} (p : Precondition)
  (selectedFunction : option SoftGateFunction) (payload : string) : Prop :=
  match p with
  | NoSelection => selectedFunction = None
  | UnsavedDraft =>
      exists fn, selectedFunction = Some fn /\ (fn_id fn < 0)%Z
  | InvalidJson => JSON_parse payload = None
  end.

Definition reported (p : Precondition) (before after : State) : Prop :=
  match p with
  | NoSelection =>
      runMessage (view after) = Some "함수를 선택하세요."
      /\ jsonError (view after) = jsonError (view before)
  | UnsavedDraft =>
      runMessage (view after) = Some "저장 후 실행할 수 있습니다."
      /\ jsonError (view after) = jsonError (view before)
  | InvalidJson =>
      jsonError (view after) = Some "유효한 JSON 형식이 아닙니다."
      /\ runMessage (view after) = runMessage (view before)
  end.

(** The run a user sees: everything of the view but the two report
    fields. *)
Definition same_run (before after : State) : Prop :=
  isRunning (view after) = isRunning (view before)
  /\ activeTab (view after) = activeTab (view before)
  /\ runStatus (view after) = runStatus (view before)
  /\ runLogs (view after) = runLogs (view before)
  /\ runResult (view after) = runResult (view before)
  /\ runDurationMs (view after) = runDurationMs (view before).

(** *** Sample data *)

(** An engine whose parser accepts exactly the text of the empty object. *)
Definition sampleEngine : JsEngine :=
  {| JSON_parse := fun text =>
       if (text =? "{}")%string then Some (JObj []) else None;
     JSON_stringify := fun _ => "{}" |}.

Definition sampleFunction (id : Z) (name : string) : SoftGateFunction :=
  {| fn_id := id; fn_name := name; fn_language := python;
     fn_code := ""; fn_description := None |}.

Definition response (invocationId : option Z) (rawStatus : option string)
  (res : option json) (error : option string)
  (duration : option (option Z)) : InvokeResponse :=
  {| duration_ms := duration; error_message := error; function_id := None;
     input_event := None; invocation_id := invocationId; logged_at := None;
     result := res; status := rawStatus |}.

(** The three seeded functions followed by two drafts, the first draft
    selected. *)
Definition sampleStore : FunctionStore :=
  {| functions :=
       [ sampleFunction 1 "ingest-events";
         sampleFunction 2 "image-resizer";
         sampleFunction 3 "metrics-collector";
         sampleFunction (-1) "draft-a";
         sampleFunction (-2) "draft-b" ];
     selectedId := Some (-1)%Z |}.

Definition samplePage : SavePage :=
  {| store := sampleStore; payload_text := "{}"; isSaving := false;
     toast := None |}.

Definition sampleDetail : FunctionDetail :=
  {| fd_id := 10; fd_name := "draft-a"; fd_runtime := "python";
     fd_description := None; fd_code := None; fd_sample_event := None |}.

(** A page on which one run is polling: timer 2 polls invocation 7 of
    function 1, run-timeout 1 is armed, and the request of one tick is
    still in flight. *)
Definition samplePolling : State :=
  {| view :=
       {| jsonError := None; isRunning := true;
          runMessage := Some "실행 요청 전송 중..."; activeTab := output;
          runStatus := queued;
          runLogs := ["[Queued] Job accepted"; "[Invoke] id=7 status=queued"];
          runResult := ""; runDurationMs := None |};
     refs :=
       {| pollRef := Some 2; runTimeoutRef := Some 1; pollAttemptsRef := 1;
          lastStatusRef := None; stuckCountRef := 0 |};
     browser :=
       {| nextTimer := 3;
          intervals :=
            [{| iv_id := 2; iv_period := 1000;
                iv_closure :=
                  {| poll_functionId := 1; poll_invocationId := 7;
                     poll_startedAt := 0 |} |}];
          timeouts := [{| to_id := 1; to_delay := 60000 |}];
          nextRequest := 2; invoking := [];
          polling :=
            [(1, {| poll_functionId := 1; poll_invocationId := 7;
                    poll_startedAt := 0 |})];
          calls := [CallInvoke 1 (JObj []); CallGetInvocationStatus 1 7] |} |}.

(** The page right after a submit was accepted as invocation 7: timer 2
    polls it, run-timeout 1 is armed, nothing has been polled yet. *)
Definition sampleAccepted : State :=
  {| view :=
       {| jsonError := None; isRunning := true;
          runMessage := Some "실행 요청 전송 중..."; activeTab := output;
          runStatus := queued;
          runLogs := ["[Queued] Job accepted"; "[Invoke] id=7 status=queued"];
          runResult := ""; runDurationMs := None |};
     refs :=
       {| pollRef := Some 2; runTimeoutRef := Some 1; pollAttemptsRef := 0;
          lastStatusRef := None; stuckCountRef := 0 |};
     browser :=
       {| nextTimer := 3;
          intervals :=
            [{| iv_id := 2; iv_period := 1000;
                iv_closure :=
                  {| poll_functionId := 1; poll_invocationId := 7;
                     poll_startedAt := 0 |} |}];
          timeouts := [{| to_id := 1; to_delay := 60000 |}];
          nextRequest := 1; invoking := []; polling := [];
          calls := [CallInvoke 1 (JObj [])] |} |}.

Definition stillProcessing : InvokeResponse :=
  response None (Some "processing") None None None.

(* ================================================================== *)
(** ** Handlers in closed form *)
(* ================================================================== *)

(** The refs as [clearPoll] leaves them. *)
Definition cleared : Refs :=
  {| pollRef := None; runTimeoutRef := None; pollAttemptsRef := 0;
     lastStatusRef := None; stuckCountRef := 0 |}.

(** The browser once the interval [p] and the timeout [t] are cleared. *)
Definition clear_browser (p t : option nat) (b : Browser) : Browser :=
  {| nextTimer := nextTimer b;
     intervals :=
       match p with
       | Some i => filter (fun iv => negb (Nat.eqb (iv_id iv) i)) (intervals b)
       | None => intervals b
       end;
     timeouts :=
       match t with
       | Some i => filter (fun tm => negb (Nat.eqb (to_id tm) i)) (timeouts b)
       | None => timeouts b
       end;
     nextRequest := nextRequest b; invoking := invoking b;
     polling := polling b; calls := calls b |}.

(** The view of a run ended as failed with [message], [line] logged. *)
Definition failed_view (message line : string) (w : View) : View :=
  {| jsonError := jsonError w; isRunning := false;
     runMessage := Some message; activeTab := activeTab w;
     runStatus := fail; runLogs := runLogs w ++ [line];
     runResult := runResult w; runDurationMs := runDurationMs w |}.

(** [clearPoll], then the four updates every failure path makes. *)
Definition aborted (message line : string) (s : State) : State :=
  {| view := failed_view message line (view s);
     refs := cleared;
     browser :=
       clear_browser (pollRef (refs s)) (runTimeoutRef (refs s)) (browser s)
  |}.

(** A poll response as the interval callback records it, before it decides
    whether the run goes on. *)
Definition recorded_view {engine : JsEngine} (res : InvokeResponse)
  (w : View) : View :=
  {| jsonError := jsonError w; isRunning := isRunning w;
     runMessage := runMessage w; activeTab := activeTab w;
     runStatus := polledStatusOf res;
     runLogs :=
       match logged_at res with
       | Some at_ =>
           if Js.truthy_str (Some at_)
           then runLogs w
                ++ [("[" ++ status_text (polledStatusOf res) ++ "] " ++ at_)
                    %string]
           else runLogs w
       | None => runLogs w
       end;
     runResult :=
       match result res with
       | Some v => if truthy v then JSON_stringify v else runResult w
       | None => runResult w
       end;
     runDurationMs :=
       match duration_ms res with
       | Some d => d
       | None => runDurationMs w
       end |}.

Definition recorded_refs (res : InvokeResponse) (r : Refs) : Refs :=
  {| pollRef := pollRef r; runTimeoutRef := runTimeoutRef r;
     pollAttemptsRef := pollAttemptsRef r;
     lastStatusRef := Some (polledStatusOf res);
     stuckCountRef :=
       if option_RunStatus_eqb (polledStatusOf res) (lastStatusRef r)
       then stuckCountRef r + 1
       else 0 |}.

Definition recorded {engine : JsEngine} (res : InvokeResponse) (s : State)
  : State :=
  {| view := recorded_view res (view s);
     refs := recorded_refs res (refs s);
     browser := browser s |}.

Definition nonterminal (p : RunStatus) : bool :=
  RunStatus_eqb p processing || RunStatus_eqb p queued.

Definition terminal (p : RunStatus) : bool :=
  RunStatus_eqb p success || RunStatus_eqb p fail.

(** The view of a run that a poll found finished. *)
Definition finished_view (cl : PollClosure) (res : InvokeResponse) (now : Z)
  (w : View) : View :=
  {| jsonError := jsonError w; isRunning := false;
     runMessage :=
       Some (if RunStatus_eqb (polledStatusOf res) success
             then "실행 완료"
             else match error_message res with
                  | Some m => m
                  | None => "실행 실패"
                  end);
     activeTab := activeTab w; runStatus := runStatus w;
     runLogs := runLogs w; runResult := runResult w;
     runDurationMs :=
       match duration_ms res with
       | None => Some (now - poll_startedAt cl)%Z
       | Some _ => runDurationMs w
       end |}.

(** The view and refs [handleRun] sets once the preconditions hold. *)
Definition started_view : View :=
  {| jsonError := None; isRunning := true;
     runMessage := Some "실행 요청 전송 중..."; activeTab := output;
     runStatus := queued; runLogs := ["[Queued] Job accepted"];
     runResult := ""; runDurationMs := None |}.

Definition started (fn : SoftGateFunction) (parsed : json) (now : Z)
  (s : State) : State :=
  let b :=
    clear_browser (pollRef (refs s)) (runTimeoutRef (refs s)) (browser s) in
  {| view := started_view;
     refs :=
       {| pollRef := None; runTimeoutRef := Some (nextTimer b);
          pollAttemptsRef := 0; lastStatusRef := None; stuckCountRef := 0 |};
     browser :=
       {| nextTimer := S (nextTimer b);
          intervals := intervals b;
          timeouts :=
            timeouts b
            ++ [{| to_id := nextTimer b; to_delay := RUN_TIMEOUT_MS |}];
          nextRequest := S (nextRequest b);
          invoking :=
            invoking b
            ++ [(nextRequest b,
                 {| inv_functionId := fn_id fn; inv_startedAt := now |})];
          polling := polling b;
          calls := calls b ++ [CallInvoke (fn_id fn) parsed] |} |}.

(** The view a submit response without a usable invocation id leaves. *)
Definition accepted_view {engine : JsEngine} (invokeRes : InvokeResponse)
  (w : View) : View :=
  {| jsonError := jsonError w; isRunning := isRunning w;
     runMessage := runMessage w; activeTab := activeTab w;
     runStatus := normalizeStatus (status invokeRes);
     runLogs := runLogs w;
     runResult :=
       match result invokeRes with
       | Some v => if truthy v then JSON_stringify v else runResult w
       | None => runResult w
       end;
     runDurationMs :=
       match duration_ms invokeRes with
       | Some d => d
       | None => runDurationMs w
       end |}.

(* ================================================================== *)
(** ** Derived notions used by the properties *)
(* ================================================================== *)

(** The rule as the specification words it: both halves hold of every poll
    response whose raw status normalizes to [processing]. *)
Definition promotion_as_specified : Prop :=
  forall (engine : JsEngine) (cl : PollClosure) (res : InvokeResponse)
         (now : Z) (s : State),
    normalizeStatus (status res) = processing ->
    (truthy_prop (result res) = true ->
     runStatus (view (onPollResolved cl res now s)) = success)
    /\ (Js.truthy_str (error_message res) = true ->
        runStatus (view (onPollResolved cl res now s)) = fail).

(** Nothing is polling and no submit is in flight. *)
Definition quiet (s : State) : Prop :=
  intervals (browser s) = [] /\ invoking (browser s) = [].

Definition no_run (es : list Event) : bool :=
  forallb (fun e => negb (is_run e)) es.

(** No timer, pending request or sent request polls invocation 0. *)
Definition nonzero_polls (s : State) : Prop :=
  (forall iv, In iv (intervals (browser s)) ->
              poll_invocationId (iv_closure iv) <> 0%Z)
  /\ (forall rq cl, In (rq, cl) (polling (browser s)) ->
                    poll_invocationId cl <> 0%Z)
  /\ (forall id, ~ In (CallGetInvocationStatus id 0) (calls (browser s))).

(** [res] with its invocation id left out. *)
Definition without_invocation_id (res : InvokeResponse) : InvokeResponse :=
  {| duration_ms := duration_ms res; error_message := error_message res;
     function_id := function_id res; input_event := input_event res;
     invocation_id := None; logged_at := logged_at res;
     result := result res; status := status res |}.

(** The session of [s0], [k] answered polls later, every answer having
    reported the status [p]. *)
Definition polling_at (s0 : State) (t : nat) (p : RunStatus) (k : nat)
  (s : State) : Prop :=
  pollRef (refs s) = Some t
  /\ runTimeoutRef (refs s) = runTimeoutRef (refs s0)
  /\ pollAttemptsRef (refs s) = k
  /\ lastStatusRef (refs s) = match k with 0 => None | S _ => Some p end
  /\ stuckCountRef (refs s) = pred k
  /\ intervals (browser s) = intervals (browser s0)
  /\ timeouts (browser s) = timeouts (browser s0)
  /\ isRunning (view s) = isRunning (view s0)
  /\ (k <> 0 -> runStatus (view s) = p).

(** The state the response of the tick of [iv] is handled in. *)
Definition awaiting (iv : Interval) (s : State) : State :=
  settle_poll (nextRequest (browser s))
    (getInvocationStatus (iv_closure iv)
       (set_pollAttemptsRef (pollAttemptsRef (refs s) + 1) s)).

Definition accepted (invocationId : Z) : InvokeResponse :=
  response (Some invocationId) (Some "queued") None None None.

Definition done_ : InvokeResponse :=
  response None (Some "success") None None None.

(** A session as the user can produce it: a run finishes while the answer
    to one of its earlier polls is still on its way; the user runs again;
    the late answer arrives and ends the new run on screen, which enables
    the button; the user runs once more; then both submits are answered. *)
Definition overlappingRuns : list Event :=
  [ Run (Some (sampleFunction 1 "ingest-events")) "{}" 0;
    InvokeResolved 0 (accepted 7);
    Tick 2;
    Tick 2;
    PollResolved 2 done_ 2500;
    Run (Some (sampleFunction 1 "ingest-events")) "{}" 3000;
    PollResolved 1 done_ 3500;
    Run (Some (sampleFunction 1 "ingest-events")) "{}" 4000;
    InvokeResolved 3 (accepted 8);
    InvokeResolved 4 (accepted 9) ].

(** [handleSave] followed by the success branch of its continuation. *)
Definition save_flow {engine : JsEngine} (p : SavePage)
  (res : FunctionDetail) : option SavePage :=
  match handleSave p with
  | (p1, Some (_, cl)) => Some (handleSave_resolved cl res p1)
  | (_, None) => None
  end.

(** The rule as the specification words it: the saved entry is shown where
    the draft was. *)
Definition save_in_place_as_specified : Prop :=
  forall (engine : JsEngine) (p p' : SavePage) (draft : SoftGateFunction)
         (res : FunctionDetail),
    selectedFunctionOf (store p) = Some draft ->
    save_flow p res = Some p' ->
    position (fd_id res) (functions (store p'))
    = position (fn_id draft) (functions (store p)).

Definition without (id : Z) (l : list SoftGateFunction)
  : list SoftGateFunction :=
  filter (fun fn => negb (fn_id fn =? id)%Z) l.

(** A keyword no letter of which is upper case. *)
Fixpoint lowercase (k : string) : bool :=
  match k with
  | EmptyString => true
  | String c k' => negb (Js.is_upper c) && lowercase k'
  end.

(* ================================================================== *)
(** ** More of the store, the page and the gateway *)
(* ================================================================== *)

(** *** Text helpers *)

Definition dquote : string := String (ascii_of_nat 34) EmptyString.
Definition newline : string := String (ascii_of_nat 10) EmptyString.

(** The text of a template literal, line by line ([lines.join(newline)]). *)
Fixpoint join_lines (ls : list string) : string :=
  match ls with
  | [] => ""
  | [l] => l
  | l :: rest => (l ++ newline ++ join_lines rest)%string
  end.

(** [s.startsWith(p)] and [s.endsWith(p)]. *)
Definition startsWith (s p : string) : bool := prefix p s.

Fixpoint string_rev (s : string) : string :=
  match s with
  | EmptyString => EmptyString
  | String c s' => (string_rev s' ++ String c EmptyString)%string
  end.

Definition endsWith (s p : string) : bool :=
  prefix (string_rev p) (string_rev s).

(** [s.slice(0, -1)]: all but the last character. *)
Fixpoint dropLast (s : string) : string :=
  match s with
  | EmptyString => EmptyString
  | String c EmptyString => EmptyString
  | String c s' => String c (dropLast s')
  end.

(** [String.prototype.trim].  Strings are UTF-8 byte sequences; the
    characters removed are the ECMAScript white space and line
    terminators: U+0009 to U+000D, U+0020 (one byte), U+00A0 (C2 A0),
    U+1680 (E1 9A 80), U+2000 to U+200A, U+2028, U+2029, U+202F
    (E2 80 ..), U+205F (E2 81 9F), U+3000 (E3 80 80), U+FEFF (EF BB BF). *)
Definition ws1 (a : ascii) : bool :=
  let n := nat_of_ascii a in
  ((9 <=? n) && (n <=? 13)) || (n =? 32).

Definition ws2 (a b : ascii) : bool :=
  (nat_of_ascii a =? 194) && (nat_of_ascii b =? 160).

Definition ws3 (a b c : ascii) : bool :=
  let x := nat_of_ascii a in
  let y := nat_of_ascii b in
  let z := nat_of_ascii c in
  ((x =? 225) && (y =? 154) && (z =? 128))
  || ((x =? 226) && (y =? 128)
      && (((128 <=? z) && (z <=? 138)) || (z =? 168) || (z =? 169)
          || (z =? 175)))
  || ((x =? 226) && (y =? 129) && (z =? 159))
  || ((x =? 227) && (y =? 128) && (z =? 128))
  || ((x =? 239) && (y =? 187) && (z =? 191)).

Fixpoint trimStart (s : string) : string :=
  match s with
  | EmptyString => s
  | String a r1 =>
      if ws1 a then trimStart r1
      else
        match r1 with
        | EmptyString => s
        | String b r2 =>
            if ws2 a b then trimStart r2
            else
              match r2 with
              | EmptyString => s
              | String c r3 => if ws3 a b c then trimStart r3 else s
              end
        end
  end.

(** [trimStart] on the reversed text: the bytes of a character come last
    byte first. *)
Fixpoint trimStart_rev (s : string) : string :=
  match s with
  | EmptyString => s
  | String a r1 =>
      if ws1 a then trimStart_rev r1
      else
        match r1 with
        | EmptyString => s
        | String b r2 =>
            if ws2 b a then trimStart_rev r2
            else
              match r2 with
              | EmptyString => s
              | String c r3 => if ws3 c b a then trimStart_rev r3 else s
              end
        end
  end.

Definition trimEnd (s : string) : string :=
  string_rev (trimStart_rev (string_rev s)).

Definition trim (s : string) : string := trimEnd (trimStart s).

(** *** Templates *)

Definition template_python : string :=
  join_lines
    [ "def handler(event):";
      ("    payload = event.get(" ++ dquote ++ "payload" ++ dquote
       ++ ", {})")%string;
      ("    user = payload.get(" ++ dquote ++ "user" ++ dquote ++ ", "
       ++ dquote ++ "world" ++ dquote ++ ")")%string;
      "    return {";
      ("        " ++ dquote ++ "status" ++ dquote ++ ": " ++ dquote
       ++ "ok" ++ dquote ++ ",")%string;
      ("        " ++ dquote ++ "lang" ++ dquote ++ ": " ++ dquote
       ++ "python" ++ dquote ++ ",")%string;
      ("        " ++ dquote ++ "echo" ++ dquote ++ ": payload,")%string;
      ("        " ++ dquote ++ "message" ++ dquote ++ ": f" ++ dquote
       ++ "Hello, {user}!" ++ dquote)%string;
      "    }";
      "" ].

Definition template_node : string :=
  join_lines
    [ "exports.handler = async (event) => {";
      "  const payload = event?.payload ?? {};";
      ("  return { status: " ++ dquote ++ "ok" ++ dquote ++ ", lang: "
       ++ dquote ++ "node" ++ dquote ++ ", echo: payload };")%string;
      "};";
      "" ].

Definition template_go : string :=
  join_lines
    [ "package main";
      "";
      ("import " ++ dquote ++ "context" ++ dquote)%string;
      "";
      "func Handler(ctx context.Context, event map[string]any) (map[string]any, error) {";
      ("    return map[string]any{" ++ dquote ++ "status" ++ dquote
       ++ ": " ++ dquote ++ "ok" ++ dquote ++ ", " ++ dquote
       ++ "lang" ++ dquote ++ ": " ++ dquote ++ "go" ++ dquote
       ++ ", " ++ dquote ++ "echo" ++ dquote ++ ": event}, nil")%string;
      "}";
      "" ].

Definition samplePayload : string :=
  join_lines
    [ "{";
      ("  " ++ dquote ++ "event" ++ dquote ++ ": " ++ dquote ++ "ping"
       ++ dquote ++ ",")%string;
      ("  " ++ dquote ++ "payload" ++ dquote ++ ": {")%string;
      ("    " ++ dquote ++ "requestId" ++ dquote ++ ": " ++ dquote
       ++ "job-1234" ++ dquote ++ ",")%string;
      ("    " ++ dquote ++ "message" ++ dquote ++ ": " ++ dquote
       ++ "demonstrate 3-panel layout" ++ dquote ++ ",")%string;
      ("    " ++ dquote ++ "delayMs" ++ dquote ++ ": 1200")%string;
      "  }";
      "}" ].
Definition defaultCodeByLanguage (l : Language) : string :=
  match l with
  | python => template_python
  | node => template_node
  | go => template_go
  end.

(** *** The remaining store actions *)

(** [initialFunctions] and the store as created. *)
Definition initialFunctions : list SoftGateFunction :=
  [ {| fn_id := 1; fn_name := "ingest-events"; fn_language := python;
       fn_code := defaultCodeByLanguage python; fn_description := None |};
    {| fn_id := 2; fn_name := "image-resizer"; fn_language := node;
       fn_code := defaultCodeByLanguage node; fn_description := None |};
    {| fn_id := 3; fn_name := "metrics-collector"; fn_language := go;
       fn_code := defaultCodeByLanguage go; fn_description := None |} ].

Definition initialStore : FunctionStore :=
  {| functions := initialFunctions;
     selectedId :=
       match initialFunctions with
       | first :: _ => Some (fn_id first)
       | [] => None
       end |}.

Definition setFunctions (fs : list SoftGateFunction) (state : FunctionStore)
  : FunctionStore :=
  {| functions := fs;
     selectedId :=
       match fs with
       | first :: _ => Some (fn_id first)
       | [] => selectedId state
       end |}.

(** [fn.id === state.selectedId] *)
Definition is_selected (state : FunctionStore) (fn : SoftGateFunction)
  : bool :=
  match selectedId state with
  | Some cur => (fn_id fn =? cur)%Z
  | None => false
  end.

Definition setCode (code : string) (state : FunctionStore) : FunctionStore :=
  match find (is_selected state) (functions state) with
  | None => state
  | Some current =>
      if (fn_code current =? code)%string then state
      else
        {| functions :=
             map (fun fn =>
                    if is_selected state fn
                    then {| fn_id := fn_id fn; fn_name := fn_name fn;
                            fn_language := fn_language fn; fn_code := code;
                            fn_description := fn_description fn |}
                    else fn)
                 (functions state);
           selectedId := selectedId state |}
  end.

Definition changeLanguage (language : Language) (state : FunctionStore)
  : FunctionStore :=
  let nextCode := defaultCodeByLanguage language in
  match find (is_selected state) (functions state) with
  | None => state
  | Some current =>
      if Language_eqb (fn_language current) language
         && (fn_code current =? nextCode)%string
      then state
      else
        {| functions :=
             map (fun fn =>
                    if is_selected state fn
                    then {| fn_id := fn_id fn; fn_name := fn_name fn;
                            fn_language := language; fn_code := nextCode;
                            fn_description := fn_description fn |}
                    else fn)
                 (functions state);
           selectedId := selectedId state |}
  end.

(** [Partial<SoftGateFunction>]: the keys an object carries.  A carried
    [description] may itself be [undefined]. *)
Record PartialFunction : Type := {
  p_id : option Z;
  p_name : option string;
  p_language : option Language;
  p_code : option string;
  p_description : option (option string)
}.

(** [{ ...fn, ...partial }] *)
Definition spread_partial (fn : SoftGateFunction) (partial : PartialFunction)
  : SoftGateFunction :=
  {| fn_id := match p_id partial with Some v => v | None => fn_id fn end;
     fn_name :=
       match p_name partial with Some v => v | None => fn_name fn end;
     fn_language :=
       match p_language partial with
       | Some v => v
       | None => fn_language fn
       end;
     fn_code :=
       match p_code partial with Some v => v | None => fn_code fn end;
     fn_description :=
       match p_description partial with
       | Some v => v
       | None => fn_description fn
       end |}.

Definition mergeFunction (id : Z) (partial : PartialFunction)
  (state : FunctionStore) : FunctionStore :=
  {| functions :=
       map (fun fn =>
              if (fn_id fn =? id)%Z then spread_partial fn partial else fn)
           (functions state);
     selectedId := selectedId state |}.

(** The selection resolves: it is null or the id of a listed function. *)
Definition resolves (state : FunctionStore) : Prop :=
  match selectedId state with
  | Some cur => In cur (ids (functions state))
  | None => True
  end.

(** *** Creating and deleting a function on the page *)

(** The part of the page [handleCreateFunction] and [handleDelete] read
    and write; [pg_run] is the run tracker. *)
Record Page : Type := {
  pg_store : FunctionStore;
  pg_run : State;
  pg_payload : string;
  pg_toast : option (ToastType * string);
  draftCounter : nat;
  showCreateForm : bool;
  createName : string;
  createLanguage : Language;
  createDescription : string;
  isDeleting : bool
}.

Definition pg_showToast (ty : ToastType) (message : string) (p : Page)
  : Page :=
  {| pg_store := pg_store p; pg_run := pg_run p; pg_payload := pg_payload p;
     pg_toast := Some (ty, message); draftCounter := draftCounter p;
     showCreateForm := showCreateForm p; createName := createName p;
     createLanguage := createLanguage p;
     createDescription := createDescription p;
     isDeleting := isDeleting p |}.

Definition setIsDeleting (b : bool) (p : Page) : Page :=
  {| pg_store := pg_store p; pg_run := pg_run p; pg_payload := pg_payload p;
     pg_toast := pg_toast p; draftCounter := draftCounter p;
     showCreateForm := showCreateForm p; createName := createName p;
     createLanguage := createLanguage p;
     createDescription := createDescription p;
     isDeleting := b |}.

(** The draft [handleCreateFunction] builds. *)
Definition draftOf (p : Page) : SoftGateFunction :=
  {| fn_id := - (Z.of_nat (draftCounter p) + 1);
     fn_name := trim (createName p);
     fn_language := createLanguage p;
     fn_code := defaultCodeByLanguage (createLanguage p);
     fn_description :=
       if (createDescription p =? "")%string then None
       else Some (createDescription p) |}.

Definition handleCreateFunction (p : Page) : Page :=
  if (trim (createName p) =? "")%string
  then pg_showToast toast_error "함수 이름을 입력하세요." p
  else
    let draftFn := draftOf p in
    {| pg_store :=
         setSelected (fn_id draftFn) (upsertFunction draftFn (pg_store p));
       pg_run := onDraftCreated (pg_run p);
       pg_payload := samplePayload;
       pg_toast := pg_toast p;
       draftCounter := draftCounter p + 1;
       showCreateForm := false;
       createName := "";
       createLanguage := python;
       createDescription := "";
       isDeleting := isDeleting p |}.

(** What both branches of [handleDelete] do once the function is to go. *)
Definition deleted (id : Z) (message : string) (p : Page) : Page :=
  {| pg_store := removeFunction id (pg_store p);
     pg_run := onDeleted (pg_run p);
     pg_payload := samplePayload;
     pg_toast := Some (toast_success, message);
     draftCounter := draftCounter p;
     showCreateForm := showCreateForm p; createName := createName p;
     createLanguage := createLanguage p;
     createDescription := createDescription p;
     isDeleting := isDeleting p |}.

(** [handleDelete] up to its [await]; [confirmed] is the answer of
    [window.confirm].  The id returned is the one a [deleteFunction]
    request was sent for. *)
Definition handleDelete (confirmed : bool) (p : Page) : Page * option Z :=
  match selectedFunctionOf (pg_store p) with
  | None => (p, None)
  | Some selectedFunction =>
      if negb confirmed then (p, None)
      else if (fn_id selectedFunction <? 0)%Z
      then (deleted (fn_id selectedFunction) "초안이 삭제되었습니다." p, None)
      else (setIsDeleting true p, Some (fn_id selectedFunction))
  end.

(** The [try] body after the [await], then [finally]. *)
Definition handleDelete_resolved (id : Z) (p : Page) : Page :=
  setIsDeleting false (deleted id "삭제되었습니다." p).

(** The [catch] clause, then [finally]. *)
Definition handleDelete_rejected (error : Thrown) (p : Page) : Page :=
  setIsDeleting false
    (pg_showToast toast_error ("삭제 실패: " ++ error_text error)%string p).

(** Every draft id in the list was handed out by the counter. *)
Definition drafts_counted (p : Page) : Prop :=
  forall id, In id (ids (functions (pg_store p))) ->
             (- Z.of_nat (draftCounter p) <= id)%Z.

(** The page as mounted. *)
Definition mountedPage : Page :=
  {| pg_store := initialStore; pg_run := mounted;
     pg_payload := samplePayload; pg_toast := None; draftCounter := 0;
     showCreateForm := false; createName := ""; createLanguage := python;
     createDescription := ""; isDeleting := false |}.

(** *** The gateway: [apiRequest] once [fetch] has settled *)

(** What of a [Response] [apiRequest] reads: [res.ok], the content-type
    header and the body text. *)
Record HttpResponse : Type := {
  res_ok : bool;
  res_contentType : option string;
  res_body : string
}.

(** How [fetch] settled: rejected (network failure, abort by the timeout)
    or answered. *)
Inductive Fetched : Type :=
| FetchRejected (error : Thrown)
| FetchAnswered (res : HttpResponse).

(** What [apiRequest] hands to its caller. *)
Inductive Decoded : Type :=
| DecodedJson (v : json)
| DecodedText (t : string).

Inductive Settled : Type :=
| Fulfilled (d : Decoded)
| Rejected (error : Thrown).

(** [obj?.message] of a parsed value: only an object has the key, and a
    [null] under it counts as missing for [??].  The keys of a parsed
    object are distinct. *)
Definition message_of (v : json) : option json :=
  match v with
  | JObj fields =>
      match find (fun kv => (fst kv =? "message")%string) fields with
      | Some (_, JNull) => None
      | Some (_, m) => Some m
      | None => None
      end
  | _ => None
  end.

(** [String(v)], as [new Error(v)] applies it to a message that is not a
    string. *)
Fixpoint js_toString (v : json) : string :=
  match v with
  | JNull => "null"
  | JBool true => "true"
  | JBool false => "false"
  | JNum n => Js.show_Z n
  | JStr s => s
  | JArr items =>
      (fix join (l : list json) : string :=
         match l with
         | [] => ""
         | [x] => match x with JNull => "" | _ => js_toString x end
         | x :: rest =>
             (match x with JNull => "" | _ => js_toString x end
              ++ "," ++ join rest)%string
         end) items
  | JObj _ => "[object Object]"
  end.

Section Gateway.
Context {engine : JsEngine}.
(** The message of the [SyntaxError] that [res.json()] throws on a body
    that does not parse; it is the engine's. *)
Variable syntaxErrorMessage : string -> string.

(** The message of the error thrown for a response that is not ok. *)
Definition errorMessageOf (errPayload : json) : string :=
  match errPayload with
  | JStr text => text
  | _ =>
      match message_of errPayload with
      | Some m => js_toString m
      | None => JSON_stringify errPayload
      end
  end.

Definition apiRequest_answered (res : HttpResponse) : Settled :=
  let isJson :=
    match res_contentType res with
    | Some contentType => Js.includes contentType "application/json"
    | None => false
    end in
  if negb (res_ok res) then
    if isJson then
      match JSON_parse (res_body res) with
      | Some errPayload => Rejected (ErrorObject (errorMessageOf errPayload))
      | None => Rejected (ErrorObject (syntaxErrorMessage (res_body res)))
      end
    else Rejected (ErrorObject (res_body res))
  else if isJson then
    match JSON_parse (res_body res) with
    | Some v => Fulfilled (DecodedJson v)
    | None => Rejected (ErrorObject (syntaxErrorMessage (res_body res)))
    end
  else Fulfilled (DecodedText (res_body res)).

Definition apiRequest_settled (f : Fetched) : Settled :=
  match f with
  | FetchRejected error => Rejected error
  | FetchAnswered res => apiRequest_answered res
  end.

End Gateway.

(** *** The base URL of the gateway (the later revision of the api
    module) *)

Definition stripTrailingSlash (value : string) : string :=
  if endsWith value "/" then dropLast value else value.

Definition normalizeRelativeBase (base : string) : string :=
  let withLeading :=
    if startsWith base "/" then base else ("/" ++ base)%string in
  if (withLeading =? "/api")%string || (withLeading =? "/api/")%string
  then "/api/softgate"
  else if (withLeading =? "/")%string || (withLeading =? "")%string
  then "/api/softgate"
  else withLeading.

(** What [resolveApiBaseUrl] reads from its environment. *)
Record Environment : Type := {
  isServer : bool;
  NEXT_PUBLIC_SITE_URL : option string;
  VERCEL_URL : option string
}.

Definition resolveApiBaseUrl (env : Environment) (base : string) : string :=
  let cleaned :=
    stripTrailingSlash
      (if (base =? "")%string then "/api/softgate" else base) in
  let isAbsolute :=
    startsWith cleaned "http://" || startsWith cleaned "https://" in
  if isAbsolute then cleaned
  else
    let relativeBase := normalizeRelativeBase cleaned in
    if negb (isServer env) then relativeBase
    else
      let origin :=
        match NEXT_PUBLIC_SITE_URL env with
        | Some site => site
        | None =>
            if Js.truthy_str (VERCEL_URL env)
            then match VERCEL_URL env with
                 | Some host => ("https://" ++ host)%string
                 | None => "http://localhost:3000"
                 end
            else "http://localhost:3000"
        end in
      let normalizedOrigin :=
        if endsWith origin "/" then dropLast origin else origin in
      (normalizedOrigin ++ relativeBase)%string.

(** *** Further derived notions *)

(** The run-timeout and its ref agree: a held id is the one live timeout,
    of 60000 ms, and nothing is live when no id is held. *)
Definition timeout_armed (s : State) : Prop :=
  match runTimeoutRef (refs s) with
  | Some t =>
      timeouts (browser s) = [{| to_id := t; to_delay := RUN_TIMEOUT_MS |}]
  | None => timeouts (browser s) = []
  end.

(** The function [id] was invoked: the call log holds its submit. *)
Definition invoked (s : State) (id : Z) : Prop :=
  exists parsed, In (CallInvoke id parsed) (calls (browser s)).

(** Whatever polls, or is about to start polling, does so for a function
    that was invoked. *)
Definition polls_invoked (s : State) : Prop :=
  (forall iv, In iv (intervals (browser s)) ->
              invoked s (poll_functionId (iv_closure iv)))
  /\ (forall rq cl, In (rq, cl) (polling (browser s)) ->
                    invoked s (poll_functionId cl))
  /\ (forall rq cl, In (rq, cl) (invoking (browser s)) ->
                    invoked s (inv_functionId cl))
  /\ (forall id invocationId,
         In (CallGetInvocationStatus id invocationId) (calls (browser s)) ->
         invoked s id).

(** The events that start the log afresh. *)
Definition restarts_log (e : Event) : bool :=
  match e with
  | Run _ _ _ => true
  | Deleted => true
  | DraftCreated => true
  | _ => false
  end.

(** The request a tick of [iv] sends. *)
Definition poll_of (iv : Interval) : Call :=
  CallGetInvocationStatus (poll_functionId (iv_closure iv))
    (poll_invocationId (iv_closure iv)).

(** *** The Reset button *)

(** The click handler of the Reset button of the run card; the payload it
    restores is no part of the tracker. *)
Definition onReset (s : State) : State :=
  let s := setJsonError None s in
  let s := setRunMessage None s in
  let s := setRunStatus idle s in
  let s := setRunLogs (fun _ => []) s in
  let s := setRunResult "" s in
  let s := setRunDurationMs None s in
  let s := setIsRunning false s in
  clearPoll s.

(** The events of the tracker and the Reset click. *)
Inductive PageEvent : Type :=
| Tracked (e : Event)
| Reset.

Definition step_page {engine : JsEngine} (s : State) (e : PageEvent)
  : option State :=
  match e with
  | Tracked e => step s e
  | Reset => Some (onReset s)
  end.

Fixpoint exec_page {engine : JsEngine} (s : State) (es : list PageEvent)
  : option State :=
  match es with
  | [] => Some s
  | e :: rest =>
      match step_page s e with
      | Some s' => exec_page s' rest
      | None => None
      end
  end.

(** A run was deleted under way: the page still says running, and nothing
    is left that could say otherwise. *)
Definition stranded (s : State) : Prop :=
  isRunning (view s) = true
  /\ intervals (browser s) = []
  /\ timeouts (browser s) = []
  /\ invoking (browser s) = []
  /\ polling (browser s) = [].

(** The poll answered in [s] left the session going in [s']: the status
    [p] is shown and remembered, and the timers, the other refs and the
    call log are as they were. *)
Definition polling_goes_on (p : RunStatus) (s s' : State) : Prop :=
  runStatus (view s') = p
  /\ isRunning (view s') = isRunning (view s)
  /\ runMessage (view s') = runMessage (view s)
  /\ lastStatusRef (refs s') = Some p
  /\ pollRef (refs s') = pollRef (refs s)
  /\ runTimeoutRef (refs s') = runTimeoutRef (refs s)
  /\ pollAttemptsRef (refs s') = pollAttemptsRef (refs s)
  /\ intervals (browser s') = intervals (browser s)
  /\ timeouts (browser s') = timeouts (browser s)
  /\ calls (browser s') = calls (browser s).

(* ================================================================== *)
(** * Part II: properties *)
(* ================================================================== *)

(** ** The status normalizer *)

(** [includes] is substring occurrence. *)
Lemma prefix_app (k s : string) :
  prefix k s = true <-> exists post, s = (k ++ post)%string.
Proof.
  revert s. induction k as [| a k IH]; intros s.
  - destruct s; cbn; split; eauto.
  - destruct s as [| b s]; cbn.
    + split; [discriminate | intros [post H]; discriminate].
    + destruct (ascii_dec a b) as [<- | Hab].
      * rewrite IH. split; intros [post H]; exists post.
        -- now subst.
        -- now injection H.
      * split; [discriminate |].
        intros [post H]. injection H as H1 H2. now subst.
Qed.

Lemma includes_occurs (s k : string) :
  Js.includes s k = true <-> exists pre post, s = (pre ++ k ++ post)%string.
Proof.
  induction s as [| c s IH]; cbn [Js.includes].
  - rewrite prefix_app. split.
    + intros [post H]. exists EmptyString, post. exact H.
    + intros [pre [post H]]. destruct pre; [| discriminate].
      exists post. exact H.
  - rewrite orb_true_iff, IH, prefix_app. split.
    + intros [[post H] | [pre [post H]]].
      * exists EmptyString, post. exact H.
      * exists (String c pre), post. cbn. now rewrite H.
    + intros [pre [post H]]. destruct pre as [| c' pre].
      * left. exists post. exact H.
      * right. cbn in H. injection H as _ H. now exists pre, post.
Qed.

Lemma lower_char_same_letter (a b : ascii) :
  Js.is_upper a = false ->
  Ascii.eqb a (Js.lower_char b) = NormalizeSpec.same_letter a b.
Proof.
  intros Ha. unfold NormalizeSpec.same_letter, Js.lower_char.
  rewrite Ha. cbn [andb orb]. rewrite orb_false_r.
  destruct (Js.is_upper b) eqn:Hb; cbn [andb].
  - assert (Hne : Ascii.eqb a b = false).
    { apply Ascii.eqb_neq. intros ->. congruence. }
    rewrite Hne. cbn [orb].
    unfold Js.is_upper in Hb. apply andb_true_iff in Hb as [_ Hb].
    apply N.leb_le in Hb.
    destruct (N.eqb_spec (N_of_ascii a) (N_of_ascii b + 32)) as [E | E].
    + apply Ascii.eqb_eq. rewrite <- E. now rewrite ascii_N_embedding.
    + apply Ascii.eqb_neq. intros ->. apply E.
      rewrite N_ascii_embedding; [reflexivity | lia].
  - now rewrite orb_false_r.
Qed.

Lemma prefix_lower_heads_ci (k s : string) :
  lowercase k = true ->
  prefix k (Js.toLowerCase s) = NormalizeSpec.heads_ci k s.
Proof.
  revert s. induction k as [| a k IH]; intros s Hk; [now destruct s |].
  cbn [lowercase] in Hk. apply andb_true_iff in Hk as [Ha Hk].
  apply negb_true_iff in Ha.
  destruct s as [| b s]; [reflexivity |].
  cbn [Js.toLowerCase prefix NormalizeSpec.heads_ci].
  rewrite <- (lower_char_same_letter a b Ha).
  destruct (ascii_dec a (Js.lower_char b)) as [E | E].
  - rewrite (proj2 (Ascii.eqb_eq _ _) E). now rewrite IH.
  - now rewrite (proj2 (Ascii.eqb_neq _ _) E).
Qed.

Lemma includes_lower_contains_ci (k s : string) :
  lowercase k = true ->
  Js.includes (Js.toLowerCase s) k = NormalizeSpec.contains_ci s k.
Proof.
  intros Hk. induction s as [| b s IH].
  - cbn. now destruct k.
  - cbn [Js.toLowerCase Js.includes NormalizeSpec.contains_ci].
    rewrite IH. f_equal.
    change (String (Js.lower_char b) (Js.toLowerCase s))
      with (Js.toLowerCase (String b s)).
    now apply prefix_lower_heads_ci.
Qed.

Example normalizeStatus_samples :
  normalizeStatus (Some "QUEUED") = queued
  /\ normalizeStatus (Some "Running") = processing
  /\ normalizeStatus (Some "Completed") = success
  /\ normalizeStatus (Some "DONE") = success
  /\ normalizeStatus (Some "Error: boom") = fail
  /\ normalizeStatus (Some "queue-failed") = queued
  /\ normalizeStatus (Some "process done") = processing
  /\ normalizeStatus (Some "complete, 0 failed") = success
  /\ normalizeStatus (Some "???") = processing
  /\ normalizeStatus (Some "") = processing
  /\ normalizeStatus None = processing.
Proof. repeat split. Qed.

(** C8.  The status normalizer is a total function of the raw status (an
    absent status included) that agrees with the ordered, case-insensitive
    keyword table of the specification, the first matching group deciding
    and [processing] standing for no match, and its value is always one of
    the four canonical states. *)
Theorem normalizeStatus_first_match (rawStatus : option string) :
  normalizeStatus rawStatus = NormalizeSpec.normalize rawStatus
  /\ NormalizeSpec.canonical (normalizeStatus rawStatus).
Proof.
  assert (E : normalizeStatus rawStatus = NormalizeSpec.normalize rawStatus).
  { unfold normalizeStatus, NormalizeSpec.normalize.
    set (raw := match rawStatus with Some s => s | None => "" end).
    replace (match rawStatus with Some s => Js.toLowerCase s | None => "" end)
      with (Js.toLowerCase raw) by (subst raw; now destruct rawStatus).
    cbn [NormalizeSpec.rules NormalizeSpec.first_match existsb].
    rewrite !includes_lower_contains_ci by reflexivity.
    rewrite !orb_false_r, ?orb_assoc. reflexivity. }
  split; [exact E |].
  rewrite E. unfold NormalizeSpec.normalize, NormalizeSpec.canonical.
  cbn [NormalizeSpec.rules NormalizeSpec.first_match].
  repeat match goal with |- context [if ?c then _ else _] => destruct c end;
    auto.
Qed.

(** ** Handlers in closed form: the equations *)

Lemma clearPoll_eq (s : State) :
  clearPoll s
  = {| view := view s; refs := cleared;
       browser :=
         clear_browser (pollRef (refs s)) (runTimeoutRef (refs s))
           (browser s) |}.
Proof.
  destruct s as [w [p t a l c] [nt ivs tos nr inv pol cs]].
  unfold clearPoll. cbn. destruct p, t; reflexivity.
Qed.

Lemma onRunTimeout_eq (s : State) :
  onRunTimeout s = aborted "실행 시간 초과" "[Error] 실행 시간 초과" s.
Proof. unfold onRunTimeout. rewrite clearPoll_eq. reflexivity. Qed.

Lemma onDeleted_eq {engine : JsEngine} (s : State) :
  refs (onDeleted s) = cleared
  /\ browser (onDeleted s)
     = clear_browser (pollRef (refs s)) (runTimeoutRef (refs s)) (browser s).
Proof. unfold onDeleted. rewrite clearPoll_eq. split; reflexivity. Qed.

Lemma handlePayloadChange_eq {engine : JsEngine} (value : option string)
  (s : State) :
  refs (handlePayloadChange value s) = refs s
  /\ browser (handlePayloadChange value s) = browser s.
Proof.
  unfold handlePayloadChange. destruct (JSON_parse _); split; reflexivity.
Qed.

Lemma onPollRejected_eq {engine : JsEngine} (error : Thrown) (s : State) :
  onPollRejected error s
  = aborted ("폴링 실패: " ++ error_text error)%string
      ("[Error] " ++ error_text error)%string s.
Proof. unfold onPollRejected. rewrite clearPoll_eq. reflexivity. Qed.

Lemma onInvokeRejected_eq {engine : JsEngine} (error : Thrown) (s : State) :
  onInvokeRejected error s
  = aborted ("실행 요청 실패: " ++ error_text error)%string
      ("[Error] " ++ error_text error)%string s.
Proof. unfold onInvokeRejected. rewrite clearPoll_eq. reflexivity. Qed.

Lemma onTick_eq (cl : PollClosure) (s : State) :
  onTick cl s
  = if MAX_POLL_ATTEMPTS <=? pollAttemptsRef (refs s) + 1
    then aborted "폴링 타임아웃" "[Error] 폴링 타임아웃" s
    else getInvocationStatus cl
           (set_pollAttemptsRef (pollAttemptsRef (refs s) + 1) s).
Proof.
  unfold onTick. cbn [set_pollAttemptsRef on_refs refs pollAttemptsRef].
  destruct (MAX_POLL_ATTEMPTS <=? pollAttemptsRef (refs s) + 1);
    [| reflexivity].
  rewrite clearPoll_eq. reflexivity.
Qed.

Lemma onPollResolved_eq {engine : JsEngine} (cl : PollClosure)
  (res : InvokeResponse) (now : Z) (s : State) :
  onPollResolved cl res now s
  = let s1 := recorded res s in
    if nonterminal (polledStatusOf res)
       && (MAX_STUCK_ATTEMPTS <=? stuckCountRef (refs s1))
    then aborted "상태 변화 없이 대기 시간 초과"
           "[Error] 상태 변화 없음으로 중단" s1
    else if terminal (polledStatusOf res)
    then {| view := finished_view cl res now (view s1);
            refs := cleared;
            browser :=
              clear_browser (pollRef (refs s)) (runTimeoutRef (refs s))
                (browser s) |}
    else s1.
Proof.
  assert (E : onPollResolved cl res now s
              = let polledStatus := polledStatusOf res in
                let s1 := recorded res s in
                if nonterminal polledStatus
                   && (MAX_STUCK_ATTEMPTS <=? stuckCountRef (refs s1))
                then
                  let s := clearPoll s1 in
                  let s := setIsRunning false s in
                  let s := setRunStatus fail s in
                  let s :=
                    setRunMessage (Some "상태 변화 없이 대기 시간 초과") s in
                  setRunLogs
                    (fun prev =>
                       (prev ++ ["[Error] 상태 변화 없음으로 중단"])%list) s
                else if terminal polledStatus
                then
                  let s := clearPoll s1 in
                  let s := setIsRunning false s in
                  let s :=
                    setRunMessage
                      (Some (if RunStatus_eqb polledStatus success
                             then "실행 완료"
                             else match error_message res with
                                  | Some m => m
                                  | None => "실행 실패"
                                  end)) s in
                  match duration_ms res with
                  | None =>
                      setRunDurationMs (Some (now - poll_startedAt cl)%Z) s
                  | Some _ => s
                  end
                else s1).
  { unfold onPollResolved, recorded, recorded_view, recorded_refs,
      nonterminal, terminal.
    destruct s as [w [p t a last c] b].
    destruct (duration_ms res), (result res) as [v |],
      (logged_at res) as [l |];
      try destruct (truthy v); try destruct (Js.truthy_str (Some l));
      cbn [refs lastStatusRef stuckCountRef on_view on_refs setRunStatus
             setRunDurationMs setRunResult setRunLogs];
      destruct (option_RunStatus_eqb (polledStatusOf res) last);
      reflexivity. }
  rewrite E. cbv zeta.
  destruct (nonterminal (polledStatusOf res)
            && (MAX_STUCK_ATTEMPTS <=? stuckCountRef (refs (recorded res s)))).
  - rewrite clearPoll_eq. reflexivity.
  - destruct (terminal (polledStatusOf res)); [| reflexivity].
    rewrite clearPoll_eq. unfold finished_view.
    destruct (duration_ms res); reflexivity.
Qed.

Lemma handleRun_eq {engine : JsEngine} (fn : SoftGateFunction)
  (payload : string) (parsed : json) (now : Z) (s : State) :
  (fn_id fn <? 0)%Z = false ->
  JSON_parse payload = Some parsed ->
  handleRun (Some fn) payload now s = started fn parsed now s.
Proof.
  intros Hid Hparse. unfold handleRun. rewrite Hid, Hparse.
  cbv zeta.
  match goal with
  | |- context [clearPoll ?x] => rewrite (clearPoll_eq x)
  end.
  reflexivity.
Qed.

Lemma onInvokeResolved_missing {engine : JsEngine} (cl : InvokeClosure)
  (invokeRes : InvokeResponse) (s : State) :
  truthy_num (invocation_id invokeRes) = false ->
  onInvokeResolved cl invokeRes s
  = {| view :=
         {| jsonError := jsonError (view s); isRunning := false;
            runMessage := Some "invocation_id 누락";
            activeTab := activeTab (view s); runStatus := fail;
            runLogs :=
              runLogs (view s) ++ ["[Error] invocation_id가 응답에 없습니다."];
            runResult := runResult (accepted_view invokeRes (view s));
            runDurationMs :=
              runDurationMs (accepted_view invokeRes (view s)) |};
       refs := refs s;
       browser := browser s |}.
Proof.
  intros H. unfold onInvokeResolved, accepted_view.
  destruct s as [w r b].
  destruct (invocation_id invokeRes) as [i |]; cbn in H.
  - cbn [truthy_num]. rewrite H.
    destruct (result invokeRes) as [v |], (duration_ms invokeRes);
      try destruct (truthy v); reflexivity.
  - destruct (result invokeRes) as [v |], (duration_ms invokeRes);
      try destruct (truthy v); reflexivity.
Qed.

Lemma onInvokeResolved_accepted {engine : JsEngine} (cl : InvokeClosure)
  (invokeRes : InvokeResponse) (invocationId : Z) (s : State) :
  invocation_id invokeRes = Some invocationId ->
  invocationId <> 0%Z ->
  onInvokeResolved cl invokeRes s
  = {| view :=
         {| jsonError := jsonError (view s); isRunning := isRunning (view s);
            runMessage := runMessage (view s);
            activeTab := activeTab (view s);
            runStatus := normalizeStatus (status invokeRes);
            runLogs :=
              runLogs (view s)
              ++ [("[Invoke] id=" ++ Js.show_Z invocationId ++ " status="
                   ++ match status invokeRes with
                      | Some raw => raw
                      | None => "queued"
                      end)%string];
            runResult := runResult (accepted_view invokeRes (view s));
            runDurationMs :=
              runDurationMs (accepted_view invokeRes (view s)) |};
       refs :=
         {| pollRef := Some (nextTimer (browser s));
            runTimeoutRef := runTimeoutRef (refs s);
            pollAttemptsRef := pollAttemptsRef (refs s);
            lastStatusRef := lastStatusRef (refs s);
            stuckCountRef := stuckCountRef (refs s) |};
       browser :=
         {| nextTimer := S (nextTimer (browser s));
            intervals :=
              intervals (browser s)
              ++ [{| iv_id := nextTimer (browser s);
                     iv_period := POLL_INTERVAL_MS;
                     iv_closure :=
                       {| poll_functionId := inv_functionId cl;
                          poll_invocationId := invocationId;
                          poll_startedAt := inv_startedAt cl |} |}];
            timeouts := timeouts (browser s);
            nextRequest := nextRequest (browser s);
            invoking := invoking (browser s);
            polling := polling (browser s);
            calls := calls (browser s) |} |}.
Proof.
  intros Hid Hnz. unfold onInvokeResolved, accepted_view.
  rewrite Hid. cbn [truthy_num].
  rewrite (proj2 (Z.eqb_neq _ _) Hnz). cbn [negb].
  destruct s as [w r b].
  destruct (result invokeRes) as [v |], (duration_ms invokeRes);
    try destruct (truthy v); reflexivity.
Qed.

(** ** Timers and requests across a step *)

Lemma lookup_In {A : Type} (k : nat) (l : list (nat * A)) (v : A) :
  lookup k l = Some v -> In (k, v) l.
Proof.
  unfold lookup. destruct (find _ l) as [[k' v'] |] eqn:F; [| discriminate].
  cbn. intros [= <-]. apply find_some in F as [Hin Hk].
  cbn in Hk. apply Nat.eqb_eq in Hk. now subst.
Qed.

Lemma lookup_last {A : Type} (k : nat) (l : list (nat * A)) (v : A) :
  exists v', lookup k (l ++ [(k, v)]) = Some v'.
Proof.
  unfold lookup. induction l as [| [k' w] l IH]; cbn.
  - rewrite Nat.eqb_refl. cbn. eauto.
  - destruct (Nat.eqb k' k); cbn; eauto.
Qed.

Lemma find_interval_In (t : nat) (s : State) (iv : Interval) :
  find_interval t s = Some iv ->
  In iv (intervals (browser s)) /\ iv_id iv = t.
Proof.
  unfold find_interval. intros F. apply find_some in F as [Hin Hid].
  split; [exact Hin | now apply Nat.eqb_eq].
Qed.

Lemma clear_browser_intervals (p t : option nat) (b : Browser)
  (iv : Interval) :
  In iv (intervals (clear_browser p t b)) -> In iv (intervals b).
Proof.
  destruct p; cbn; [| auto]. intros H. now apply filter_In in H.
Qed.

Lemma clear_browser_timeouts (p t : option nat) (b : Browser)
  (tm : Timeout) :
  In tm (timeouts (clear_browser p t b)) -> In tm (timeouts b).
Proof.
  destruct t; cbn; [| auto]. intros H. now apply filter_In in H.
Qed.

(** Clearing the interval a single session refers to leaves no interval. *)
Lemma clear_single_session (s : State) (t : option nat) :
  single_session s ->
  intervals (clear_browser (pollRef (refs s)) t (browser s)) = [].
Proof.
  intros H. destruct (pollRef (refs s)) as [p |] eqn:Hp; cbn.
  - destruct (filter _ _) as [| iv l] eqn:F; [reflexivity |].
    assert (Hin : In iv (filter (fun iv => negb (Nat.eqb (iv_id iv) p))
                           (intervals (browser s))))
      by (rewrite F; now left).
    apply filter_In in Hin as [Hin Hne].
    apply H in Hin. rewrite Hp in Hin. injection Hin as ->.
    now rewrite Nat.eqb_refl in Hne.
  - destruct (intervals (browser s)) as [| iv l] eqn:F; [reflexivity |].
    assert (Hin : In iv (intervals (browser s))) by (rewrite F; now left).
    apply H in Hin. congruence.
Qed.

Lemma clear_single_timeout (s : State) (p : option nat) :
  single_timeout s ->
  timeouts (clear_browser p (runTimeoutRef (refs s)) (browser s)) = [].
Proof.
  intros H. destruct (runTimeoutRef (refs s)) as [t |] eqn:Ht; cbn.
  - destruct (filter _ _) as [| tm l] eqn:F; [reflexivity |].
    assert (Hin : In tm (filter (fun tm => negb (Nat.eqb (to_id tm) t))
                           (timeouts (browser s))))
      by (rewrite F; now left).
    apply filter_In in Hin as [Hin Hne].
    apply H in Hin. rewrite Ht in Hin. injection Hin as ->.
    now rewrite Nat.eqb_refl in Hne.
  - destruct (timeouts (browser s)) as [| tm l] eqn:F; [reflexivity |].
    assert (Hin : In tm (timeouts (browser s))) by (rewrite F; now left).
    apply H in Hin. congruence.
Qed.

Lemma handleRun_cases {engine : JsEngine}
  (selectedFunction : option SoftGateFunction) (payload : string) (now : Z)
  (s : State) :
  (refs (handleRun selectedFunction payload now s) = refs s
   /\ browser (handleRun selectedFunction payload now s) = browser s)
  \/ exists fn parsed,
       selectedFunction = Some fn
       /\ (fn_id fn <? 0)%Z = false
       /\ JSON_parse payload = Some parsed
       /\ handleRun selectedFunction payload now s = started fn parsed now s.
Proof.
  destruct selectedFunction as [fn |]; [| left; split; reflexivity].
  destruct (fn_id fn <? 0)%Z eqn:Hid.
  - left. unfold handleRun. rewrite Hid. split; reflexivity.
  - destruct (JSON_parse payload) as [parsed |] eqn:Hparse.
    + right. exists fn, parsed. auto using handleRun_eq.
    + left. unfold handleRun. rewrite Hid, Hparse. split; reflexivity.
Qed.

(** *** No poll without a live interval and no interval without a pending
    submit *)

Lemma quiet_step {engine : JsEngine} (s s' : State) (e : Event) :
  quiet s -> is_run e = false -> step s e = Some s' ->
  quiet s' /\ calls (browser s') = calls (browser s).
Proof.
  intros [Hi Hv] He Hs. destruct e; cbn in He; try discriminate; cbn in Hs.
  - rewrite Hv in Hs. discriminate.
  - rewrite Hv in Hs. discriminate.
  - unfold find_interval in Hs. rewrite Hi in Hs. discriminate.
  - destruct (lookup rq _); [| discriminate]. injection Hs as <-.
    rewrite onPollResolved_eq. cbv zeta.
    destruct (_ && _); [| destruct (terminal _)];
      unfold quiet; cbn; rewrite ?Hi, ?Hv;
      destruct (pollRef (refs s)); cbn; auto.
  - destruct (lookup rq _); [| discriminate]. injection Hs as <-.
    rewrite onPollRejected_eq. unfold quiet; cbn. rewrite ?Hi, ?Hv.
    destruct (pollRef (refs s)); cbn; auto.
  - destruct (find_timeout t s); [| discriminate]. injection Hs as <-.
    rewrite onRunTimeout_eq. unfold quiet; cbn. rewrite ?Hi, ?Hv.
    destruct (pollRef (refs s)); cbn; auto.
  - injection Hs as <-. unfold quiet.
    rewrite (proj2 (onDeleted_eq s)). cbn. rewrite ?Hi, ?Hv.
    destruct (pollRef (refs s)); cbn; auto.
  - injection Hs as <-. unfold quiet. cbn. auto.
  - injection Hs as <-. unfold quiet.
    rewrite (proj2 (handlePayloadChange_eq value s)). auto.
Qed.

Lemma quiet_exec {engine : JsEngine} (es : list Event) (s s' : State) :
  quiet s -> forallb (fun e => negb (is_run e)) es = true ->
  exec s es = Some s' ->
  quiet s' /\ calls (browser s') = calls (browser s).
Proof.
  revert s. induction es as [| e es IH]; intros s Hq Hes Hx; cbn in Hx.
  - injection Hx as <-. auto.
  - cbn in Hes. apply andb_true_iff in Hes as [He Hes].
    apply negb_true_iff in He.
    destruct (step s e) as [s1 |] eqn:Hs; [| discriminate].
    destruct (quiet_step s s1 e Hq He Hs) as [Hq1 Hc1].
    destruct (IH s1 Hq1 Hes Hx) as [Hq' Hc']. split; congruence.
Qed.

(** ** What holds of every reachable state, and of runs that do not
    overlap *)

Lemma single_timeout_aborted (message line : string) (s : State) :
  single_timeout s -> single_timeout (aborted message line s).
Proof.
  intros H tm Hin. unfold aborted in Hin. cbn [browser] in Hin.
  rewrite (clear_single_timeout s (pollRef (refs s)) H) in Hin.
  destruct Hin.
Qed.

Lemma single_timeout_step {engine : JsEngine} (s s' : State) (e : Event) :
  single_timeout s -> step s e = Some s' -> single_timeout s'.
Proof.
  intros Hst Hs. destruct e; cbn [step] in Hs.
  - injection Hs as <-.
    destruct (handleRun_cases selectedFunction payload now s)
      as [[Hr Hb] | (fn & parsed & _ & _ & _ & ->)].
    + unfold single_timeout. now rewrite Hr, Hb.
    + intros tm Hin. unfold started in *.
      cbn [browser refs timeouts runTimeoutRef] in *.
      pose proof (clear_single_timeout s (pollRef (refs s)) Hst) as E.
      rewrite E in Hin. destruct Hin as [<- | []]. reflexivity.
  - destruct (lookup rq _) as [cl |]; [| discriminate]. injection Hs as <-.
    assert (Hst' : single_timeout (settle_invoke rq s)) by exact Hst.
    destruct (truthy_num (invocation_id invokeRes)) eqn:Hid.
    + destruct (invocation_id invokeRes) as [i |] eqn:Ei; [| discriminate].
      cbn in Hid. apply negb_true_iff, Z.eqb_neq in Hid.
      rewrite (onInvokeResolved_accepted cl invokeRes i _ Ei Hid).
      exact Hst'.
    + rewrite (onInvokeResolved_missing cl invokeRes _ Hid). exact Hst'.
  - destruct (lookup rq _); [| discriminate]. injection Hs as <-.
    rewrite onInvokeRejected_eq.
    now apply (single_timeout_aborted _ _ (settle_invoke rq s)).
  - destruct (find_interval t s) as [iv |]; [| discriminate].
    injection Hs as <-. rewrite onTick_eq.
    destruct (MAX_POLL_ATTEMPTS <=? _).
    + now apply single_timeout_aborted.
    + exact Hst.
  - destruct (lookup rq _) as [cl |]; [| discriminate]. injection Hs as <-.
    assert (Hst' : single_timeout (settle_poll rq s)) by exact Hst.
    rewrite onPollResolved_eq. cbv zeta.
    destruct (_ && _); [| destruct (terminal _)].
    + now apply (single_timeout_aborted _ _ (recorded res (settle_poll rq s))).
    + intros tm Hin. cbn [browser] in Hin.
      rewrite (clear_single_timeout (settle_poll rq s) _ Hst') in Hin.
      destruct Hin.
    + exact Hst'.
  - destruct (lookup rq _); [| discriminate]. injection Hs as <-.
    rewrite onPollRejected_eq.
    now apply (single_timeout_aborted _ _ (settle_poll rq s)).
  - destruct (find_timeout t s); [| discriminate]. injection Hs as <-.
    rewrite onRunTimeout_eq. apply single_timeout_aborted.
    intros tm Hin. apply Hst. cbn in Hin. now apply filter_In in Hin.
  - injection Hs as <-. intros tm Hin.
    rewrite (proj2 (onDeleted_eq s)) in Hin.
    rewrite (clear_single_timeout s (pollRef (refs s)) Hst) in Hin.
    destruct Hin.
  - injection Hs as <-. exact Hst.
  - injection Hs as <-. unfold single_timeout.
    destruct (handlePayloadChange_eq value s) as [-> ->]. exact Hst.
Qed.

(** The run-timeout is never orphaned: in every state the page can reach,
    a live timeout is the one [runTimeoutRef] holds. *)
Lemma run_timeout_never_orphaned {engine : JsEngine} (es : list Event)
  (s : State) :
  exec mounted es = Some s -> single_timeout s.
Proof.
  assert (G : forall es s0 s, single_timeout s0 -> exec s0 es = Some s ->
                              single_timeout s).
  { clear es s. induction es as [| e es IH]; intros s0 s H0 Hx; cbn in Hx.
    - now injection Hx as <-.
    - destruct (step s0 e) as [s1 |] eqn:Hs; [| discriminate].
      eauto using single_timeout_step. }
  apply G. intros tm [].
Qed.

(** X2.  Runs that do not overlap keep one polling timer: from a
    well-formed session with no submit in flight, a run and the answer to
    its submit leave exactly the new interval live, and [pollRef] holds
    it. *)
Lemma sequential_run_keeps_one_timer {engine : JsEngine} (s : State)
  (fn : SoftGateFunction) (payload : string) (parsed : json) (now : Z)
  (invokeRes : InvokeResponse) (invocationId : Z) :
  (fn_id fn <? 0)%Z = false ->
  JSON_parse payload = Some parsed ->
  single_session s ->
  invoking (browser s) = [] ->
  invocation_id invokeRes = Some invocationId ->
  invocationId <> 0%Z ->
  exists s' iv,
    exec s [Run (Some fn) payload now;
            InvokeResolved (nextRequest (browser s)) invokeRes] = Some s'
    /\ intervals (browser s') = [iv]
    /\ pollRef (refs s') = Some (iv_id iv)
    /\ iv_period iv = POLL_INTERVAL_MS
    /\ poll_invocationId (iv_closure iv) = invocationId
    /\ poll_functionId (iv_closure iv) = fn_id fn
    /\ single_session s'.
Proof.
  intros Hid Hparse Hss Hv Hinv Hnz.
  cbn [exec step]. rewrite (handleRun_eq fn payload parsed now s Hid Hparse).
  pose proof (clear_single_session s (runTimeoutRef (refs s)) Hss) as Ei.
  unfold started at 1.
  cbn [browser invoking clear_browser nextRequest]. rewrite Hv.
  unfold lookup. cbn [app find fst]. rewrite Nat.eqb_refl.
  cbn [option_map snd].
  rewrite (onInvokeResolved_accepted _ invokeRes invocationId _ Hinv Hnz).
  do 2 eexists. split; [reflexivity |].
  cbn [browser refs intervals pollRef settle_invoke on_browser started
         clear_browser].
  cbn [clear_browser intervals] in Ei. rewrite Ei. cbn [app].
  repeat (split; [reflexivity |]).
  intros iv [<- | []]. reflexivity.
Qed.

(** ** Preconditions of a run *)

Section RunProperties.
Context {engine : JsEngine}.

(** C7.  A run attempted with an unmet precondition (no function selected,
    a selected function with a negative id, a payload that does not parse)
    sends no request and leaves timers, refs and the run shown to the user
    as they were; the only change is the report of one precondition that is
    indeed unmet, in [runMessage] or in [jsonError]. *)
Theorem handleRun_unmet_precondition
  (selectedFunction : option SoftGateFunction) (payload : string) (now : Z)
  (s : State) :
  (exists p, unmet p selectedFunction payload) ->
  let s' := handleRun selectedFunction payload now s in
  calls (browser s') = calls (browser s)
  /\ browser s' = browser s
  /\ refs s' = refs s
  /\ same_run s s'
  /\ exists p, unmet p selectedFunction payload /\ reported p s s'.
Proof.
  intros [p Hp]. unfold handleRun, same_run.
  destruct selectedFunction as [fn |].
  - destruct (fn_id fn <? 0)%Z eqn:Hid.
    + cbn. repeat split.
      exists UnsavedDraft. cbn. split; [| auto].
      exists fn. split; [reflexivity |]. now apply Z.ltb_lt.
    + destruct (JSON_parse payload) eqn:Hparse.
      * exfalso. destruct p; cbn in Hp.
        -- discriminate.
        -- destruct Hp as [fn' [E Hneg]]. injection E as <-.
           apply Z.ltb_ge in Hid. lia.
        -- congruence.
      * cbn. repeat split.
        exists InvalidJson. cbn. auto.
  - cbn. repeat split. exists NoSelection. cbn. auto.
Qed.

End RunProperties.

Lemma handleRun_unmet_precondition_witness :
  (exists p,
      @unmet sampleEngine p (Some (sampleFunction (-1) "draft-a")) "{}")
  /\ calls
       (browser
          (@handleRun sampleEngine (Some (sampleFunction (-1) "draft-a"))
             "{}" 0%Z samplePolling))
     = calls (browser samplePolling).
Proof.
  assert (H : exists p,
             @unmet sampleEngine p (Some (sampleFunction (-1) "draft-a"))
               "{}").
  { exists UnsavedDraft. cbn. eexists. split; [reflexivity | cbn; lia]. }
  split; [exact H |].
  exact (proj1 (@handleRun_unmet_precondition sampleEngine _ _ 0%Z
                  samplePolling H)).
Defined.

(** ** Promotion and demotion of a stale "processing" *)

Lemma clearPoll_view (s : State) : view (clearPoll s) = view s.
Proof. now rewrite clearPoll_eq. Qed.

Lemma clearPoll_refs (s : State) : refs (clearPoll s) = cleared.
Proof. now rewrite clearPoll_eq. Qed.

(** What a poll response does to the status shown, by the status it is
    taken to report. *)
Lemma onPollResolved_terminal {engine : JsEngine} (cl : PollClosure)
  (res : InvokeResponse) (now : Z) (s : State) :
  polledStatusOf res = success \/ polledStatusOf res = fail ->
  runStatus (view (onPollResolved cl res now s)) = polledStatusOf res
  /\ isRunning (view (onPollResolved cl res now s)) = false
  /\ refs (onPollResolved cl res now s) = cleared.
Proof.
  intros H. rewrite onPollResolved_eq. cbv zeta.
  assert (E1 : nonterminal (polledStatusOf res) = false)
    by (destruct H as [-> | ->]; reflexivity).
  assert (E2 : terminal (polledStatusOf res) = true)
    by (destruct H as [-> | ->]; reflexivity).
  rewrite E1, E2. cbn. auto.
Qed.

Lemma polledStatusOf_promoted (res : InvokeResponse) :
  normalizeStatus (status res) = processing ->
  truthy_prop (result res) = true ->
  polledStatusOf res = success.
Proof. intros Hn Hr. unfold polledStatusOf. now rewrite Hn, Hr. Qed.

Lemma polledStatusOf_demoted (res : InvokeResponse) :
  normalizeStatus (status res) = processing ->
  truthy_prop (result res) = false ->
  Js.truthy_str (error_message res) = true ->
  polledStatusOf res = fail.
Proof. intros Hn Hr He. unfold polledStatusOf. now rewrite Hn, Hr, He. Qed.

(** C2, as the code has it.  Of a poll response whose raw status
    normalizes to [processing]: with a truthy result the tracker shows
    [success]; with a non-empty error message and no truthy result it shows
    [fail].  The result is looked at first, so a response carrying both is
    a success. *)
Theorem poll_promotion_result_first {engine : JsEngine} (cl : PollClosure)
  (res : InvokeResponse) (now : Z) (s : State) :
  normalizeStatus (status res) = processing ->
  (truthy_prop (result res) = true ->
   runStatus (view (onPollResolved cl res now s)) = success)
  /\ (Js.truthy_str (error_message res) = true ->
      truthy_prop (result res) = false ->
      runStatus (view (onPollResolved cl res now s)) = fail).
Proof.
  intros Hn. split.
  - intros Hr. pose proof (polledStatusOf_promoted res Hn Hr) as E.
    rewrite (proj1 (onPollResolved_terminal cl res now s (or_introl E))).
    exact E.
  - intros He Hr. pose proof (polledStatusOf_demoted res Hn Hr He) as E.
    rewrite (proj1 (onPollResolved_terminal cl res now s (or_intror E))).
    exact E.
Qed.

Lemma poll_promotion_result_first_witness :
  normalizeStatus
    (status (response None (Some "processing") None (Some "boom") None))
  = processing
  /\ runStatus
       (view (@onPollResolved sampleEngine
                {| poll_functionId := 1; poll_invocationId := 7;
                   poll_startedAt := 0 |}
                (response None (Some "processing") None (Some "boom") None)
                5%Z samplePolling)) = fail.
Proof.
  split; [reflexivity |].
  apply (@poll_promotion_result_first sampleEngine); reflexivity.
Defined.

(** C2, as stated, fails: a response with status "processing" that carries
    both a result and an error message is shown as [success], where the
    second half of the stated rule asks for [fail]. *)
Lemma promotion_as_specified_fails :
  let res :=
    response None (Some "processing") (Some (JObj [("ok", JBool true)]))
      (Some "boom") None in
  normalizeStatus (status res) = processing
  /\ Js.truthy_str (error_message res) = true
  /\ runStatus
       (view (@onPollResolved sampleEngine
                {| poll_functionId := 1; poll_invocationId := 7;
                   poll_startedAt := 0 |} res 5%Z samplePolling)) = success
  /\ ~ promotion_as_specified.
Proof.
  cbv zeta. split; [reflexivity |]. split; [reflexivity |].
  split; [reflexivity |].
  intros H.
  specialize (H sampleEngine
                {| poll_functionId := 1; poll_invocationId := 7;
                   poll_startedAt := 0 |}
                (response None (Some "processing")
                   (Some (JObj [("ok", JBool true)])) (Some "boom") None)
                5%Z samplePolling eq_refl).
  destruct H as [_ H]. specialize (H eq_refl). discriminate H.
Qed.

(** ** A submit response without a usable invocation id *)

Lemma nonzero_polls_cleared (s : State) (w : View) (r : Refs)
  (p t : option nat) :
  nonzero_polls s ->
  nonzero_polls
    {| view := w; refs := r; browser := clear_browser p t (browser s) |}.
Proof.
  intros (Hi & Hp & Hc). unfold nonzero_polls. cbn [browser].
  repeat split; auto.
  intros iv Hin. apply Hi. eapply clear_browser_intervals; eauto.
Qed.

Lemma nonzero_polls_same_browser (s s' : State) :
  browser s' = browser s -> nonzero_polls s -> nonzero_polls s'.
Proof. unfold nonzero_polls. intros ->. auto. Qed.

Lemma nonzero_polls_step {engine : JsEngine} (s s' : State) (e : Event) :
  nonzero_polls s -> step s e = Some s' -> nonzero_polls s'.
Proof.
  intros Hnz Hs. destruct e; cbn [step] in Hs.
  - (* Run *)
    injection Hs as <-.
    destruct (handleRun_cases selectedFunction payload now s)
      as [[_ Hb] | (fn & parsed & _ & _ & _ & ->)].
    + eapply nonzero_polls_same_browser; eauto.
    + destruct Hnz as (Hi & Hp & Hc). unfold nonzero_polls, started.
      cbn [browser intervals polling calls clear_browser].
      repeat split; auto.
      * intros iv Hin. apply Hi.
        apply (clear_browser_intervals (pollRef (refs s))
                 (runTimeoutRef (refs s))).
        exact Hin.
      * intros id Hin. apply in_app_iff in Hin as [Hin | [Hin | []]].
        -- now apply Hc in Hin.
        -- discriminate.
  - (* InvokeResolved *)
    destruct (lookup rq _) as [cl |]; [| discriminate]. injection Hs as <-.
    assert (Hnz' : nonzero_polls (settle_invoke rq s)) by exact Hnz.
    destruct (truthy_num (invocation_id invokeRes)) eqn:Hid.
    + destruct (invocation_id invokeRes) as [i |] eqn:Ei; [| discriminate].
      cbn in Hid. apply negb_true_iff, Z.eqb_neq in Hid.
      rewrite (onInvokeResolved_accepted cl invokeRes i _ Ei Hid).
      destruct Hnz' as (Hi & Hp & Hc). unfold nonzero_polls.
      cbn [browser intervals polling calls]. repeat split; auto.
      intros iv Hin. apply in_app_iff in Hin as [Hin | [<- | []]]; auto.
    + rewrite (onInvokeResolved_missing cl invokeRes _ Hid). exact Hnz'.
  - (* InvokeRejected *)
    destruct (lookup rq _); [| discriminate]. injection Hs as <-.
    rewrite onInvokeRejected_eq. unfold aborted.
    now apply (nonzero_polls_cleared (settle_invoke rq s)).
  - (* Tick *)
    destruct (find_interval t s) as [iv |] eqn:F; [| discriminate].
    injection Hs as <-. rewrite onTick_eq.
    destruct (MAX_POLL_ATTEMPTS <=? _).
    + unfold aborted. now apply nonzero_polls_cleared.
    + apply find_interval_In in F as [Hin _].
      destruct Hnz as (Hi & Hp & Hc). unfold nonzero_polls.
      cbn [browser getInvocationStatus set_pollAttemptsRef on_refs on_browser
             intervals polling calls].
      repeat split; auto.
      * intros rq cl Hq. apply in_app_iff in Hq as [Hq | [Hq | []]].
        -- eauto.
        -- injection Hq as _ <-. auto.
      * intros id Hq. apply in_app_iff in Hq as [Hq | [Hq | []]].
        -- now apply Hc in Hq.
        -- injection Hq as _ Hz. now apply Hi in Hin.
  - (* PollResolved *)
    destruct (lookup rq _) as [cl |]; [| discriminate]. injection Hs as <-.
    assert (Hnz' : nonzero_polls (settle_poll rq s)).
    { destruct Hnz as (Hi & Hp & Hc). unfold nonzero_polls.
      cbn [browser settle_poll on_browser intervals polling calls].
      repeat split; auto.
      intros rq' cl' Hq. apply filter_In in Hq as [Hq _]. eauto. }
    rewrite onPollResolved_eq. cbv zeta.
    destruct (_ && _); [| destruct (terminal _)].
    + unfold aborted.
      now apply (nonzero_polls_cleared (recorded res (settle_poll rq s))).
    + now apply (nonzero_polls_cleared (settle_poll rq s)).
    + exact Hnz'.
  - (* PollRejected *)
    destruct (lookup rq _) as [cl |]; [| discriminate]. injection Hs as <-.
    assert (Hnz' : nonzero_polls (settle_poll rq s)).
    { destruct Hnz as (Hi & Hp & Hc). unfold nonzero_polls.
      cbn [browser settle_poll on_browser intervals polling calls].
      repeat split; auto.
      intros rq' cl' Hq. apply filter_In in Hq as [Hq _]. eauto. }
    rewrite onPollRejected_eq. unfold aborted.
    now apply nonzero_polls_cleared.
  - (* RunTimeout *)
    destruct (find_timeout t s); [| discriminate]. injection Hs as <-.
    rewrite onRunTimeout_eq. unfold aborted.
    now apply (nonzero_polls_cleared (clearTimeout t s)).
  - (* Deleted *)
    injection Hs as <-.
    pose proof (nonzero_polls_cleared s (view s) (refs s)
                  (pollRef (refs s)) (runTimeoutRef (refs s)) Hnz) as H.
    unfold nonzero_polls in *. cbn [browser] in H.
    now rewrite (proj2 (onDeleted_eq s)).
  - (* DraftCreated *)
    injection Hs as <-. exact Hnz.
  - (* PayloadChanged *)
    injection Hs as <-.
    eapply nonzero_polls_same_browser; [| exact Hnz].
    apply handlePayloadChange_eq.
Qed.

Lemma nonzero_polls_exec {engine : JsEngine} (es : list Event)
  (s s' : State) :
  nonzero_polls s -> exec s es = Some s' -> nonzero_polls s'.
Proof.
  revert s. induction es as [| e es IH]; intros s Hnz Hx; cbn in Hx.
  - now injection Hx as <-.
  - destruct (step s e) as [s1 |] eqn:Hs; [| discriminate].
    eauto using nonzero_polls_step.
Qed.

Lemma nonzero_polls_mounted : nonzero_polls mounted.
Proof. unfold nonzero_polls. cbn. repeat split; auto. Qed.

(** C10.  A submit response whose [invocation_id] is 0 is handled exactly
    as one without an invocation id: the run ends as [fail] with the
    missing-id message and log line, no interval is started and no request
    sent; and in no state the page can reach, before or after, has
    invocation 0 been polled. *)
Theorem zero_invocation_id_is_missing {engine : JsEngine}
  (before : list Event) (s : State) (rq : nat) (cl : InvokeClosure)
  (invokeRes : InvokeResponse) :
  exec mounted before = Some s ->
  lookup rq (invoking (browser s)) = Some cl ->
  invocation_id invokeRes = Some 0%Z ->
  exists s',
    step s (InvokeResolved rq invokeRes) = Some s'
    /\ step s (InvokeResolved rq (without_invocation_id invokeRes)) = Some s'
    /\ runStatus (view s') = fail
    /\ isRunning (view s') = false
    /\ runMessage (view s') = Some "invocation_id 누락"
    /\ runLogs (view s')
       = runLogs (view s) ++ ["[Error] invocation_id가 응답에 없습니다."]
    /\ pollRef (refs s') = pollRef (refs s)
    /\ intervals (browser s') = intervals (browser s)
    /\ calls (browser s') = calls (browser s)
    /\ forall after s'' id,
         exec s' after = Some s'' ->
         ~ In (CallGetInvocationStatus id 0) (calls (browser s'')).
Proof.
  intros Hreach Hrq Hid. cbn [step]. rewrite Hrq.
  eexists. split; [reflexivity |].
  assert (H0 : truthy_num (invocation_id invokeRes) = false)
    by (rewrite Hid; reflexivity).
  rewrite (onInvokeResolved_missing cl invokeRes _ H0).
  split.
  { rewrite (onInvokeResolved_missing cl (without_invocation_id invokeRes)
               _ eq_refl). reflexivity. }
  cbn [view refs browser runStatus isRunning runMessage runLogs].
  repeat (split; [reflexivity |]).
  intros after s'' id Hx.
  assert (Hnz : nonzero_polls s'').
  { eapply nonzero_polls_exec; [| exact Hx].
    exact (nonzero_polls_exec before mounted s nonzero_polls_mounted
             Hreach). }
  apply Hnz.
Qed.

Lemma zero_invocation_id_is_missing_witness :
  lookup 0
    (invoking
       (browser
          (@handleRun sampleEngine (Some (sampleFunction 1 "ingest-events"))
             "{}" 0%Z mounted)))
  = Some {| inv_functionId := 1; inv_startedAt := 0 |}
  /\ exists s',
       @step sampleEngine
         (@handleRun sampleEngine (Some (sampleFunction 1 "ingest-events"))
            "{}" 0%Z mounted)
         (InvokeResolved 0 (accepted 0)) = Some s'
       /\ runStatus (view s') = fail
       /\ runMessage (view s') = Some "invocation_id 누락".
Proof.
  assert (H1 : lookup 0
                 (invoking
                    (browser
                       (@handleRun sampleEngine
                          (Some (sampleFunction 1 "ingest-events"))
                          "{}" 0%Z mounted)))
               = Some {| inv_functionId := 1; inv_startedAt := 0 |})
    by reflexivity.
  split; [exact H1 |].
  destruct (@zero_invocation_id_is_missing sampleEngine
              [Run (Some (sampleFunction 1 "ingest-events")) "{}" 0%Z]
              _ 0 _ (accepted 0) eq_refl H1 eq_refl)
    as [s' [Hs [_ [Hf [_ [Hm _]]]]]].
  exists s'. auto.
Defined.

(** ** Two runs in quick succession *)

(** C1 fails on the code.  After [overlappingRuns], every run of which was
    started through the enabled Run button, two polling timers are live;
    [pollRef] holds the second only.  The first can no longer be cleared:
    the run-timeout tears down the session [pollRef] names and the orphan
    goes on polling. *)
Theorem overlapping_runs_leave_two_timers :
  exists s s1 s2,
    @exec_ui sampleEngine mounted overlappingRuns = Some s
    /\ map iv_id (intervals (browser s)) = [5; 6]
    /\ pollRef (refs s) = Some 6
    /\ map to_id (timeouts (browser s)) = [4]
    /\ @step sampleEngine s (RunTimeout 4) = Some s1
    /\ runStatus (view s1) = fail
    /\ pollRef (refs s1) = None
    /\ map iv_id (intervals (browser s1)) = [5]
    /\ @step sampleEngine s1 (Tick 5) = Some s2
    /\ calls (browser s2)
       = calls (browser s1) ++ [CallGetInvocationStatus 1 8].
Proof.
  do 3 eexists.
  split; [vm_compute; reflexivity |].
  split; [reflexivity |]. split; [reflexivity |]. split; [reflexivity |].
  split; [vm_compute; reflexivity |].
  split; [reflexivity |]. split; [reflexivity |]. split; [reflexivity |].
  split; [vm_compute; reflexivity |].
  reflexivity.
Qed.

(** The same defect at the level of the handler: [handleRun] called twice
    before the first submit is answered. *)
Example double_handleRun_leaves_two_timers :
  exists s,
    @exec sampleEngine mounted
      [ Run (Some (sampleFunction 1 "ingest-events")) "{}" 0;
        Run (Some (sampleFunction 1 "ingest-events")) "{}" 10;
        InvokeResolved 0 (accepted 7);
        InvokeResolved 1 (accepted 8) ] = Some s
    /\ map iv_id (intervals (browser s)) = [3; 4]
    /\ pollRef (refs s) = Some 4.
Proof. eexists. split; [vm_compute; reflexivity |]. split; reflexivity. Qed.

(** ** A submit response without an invocation id, followed to the end *)

(** C4 fails on the code.  The missing-id branch returns without
    [clearPoll], so the run-timeout armed by [handleRun] stays live.  The
    run is shown as failed with the missing-id message and never polls, but
    when the timeout fires the message is replaced by the timeout message
    and a second error line is logged. *)
Theorem missing_id_run_timeout_still_fires :
  exists s1 s2,
    @exec sampleEngine mounted
      [ Run (Some (sampleFunction 1 "ingest-events")) "{}" 0;
        InvokeResolved 0 (response None (Some "queued") None None None) ]
    = Some s1
    /\ runStatus (view s1) = fail
    /\ runMessage (view s1) = Some "invocation_id 누락"
    /\ intervals (browser s1) = []
    /\ timeouts (browser s1) = [{| to_id := 1; to_delay := 60000 |}]
    /\ runTimeoutRef (refs s1) = Some 1
    /\ (forall es s', no_run es = true ->
                      @exec sampleEngine s1 es = Some s' ->
                      poll_calls s' = [])
    /\ @step sampleEngine s1 (RunTimeout 1) = Some s2
    /\ runStatus (view s2) = fail
    /\ runMessage (view s2) = Some "실행 시간 초과"
    /\ runLogs (view s2)
       = [ "[Queued] Job accepted";
           "[Error] invocation_id가 응답에 없습니다.";
           "[Error] 실행 시간 초과" ].
Proof.
  do 2 eexists.
  split; [vm_compute; reflexivity |].
  split; [reflexivity |]. split; [reflexivity |]. split; [reflexivity |].
  split; [reflexivity |]. split; [reflexivity |].
  split.
  { intros es s' Hes Hx. unfold poll_calls.
    match type of Hx with
    | exec ?s1 _ = _ =>
        assert (Hq : quiet s1) by (split; reflexivity);
        rewrite (proj2 (@quiet_exec sampleEngine es s1 s' Hq Hes Hx))
    end.
    reflexivity. }
  split; [vm_compute; reflexivity |].
  split; [reflexivity |]. split; reflexivity.
Qed.

(** ** Stuck detection *)

Lemma RunStatus_eqb_refl (p : RunStatus) : RunStatus_eqb p p = true.
Proof. now destruct p. Qed.

Lemma nonterminal_not_terminal (p : RunStatus) :
  nonterminal p = true -> terminal p = false.
Proof. now destruct p. Qed.

Lemma repeat_count_at (s0 s : State) (t : nat) (p : RunStatus) (k : nat)
  (res : InvokeResponse) :
  polling_at s0 t p k s -> polledStatusOf res = p ->
  repeatCountAfter res s = k.
Proof.
  intros (_ & _ & _ & Hl & Hc & _) Hp. unfold repeatCountAfter.
  rewrite Hp, Hl, Hc. destruct k as [| k]; cbn.
  - reflexivity.
  - rewrite RunStatus_eqb_refl. lia.
Qed.

Section Stuck.
Context {engine : JsEngine}.

Lemma poll_round_eq (s0 s : State) (t : nat) (iv : Interval)
  (p : RunStatus) (k : nat) (res : InvokeResponse) (now : Z) :
  find_interval t s0 = Some iv ->
  polling_at s0 t p k s ->
  k <= MAX_STUCK_ATTEMPTS ->
  exists cl,
    poll_round t res now s
    = Some (onPollResolved cl res now (awaiting iv s)).
Proof.
  intros Hiv (Hp & _ & Ha & _ & _ & Hi & _) Hk.
  unfold poll_round. cbn [step].
  assert (F : find_interval t s = Some iv)
    by (unfold find_interval in *; now rewrite Hi).
  rewrite F, onTick_eq.
  assert (Hcap : (MAX_POLL_ATTEMPTS <=? pollAttemptsRef (refs s) + 1)
                 = false)
    by (apply Nat.leb_gt; unfold MAX_POLL_ATTEMPTS, MAX_STUCK_ATTEMPTS in *;
        lia).
  rewrite Hcap.
  cbn [getInvocationStatus set_pollAttemptsRef on_refs on_browser browser
         polling].
  destruct (lookup_last (nextRequest (browser s)) (polling (browser s))
              (iv_closure iv)) as [cl Hcl].
  rewrite Hcl. exists cl. reflexivity.
Qed.

Lemma poll_round_keeps (s0 s : State) (t : nat) (iv : Interval)
  (p : RunStatus) (k : nat) (res : InvokeResponse) (now : Z) :
  find_interval t s0 = Some iv ->
  polling_at s0 t p k s ->
  nonterminal p = true ->
  polledStatusOf res = p ->
  k < MAX_STUCK_ATTEMPTS ->
  exists s', poll_round t res now s = Some s' /\ polling_at s0 t p (S k) s'.
Proof.
  intros Hiv Hat Hnt Hres Hk.
  destruct (poll_round_eq s0 s t iv p k res now Hiv Hat) as [cl E]; [lia |].
  rewrite E. eexists. split; [reflexivity |].
  pose proof (repeat_count_at s0 s t p k res Hat Hres) as Hcount.
  destruct Hat as (Hp & Ht & Ha & Hl & Hc & Hi & Hto & Hr & Hs).
  rewrite onPollResolved_eq. cbv zeta.
  assert (Hstuck : stuckCountRef (refs (recorded res (awaiting iv s))) = k)
    by exact Hcount.
  rewrite Hstuck, Hres, Hnt.
  assert (Hlt : (MAX_STUCK_ATTEMPTS <=? k) = false) by now apply Nat.leb_gt.
  rewrite Hlt, (nonterminal_not_terminal p Hnt). cbn [andb].
  unfold polling_at.
  cbn [recorded refs view browser recorded_refs recorded_view pollRef
         runTimeoutRef pollAttemptsRef lastStatusRef stuckCountRef
         isRunning runStatus set_pollAttemptsRef on_refs on_browser pred
         awaiting settle_poll getInvocationStatus intervals timeouts].
  rewrite Hres, Ha. repeat split; auto; [lia |].
  unfold repeatCountAfter in Hcount. now rewrite Hres in Hcount.
Qed.

Lemma poll_round_aborts (s0 s : State) (t : nat) (iv : Interval)
  (p : RunStatus) (res : InvokeResponse) (now : Z) :
  find_interval t s0 = Some iv ->
  polling_at s0 t p MAX_STUCK_ATTEMPTS s ->
  nonterminal p = true ->
  polledStatusOf res = p ->
  repeatCountAfter res s = MAX_STUCK_ATTEMPTS
  /\ exists s',
       poll_round t res now s = Some s'
       /\ view s'
          = failed_view "상태 변화 없이 대기 시간 초과"
              "[Error] 상태 변화 없음으로 중단" (recorded_view res (view s))
       /\ refs s' = cleared
       /\ intervals (browser s')
          = filter (fun iv => negb (Nat.eqb (iv_id iv) t))
              (intervals (browser s))
       /\ timeouts (browser s')
          = timeouts
              (clear_browser None (runTimeoutRef (refs s0)) (browser s)).
Proof.
  intros Hiv Hat Hnt Hres.
  pose proof (repeat_count_at s0 s t p _ res Hat Hres) as Hcount.
  split; [exact Hcount |].
  destruct (poll_round_eq s0 s t iv p _ res now Hiv Hat) as [cl E]; [lia |].
  rewrite E. eexists. split; [reflexivity |].
  destruct Hat as (Hp & Ht & Ha & Hl & Hc & Hi & Hto & Hr & Hs).
  rewrite onPollResolved_eq. cbv zeta.
  assert (Hstuck : stuckCountRef (refs (recorded res (awaiting iv s)))
                   = MAX_STUCK_ATTEMPTS)
    by exact Hcount.
  rewrite Hstuck, Hres, Hnt, Nat.leb_refl. cbn [andb].
  unfold aborted.
  cbn [recorded refs view browser recorded_refs pollRef runTimeoutRef
         set_pollAttemptsRef on_refs on_browser awaiting settle_poll
         getInvocationStatus clear_browser intervals timeouts].
  rewrite Hp, Ht. auto.
Qed.

Lemma poll_rounds_app (t : nat) (rs1 rs2 : list (InvokeResponse * Z))
  (s : State) :
  poll_rounds t (rs1 ++ rs2) s
  = match poll_rounds t rs1 s with
    | Some s' => poll_rounds t rs2 s'
    | None => None
    end.
Proof.
  revert s. induction rs1 as [| [res now] rs1 IH]; intros s; cbn.
  - reflexivity.
  - destruct (poll_round t res now s); [apply IH | reflexivity].
Qed.

Lemma poll_rounds_keep (s0 : State) (t : nat) (iv : Interval)
  (p : RunStatus) (rs : list (InvokeResponse * Z)) :
  find_interval t s0 = Some iv ->
  nonterminal p = true ->
  Forall (fun r => polledStatusOf (fst r) = p) rs ->
  forall k s,
    polling_at s0 t p k s ->
    k + length rs <= MAX_STUCK_ATTEMPTS ->
    exists s',
      poll_rounds t rs s = Some s' /\ polling_at s0 t p (k + length rs) s'.
Proof.
  intros Hiv Hnt Hall. induction Hall as [| [res now] rs Hres _ IH];
    intros k s Hat Hlen; cbn [poll_rounds length] in *.
  - exists s. rewrite Nat.add_0_r. auto.
  - destruct (poll_round_keeps s0 s t iv p k res now Hiv Hat Hnt Hres)
      as [s1 [E1 Hat1]]; [lia |].
    rewrite E1. destruct (IH (S k) s1 Hat1) as [s' [E' Hat']]; [lia |].
    exists s'. split; [exact E' |].
    now replace (k + S (length rs)) with (S k + length rs) by lia.
Qed.

Lemma find_cleared_interval (t : nat) (l : list Interval) :
  find (fun iv => Nat.eqb (iv_id iv) t)
    (filter (fun iv => negb (Nat.eqb (iv_id iv) t)) l) = None.
Proof.
  induction l as [| iv l IH]; cbn; [reflexivity |].
  destruct (Nat.eqb (iv_id iv) t) eqn:E; cbn; [exact IH |].
  now rewrite E.
Qed.

End Stuck.

(** C3.  A fresh polling session whose answered polls all report the same
    non-terminal status goes on through the first 30 of them, the repeat
    count standing at one less than the number of polls answered; the poll
    at which the count reaches [MAX_STUCK_ATTEMPTS] (the 31st) ends the run
    as [fail] with the no-change message and clears the interval and the
    run-timeout, so that no later tick of that timer can fire. *)
Theorem stuck_run_fails_at_bound {engine : JsEngine} (s : State) (t : nat)
  (iv : Interval) (p : RunStatus) (rs : list (InvokeResponse * Z))
  (last : InvokeResponse) (now : Z) :
  find_interval t s = Some iv ->
  pollRef (refs s) = Some t ->
  pollAttemptsRef (refs s) = 0 ->
  lastStatusRef (refs s) = None ->
  stuckCountRef (refs s) = 0 ->
  p = queued \/ p = processing ->
  Forall (fun r => polledStatusOf (fst r) = p) rs ->
  polledStatusOf last = p ->
  (length rs <= MAX_STUCK_ATTEMPTS ->
   exists s',
     poll_rounds t rs s = Some s'
     /\ pollRef (refs s') = Some t
     /\ find_interval t s' = Some iv
     /\ timeouts (browser s') = timeouts (browser s)
     /\ isRunning (view s') = isRunning (view s)
     /\ stuckCountRef (refs s') = pred (length rs)
     /\ stuckCountRef (refs s') < MAX_STUCK_ATTEMPTS
     /\ (rs <> [] -> runStatus (view s') = p))
  /\ (length rs = MAX_STUCK_ATTEMPTS ->
      exists s' s'',
        poll_rounds t rs s = Some s'
        /\ repeatCountAfter last s' = MAX_STUCK_ATTEMPTS
        /\ poll_rounds t (rs ++ [(last, now)]) s = Some s''
        /\ runStatus (view s'') = fail
        /\ isRunning (view s'') = false
        /\ runMessage (view s'') = Some "상태 변화 없이 대기 시간 초과"
        /\ pollRef (refs s'') = None
        /\ runTimeoutRef (refs s'') = None
        /\ find_interval t s'' = None
        /\ step s'' (Tick t) = None
        /\ (forall tm, In tm (timeouts (browser s'')) ->
                       In tm (timeouts (browser s))
                       /\ runTimeoutRef (refs s) <> Some (to_id tm))).
Proof.
  intros Hiv Hp Ha Hl Hc Hnt Hall Hlast.
  assert (Hnt' : nonterminal p = true) by (destruct Hnt as [-> | ->]; auto).
  assert (H0 : polling_at s t p 0 s)
    by (unfold polling_at; repeat split; auto; congruence).
  split.
  - intros Hlen.
    destruct (poll_rounds_keep s t iv p rs Hiv Hnt' Hall 0 s H0 Hlen)
      as [s' [E Hat]].
    exists s'. cbn [Nat.add] in Hat.
    destruct Hat as (Hp' & Ht' & Ha' & Hl' & Hc' & Hi' & Hto' & Hr' & Hs').
    split; [exact E |]. split; [exact Hp' |].
    split; [unfold find_interval in *; now rewrite Hi' |].
    split; [exact Hto' |]. split; [exact Hr' |]. split; [exact Hc' |].
    split.
    + rewrite Hc'. unfold MAX_STUCK_ATTEMPTS in *. lia.
    + intros Hne. apply Hs'. destruct rs; [congruence | discriminate].
  - intros Hlen.
    destruct (poll_rounds_keep s t iv p rs Hiv Hnt' Hall 0 s H0)
      as [s' [E Hat]]; [lia |].
    cbn [Nat.add] in Hat. rewrite Hlen in Hat.
    destruct (poll_round_aborts s s' t iv p last now Hiv Hat Hnt' Hlast)
      as [Hcount [s'' [E' [Hv [Hr [Hbi Hbt]]]]]].
    exists s', s''. split; [exact E |]. split; [exact Hcount |].
    split.
    { rewrite poll_rounds_app, E. cbn [poll_rounds]. now rewrite E'. }
    rewrite Hv, Hr. cbn [failed_view runStatus isRunning runMessage cleared
                           pollRef runTimeoutRef].
    repeat (split; [reflexivity |]).
    assert (Hf : find_interval t s'' = None).
    { unfold find_interval. rewrite Hbi. apply find_cleared_interval. }
    split; [exact Hf |]. split; [cbn [step]; now rewrite Hf |].
    intros tm Hin. rewrite Hbt in Hin.
    destruct Hat as (_ & _ & _ & _ & _ & _ & Hto' & _).
    destruct (runTimeoutRef (refs s)) as [rt |]; cbn in Hin.
    + apply filter_In in Hin as [Hin Hne]. rewrite Hto' in Hin.
      split; [exact Hin |]. intros [= ->].
      now rewrite Nat.eqb_refl in Hne.
    + rewrite Hto' in Hin. split; [exact Hin | discriminate].
Qed.

Lemma stuck_run_fails_at_bound_witness :
  find_interval 2 sampleAccepted
  = Some {| iv_id := 2; iv_period := 1000;
            iv_closure :=
              {| poll_functionId := 1; poll_invocationId := 7;
                 poll_startedAt := 0 |} |}
  /\ polledStatusOf stillProcessing = processing
  /\ exists s'',
       @poll_rounds sampleEngine 2
         (repeat (stillProcessing, 0%Z) 30 ++ [(stillProcessing, 0%Z)])
         sampleAccepted = Some s''
       /\ runStatus (view s'') = fail.
Proof.
  assert (H1 : find_interval 2 sampleAccepted
               = Some {| iv_id := 2; iv_period := 1000;
                         iv_closure :=
                           {| poll_functionId := 1; poll_invocationId := 7;
                              poll_startedAt := 0 |} |}) by reflexivity.
  assert (H2 : polledStatusOf stillProcessing = processing) by reflexivity.
  assert (H3 : Forall (fun r => polledStatusOf (fst r) = processing)
                 (repeat (stillProcessing, 0%Z) 30))
    by (repeat constructor).
  split; [exact H1 |]. split; [exact H2 |].
  destruct (@stuck_run_fails_at_bound sampleEngine sampleAccepted 2 _
              processing (repeat (stillProcessing, 0%Z) 30) stillProcessing
              0%Z H1 eq_refl eq_refl eq_refl eq_refl (or_intror eq_refl)
              H3 H2) as [_ Hfail].
  destruct (Hfail eq_refl) as [s' [s'' [_ [_ [E [Hf _]]]]]].
  exists s''. auto.
Defined.

(** ** A failed poll *)

(** C5 fails on the code.  The [catch] clause of the interval callback
    clears the interval [pollRef] holds, not the interval whose status
    call was rejected.  After [overlappingRuns] timer 5 is live and
    [pollRef] holds 6: the call sent by a tick of timer 5 is rejected, the
    run is shown as failed with the message of the error, and timer 5
    stays live; its next tick sends the status call again. *)
Theorem rejected_poll_leaves_its_timer_polling :
  exists s s1 s2,
    @exec_ui sampleEngine mounted (overlappingRuns ++ [Tick 5]) = Some s
    /\ polling (browser s)
       = [(5, {| poll_functionId := 1; poll_invocationId := 8;
                 poll_startedAt := 3000 |})]
    /\ pollRef (refs s) = Some 6
    /\ @step_ui sampleEngine s (PollRejected 5 (ErrorObject "Failed to fetch"))
       = Some s1
    /\ runStatus (view s1) = fail
    /\ isRunning (view s1) = false
    /\ runMessage (view s1) = Some "폴링 실패: Failed to fetch"
    /\ runLogs (view s1) = runLogs (view s) ++ ["[Error] Failed to fetch"]
    /\ pollRef (refs s1) = None
    /\ intervals (browser s1)
       = [{| iv_id := 5; iv_period := POLL_INTERVAL_MS;
             iv_closure :=
               {| poll_functionId := 1; poll_invocationId := 8;
                  poll_startedAt := 3000 |} |}]
    /\ @step_ui sampleEngine s1 (Tick 5) = Some s2
    /\ calls (browser s2)
       = calls (browser s1) ++ [CallGetInvocationStatus 1 8]
    /\ isRunning (view s2) = false.
Proof.
  do 3 eexists.
  split; [vm_compute; reflexivity |].
  split; [reflexivity |]. split; [reflexivity |].
  split; [vm_compute; reflexivity |].
  do 6 (split; [reflexivity |]).
  split; [vm_compute; reflexivity |].
  split; reflexivity.
Qed.

(** X26.  In a session without an orphaned timer (every live interval is
    the one [pollRef] holds), a rejected status call ends the run in that
    very step: the run is [fail], the message and the log line carry the
    message of the error (["Unknown error"] for a value that is no
    [Error]), [pollRef] and [runTimeoutRef] are cleared and no interval is
    left, so no tick can fire any more, and, when no submit is in flight,
    no later event short of a new run sends another request. *)
Theorem poll_rejection_ends_run {engine : JsEngine} (s : State) (rq : nat)
  (cl : PollClosure) (error : Thrown) :
  lookup rq (polling (browser s)) = Some cl ->
  single_session s ->
  exists s',
    step s (PollRejected rq error) = Some s'
    /\ runStatus (view s') = fail
    /\ isRunning (view s') = false
    /\ runMessage (view s')
       = Some ("폴링 실패: "
               ++ match error with
                  | ErrorObject message => message
                  | NotAnError => "Unknown error"
                  end)%string
    /\ runLogs (view s')
       = runLogs (view s)
         ++ [("[Error] "
              ++ match error with
                 | ErrorObject message => message
                 | NotAnError => "Unknown error"
                 end)%string]
    /\ pollRef (refs s') = None
    /\ runTimeoutRef (refs s') = None
    /\ intervals (browser s') = []
    /\ calls (browser s') = calls (browser s)
    /\ (forall t, step s' (Tick t) = None)
    /\ (invoking (browser s) = [] ->
        forall es s'', no_run es = true -> exec s' es = Some s'' ->
                       calls (browser s'') = calls (browser s')).
Proof.
  intros Hrq Hss. cbn [step]. rewrite Hrq. eexists. split; [reflexivity |].
  rewrite onPollRejected_eq.
  assert (Hiv : intervals
                  (clear_browser (pollRef (refs (settle_poll rq s)))
                     (runTimeoutRef (refs (settle_poll rq s)))
                     (browser (settle_poll rq s))) = [])
    by (apply clear_single_session; exact Hss).
  cbn [aborted view refs browser failed_view runStatus isRunning runMessage
         runLogs cleared pollRef runTimeoutRef].
  repeat (split; [first [reflexivity | exact Hiv] |]).
  split.
  - intros t. cbn [step]. unfold find_interval, aborted.
    cbn [browser]. now rewrite Hiv.
  - intros Hv es s'' Hes Hx.
    refine (proj2 (quiet_exec es _ s'' _ Hes Hx)).
    split; [exact Hiv | exact Hv].
Qed.

Lemma poll_rejection_ends_run_witness :
  lookup 1 (polling (browser samplePolling))
  = Some {| poll_functionId := 1; poll_invocationId := 7;
            poll_startedAt := 0 |}
  /\ single_session samplePolling
  /\ exists s',
       @step sampleEngine samplePolling
         (PollRejected 1 (ErrorObject "Failed to fetch")) = Some s'
       /\ runStatus (view s') = fail
       /\ runMessage (view s') = Some "폴링 실패: Failed to fetch"
       /\ runLogs (view s')
          = runLogs (view samplePolling) ++ ["[Error] Failed to fetch"].
Proof.
  assert (H1 : lookup 1 (polling (browser samplePolling))
               = Some {| poll_functionId := 1; poll_invocationId := 7;
                         poll_startedAt := 0 |}) by reflexivity.
  assert (H2 : single_session samplePolling).
  { intros iv [<- | []]. reflexivity. }
  split; [exact H1 |]. split; [exact H2 |].
  destruct (@poll_rejection_ends_run sampleEngine samplePolling 1 _
              (ErrorObject "Failed to fetch") H1 H2)
    as (s' & Hs & Hf & _ & Hm & Hl & _).
  exists s'. auto.
Defined.

(** ** The run-timeout *)


(** X27.  The run-timeout in a well-formed session (every live interval is
    the one [pollRef] holds and every live timeout the one [runTimeoutRef]
    holds).  A run that passes its preconditions arms one timeout of
    60000 ms (sixty poll periods), keeps its id in [runTimeoutRef] and
    leaves no other timer behind.  When a live run-timeout fires, the run
    is ended as [fail] with the timeout message and the session is
    cleared: neither an interval nor a timeout is left, no tick can fire,
    and, when no submit is in flight, no later event short of a new run
    sends a status call. *)
Theorem run_timeout_ends_run {engine : JsEngine} (s : State)
  (fn : SoftGateFunction) (payload : string) (parsed : json) (now : Z)
  (s1 : State) (t : nat) (armed : Timeout) :
  (fn_id fn <? 0)%Z = false ->
  JSON_parse payload = Some parsed ->
  single_session s ->
  single_timeout s ->
  single_session s1 ->
  single_timeout s1 ->
  find_timeout t s1 = Some armed ->
  invoking (browser s1) = [] ->
  (let s0 := handleRun (Some fn) payload now s in
   exists t0,
     runTimeoutRef (refs s0) = Some t0
     /\ timeouts (browser s0)
        = [{| to_id := t0; to_delay := RUN_TIMEOUT_MS |}]
     /\ RUN_TIMEOUT_MS = (60 * POLL_INTERVAL_MS)%Z
     /\ intervals (browser s0) = []
     /\ exists s0', step s0 (RunTimeout t0) = Some s0')
  /\ exists s',
       step s1 (RunTimeout t) = Some s'
       /\ runStatus (view s') = fail
       /\ isRunning (view s') = false
       /\ runMessage (view s') = Some "실행 시간 초과"
       /\ runLogs (view s') = runLogs (view s1) ++ ["[Error] 실행 시간 초과"]
       /\ pollRef (refs s') = None
       /\ runTimeoutRef (refs s') = None
       /\ intervals (browser s') = []
       /\ timeouts (browser s') = []
       /\ calls (browser s') = calls (browser s1)
       /\ (forall t', step s' (Tick t') = None)
       /\ (forall es s'', no_run es = true -> exec s' es = Some s'' ->
                          poll_calls s'' = poll_calls s').
Proof.
  intros Hid Hparse Hss Hst Hss1 Hst1 Harmed Hv. split.
  - cbv zeta. rewrite (handleRun_eq fn payload parsed now s Hid Hparse).
    exists (nextTimer (browser s)).
    pose proof (clear_single_timeout s (pollRef (refs s)) Hst) as Et.
    pose proof (clear_single_session s (runTimeoutRef (refs s)) Hss) as Ei.
    cbn [clear_browser timeouts] in Et.
    cbn [started refs browser runTimeoutRef timeouts intervals
           clear_browser nextTimer].
    split; [reflexivity |]. split; [now rewrite Et |].
    split; [reflexivity |]. split; [exact Ei |].
    cbn [step]. unfold find_timeout, started.
    cbn [browser timeouts clear_browser]. rewrite Et. cbn [app find to_id].
    rewrite Nat.eqb_refl. eauto.
  - cbn [step]. rewrite Harmed. eexists. split; [reflexivity |].
    rewrite onRunTimeout_eq.
    assert (Hss' : single_session (clearTimeout t s1)) by exact Hss1.
    assert (Hst' : single_timeout (clearTimeout t s1)).
    { intros tm Hin. apply Hst1. cbn in Hin. now apply filter_In in Hin. }
    assert (Hiv : intervals
                    (clear_browser (pollRef (refs (clearTimeout t s1)))
                       (runTimeoutRef (refs (clearTimeout t s1)))
                       (browser (clearTimeout t s1))) = [])
      by (apply clear_single_session; exact Hss').
    assert (Hto : timeouts
                    (clear_browser (pollRef (refs (clearTimeout t s1)))
                       (runTimeoutRef (refs (clearTimeout t s1)))
                       (browser (clearTimeout t s1))) = [])
      by (apply clear_single_timeout; exact Hst').
    cbn [aborted view refs browser failed_view runStatus isRunning
           runMessage runLogs cleared pollRef runTimeoutRef].
    repeat (split; [first [reflexivity | exact Hiv | exact Hto] |]).
    split.
    + intros t'. cbn [step]. unfold find_interval, aborted.
      cbn [browser]. now rewrite Hiv.
    + intros es s'' Hes Hx. unfold poll_calls. f_equal.
      refine (proj2 (quiet_exec es _ s'' _ Hes Hx)).
      split; [exact Hiv | exact Hv].
Qed.

Lemma run_timeout_ends_run_witness :
  single_session samplePolling
  /\ single_timeout samplePolling
  /\ find_timeout 1 samplePolling = Some {| to_id := 1; to_delay := 60000 |}
  /\ exists s',
       @step sampleEngine samplePolling (RunTimeout 1) = Some s'
       /\ runStatus (view s') = fail
       /\ runMessage (view s') = Some "실행 시간 초과".
Proof.
  assert (H1 : single_session samplePolling)
    by (intros iv [<- | []]; reflexivity).
  assert (H2 : single_timeout samplePolling)
    by (intros tm [<- | []]; reflexivity).
  assert (H3 : find_timeout 1 samplePolling
               = Some {| to_id := 1; to_delay := 60000 |}) by reflexivity.
  assert (M1 : single_session mounted) by (intros iv []).
  assert (M2 : single_timeout mounted) by (intros tm []).
  split; [exact H1 |]. split; [exact H2 |]. split; [exact H3 |].
  destruct (@run_timeout_ends_run sampleEngine mounted
              (sampleFunction 1 "ingest-events") "{}" (JObj []) 0%Z
              samplePolling 1 _ eq_refl eq_refl M1 M2 H1 H2 H3 eq_refl)
    as [_ [s' [Hs [Hf [_ [Hm _]]]]]].
  exists s'. auto.
Defined.

(** ** Saving a draft *)

Lemma without_ids (id x : Z) (l : list SoftGateFunction) :
  In x (ids (without id l)) <-> In x (ids l) /\ x <> id.
Proof.
  unfold ids, without. rewrite !in_map_iff. split.
  - intros [fn [<- Hin]]. apply filter_In in Hin as [Hin Hne].
    apply negb_true_iff, Z.eqb_neq in Hne. eauto.
  - intros [[fn [<- Hin]] Hne]. exists fn. split; [reflexivity |].
    apply filter_In. split; [exact Hin |].
    now apply negb_true_iff, Z.eqb_neq.
Qed.

Lemma without_NoDup (id : Z) (l : list SoftGateFunction) :
  NoDup (ids l) -> NoDup (ids (without id l)).
Proof.
  induction l as [| fn l IH]; cbn; intros H; [constructor |].
  inversion H as [| ? ? Hnin Hnd]; subst.
  destruct (fn_id fn =? id)%Z; cbn; [auto |].
  constructor; [| auto].
  intros Hin. apply Hnin. now apply (without_ids id) in Hin.
Qed.

Lemma without_absent (id : Z) (l : list SoftGateFunction) :
  ~ In id (ids l) -> without id l = l.
Proof.
  induction l as [| fn l IH]; cbn; intros H; [reflexivity |].
  destruct (Z.eqb_spec (fn_id fn) id) as [E | E]; cbn.
  - exfalso. apply H. now left.
  - f_equal. apply IH. intros Hin. apply H. now right.
Qed.

Lemma without_length (id : Z) (l : list SoftGateFunction) :
  NoDup (ids l) -> In id (ids l) -> S (length (without id l)) = length l.
Proof.
  induction l as [| fn l IH]; cbn; intros Hnd Hin; [contradiction |].
  inversion Hnd as [| ? ? Hnin Hnd']; subst.
  destruct (Z.eqb_spec (fn_id fn) id) as [E | E]; cbn.
  - f_equal. subst id. fold (without (fn_id fn) l).
    now rewrite without_absent.
  - f_equal. apply IH; [exact Hnd' |]. destruct Hin; [contradiction | auto].
Qed.

Lemma find_absent (id : Z) (l : list SoftGateFunction) :
  ~ In id (ids l) -> find (fun item => fn_id item =? id)%Z l = None.
Proof.
  induction l as [| fn l IH]; cbn; intros H; [reflexivity |].
  destruct (Z.eqb_spec (fn_id fn) id) as [E | E].
  - exfalso. apply H. now left.
  - apply IH. intros Hin. apply H. now right.
Qed.

Lemma position_appended (fn : SoftGateFunction) (l : list SoftGateFunction) :
  ~ In (fn_id fn) (ids l) -> position (fn_id fn) (l ++ [fn]) = Some (length l).
Proof.
  induction l as [| g l IH]; cbn; intros H.
  - now rewrite Z.eqb_refl.
  - destruct (Z.eqb_spec (fn_id g) (fn_id fn)) as [E | E].
    + exfalso. apply H. now left.
    + rewrite IH; [reflexivity |]. intros Hin. apply H. now right.
Qed.

Lemma find_appended (fn : SoftGateFunction) (l : list SoftGateFunction) :
  ~ In (fn_id fn) (ids l) ->
  find (fun g => fn_id g =? fn_id fn)%Z (l ++ [fn]) = Some fn.
Proof.
  induction l as [| g l IH]; cbn; intros H.
  - now rewrite Z.eqb_refl.
  - destruct (Z.eqb_spec (fn_id g) (fn_id fn)) as [E | E].
    + exfalso. apply H. now left.
    + apply IH. intros Hin. apply H. now right.
Qed.

Lemma setSelected_selectedId (id : Z) (st : FunctionStore) :
  selectedId (setSelected id st) = Some id
  /\ functions (setSelected id st) = functions st.
Proof.
  unfold setSelected. destruct (selectedId st) as [cur |] eqn:E; cbn; auto.
  destruct (Z.eqb_spec cur id); cbn; subst; auto.
Qed.

Lemma selectedFunctionOf_In (st : FunctionStore) (fn : SoftGateFunction) :
  selectedFunctionOf st = Some fn ->
  In fn (functions st) /\ selectedId st = Some (fn_id fn).
Proof.
  unfold selectedFunctionOf. destruct (selectedId st) as [cur |];
    [| discriminate].
  intros F. apply find_some in F as [Hin E].
  apply Z.eqb_eq in E. subst. auto.
Qed.

(** C9, as the code has it.  Saving the selected draft (an id that is not
    positive) with a server id new to the list removes the draft and adds
    the server's entry at the end of the list, the other entries keeping
    their order; ids stay distinct, the draft id is gone, the new entry is
    the selected one, and it stands where the draft stood exactly when the
    draft was the last entry. *)
Theorem save_replaces_draft_at_end {engine : JsEngine} (p : SavePage)
  (draft : SoftGateFunction) (res : FunctionDetail) :
  selectedFunctionOf (store p) = Some draft ->
  (fn_id draft <= 0)%Z ->
  NoDup (ids (functions (store p))) ->
  ~ In (fd_id res) (ids (functions (store p))) ->
  exists p',
    save_flow p res = Some p'
    /\ functions (store p')
       = without (fn_id draft) (functions (store p)) ++ [savedFnOf draft res]
    /\ selectedId (store p') = Some (fd_id res)
    /\ selectedFunctionOf (store p') = Some (savedFnOf draft res)
    /\ NoDup (ids (functions (store p')))
    /\ ~ In (fn_id draft) (ids (functions (store p')))
    /\ length (functions (store p')) = length (functions (store p))
    /\ position (fd_id res) (functions (store p'))
       = Some (pred (length (functions (store p))))
    /\ (forall earlier, functions (store p) = earlier ++ [draft] ->
                        position (fd_id res) (functions (store p'))
                        = position (fn_id draft) (functions (store p))).
Proof.
  intros Hsel Hid Hnd Hnew.
  destruct (selectedFunctionOf_In _ _ Hsel) as [Hin Hcur].
  assert (Hdraft : In (fn_id draft) (ids (functions (store p))))
    by (apply in_map; exact Hin).
  assert (Hne : fd_id res <> fn_id draft) by (intros E; now rewrite E in Hnew).
  assert (Hnew' : ~ In (fn_id (savedFnOf draft res))
                      (ids (without (fn_id draft) (functions (store p)))))
    by (cbn; intros H; apply without_ids in H as [H _]; auto).
  unfold save_flow, handleSave. rewrite Hsel.
  assert (Hpos : (0 <? fn_id draft)%Z = false) by (apply Z.ltb_ge; lia).
  rewrite Hpos. eexists. split; [reflexivity |].
  unfold handleSave_resolved.
  cbn [store with_store setIsSaving showToast sv_selectedFunction].
  destruct (setSelected_selectedId (fn_id (savedFnOf draft res))
              (upsertFunction (savedFnOf draft res)
                 (removeFunction (fn_id draft) (store p)))) as [Es Ef].
  assert (Eu : functions
                 (upsertFunction (savedFnOf draft res)
                    (removeFunction (fn_id draft) (store p)))
               = without (fn_id draft) (functions (store p))
                 ++ [savedFnOf draft res]).
  { unfold upsertFunction, removeFunction. cbn [functions].
    fold (without (fn_id draft) (functions (store p))).
    rewrite (find_absent _ _ Hnew'). reflexivity. }
  rewrite Eu in Ef.
  assert (Elen : length (functions
                          (setSelected (fn_id (savedFnOf draft res))
                             (upsertFunction (savedFnOf draft res)
                                (removeFunction (fn_id draft) (store p)))))
                 = length (functions (store p))).
  { rewrite Ef, length_app. cbn [length].
    rewrite <- (without_length (fn_id draft) _ Hnd Hdraft). lia. }
  assert (Epos : position (fd_id res)
                   (functions
                      (setSelected (fn_id (savedFnOf draft res))
                         (upsertFunction (savedFnOf draft res)
                            (removeFunction (fn_id draft) (store p)))))
                 = Some (pred (length (functions (store p))))).
  { rewrite Ef.
    change (fd_id res) with (fn_id (savedFnOf draft res)).
    rewrite (position_appended _ _ Hnew').
    rewrite <- (without_length (fn_id draft) _ Hnd Hdraft). reflexivity. }
  split; [exact Ef |]. split; [exact Es |]. split.
  { unfold selectedFunctionOf. rewrite Es, Ef.
    apply (find_appended _ _ Hnew'). }
  split.
  { rewrite Ef. unfold ids. rewrite map_app. cbn [map].
    apply NoDup_app; [| repeat constructor; intros [] |].
    - apply without_NoDup. exact Hnd.
    - intros x Hx [<- | []]. exact (Hnew' Hx). }
  split.
  { rewrite Ef. unfold ids. rewrite map_app, in_app_iff. cbn [map In].
    intros [H | [H | []]].
    - apply without_ids in H as [_ H]. congruence.
    - cbn in H. congruence. }
  split; [exact Elen |]. split; [exact Epos |].
  intros earlier Hlast. rewrite Epos, Hlast.
  assert (Hnotin : ~ In (fn_id draft) (ids earlier)).
  { rewrite Hlast in Hnd. unfold ids in Hnd. rewrite map_app in Hnd.
    cbn [map] in Hnd. apply NoDup_remove_2 in Hnd.
    rewrite app_nil_r in Hnd. exact Hnd. }
  rewrite (position_appended _ _ Hnotin), length_app. cbn [length].
  f_equal. lia.
Qed.

Lemma save_replaces_draft_at_end_witness :
  selectedFunctionOf (store samplePage) = Some (sampleFunction (-1) "draft-a")
  /\ exists p',
       @save_flow sampleEngine samplePage sampleDetail = Some p'
       /\ selectedId (store p') = Some 10%Z.
Proof.
  assert (H1 : selectedFunctionOf (store samplePage)
               = Some (sampleFunction (-1) "draft-a")) by reflexivity.
  split; [exact H1 |].
  assert (H2 : (fn_id (sampleFunction (-1) "draft-a") <= 0)%Z)
    by (cbn; lia).
  assert (H3 : NoDup (ids (functions (store samplePage)))).
  { cbn. repeat constructor; cbn; intuition discriminate. }
  assert (H4 : ~ In (fd_id sampleDetail) (ids (functions (store samplePage)))).
  { cbn. intuition discriminate. }
  destruct (@save_replaces_draft_at_end sampleEngine samplePage _ sampleDetail
              H1 H2 H3 H4) as [p' [E [_ [Hs _]]]].
  exists p'. split; assumption.
Defined.

(** C9, as stated, fails: with two drafts in the list, saving the first
    moves it from the fourth place to the last, behind the other draft. *)
Lemma save_moves_entry_to_end :
  exists p',
    @save_flow sampleEngine samplePage sampleDetail = Some p'
    /\ ids (functions (store samplePage)) = [1; 2; 3; -1; -2]%Z
    /\ ids (functions (store p')) = [1; 2; 3; -2; 10]%Z
    /\ position (-1) (functions (store samplePage)) = Some 3
    /\ position 10 (functions (store p')) = Some 4
    /\ ~ save_in_place_as_specified.
Proof.
  eexists. split; [reflexivity |].
  split; [reflexivity |]. split; [reflexivity |].
  split; [reflexivity |]. split; [reflexivity |].
  intros H.
  specialize (H sampleEngine samplePage _ (sampleFunction (-1) "draft-a")
                sampleDetail eq_refl eq_refl).
  discriminate H.
Qed.

(** ** The sample states are states of the page *)

Lemma sampleAccepted_reached :
  @exec sampleEngine mounted
    [ Run (Some (sampleFunction 1 "ingest-events")) "{}" 0;
      InvokeResolved 0 (accepted 7) ] = Some sampleAccepted.
Proof. reflexivity. Qed.

Lemma samplePolling_reached :
  @step sampleEngine sampleAccepted (Tick 2) = Some samplePolling.
Proof. reflexivity. Qed.

(* ================================================================== *)
(** * Part III: further properties of the run tracker *)
(* ================================================================== *)

(** ** The run-timeout and its ref *)

Lemma timeout_armed_single (s : State) : timeout_armed s -> single_timeout s.
Proof.
  unfold timeout_armed, single_timeout. intros H tm Hin.
  destruct (runTimeoutRef (refs s)) as [t |]; rewrite H in Hin.
  - destruct Hin as [<- | []]. reflexivity.
  - destruct Hin.
Qed.

Lemma timeout_armed_cleared (s : State) (w : View) :
  single_timeout s ->
  timeout_armed
    {| view := w; refs := cleared;
       browser :=
         clear_browser (pollRef (refs s)) (runTimeoutRef (refs s))
           (browser s) |}.
Proof.
  intros H. unfold timeout_armed. cbn [refs cleared runTimeoutRef browser].
  now apply clear_single_timeout.
Qed.

Lemma timeout_armed_step {engine : JsEngine} (s s' : State) (e : Event) :
  timeout_armed s -> step s e = Some s' -> timeout_armed s'.
Proof.
  intros Ha Hs. pose proof (timeout_armed_single s Ha) as Hst.
  destruct e; cbn [step] in Hs.
  - injection Hs as <-.
    destruct (handleRun_cases selectedFunction payload now s)
      as [[Hr Hb] | (fn & parsed & _ & _ & _ & ->)].
    + unfold timeout_armed. now rewrite Hr, Hb.
    + unfold timeout_armed, started.
      cbn [refs runTimeoutRef browser timeouts clear_browser].
      pose proof (clear_single_timeout s (pollRef (refs s)) Hst) as E.
      cbn [clear_browser timeouts] in E. now rewrite E.
  - destruct (lookup rq _) as [cl |]; [| discriminate]. injection Hs as <-.
    assert (Ha' : timeout_armed (settle_invoke rq s)) by exact Ha.
    destruct (truthy_num (invocation_id invokeRes)) eqn:Hid.
    + destruct (invocation_id invokeRes) as [i |] eqn:Ei; [| discriminate].
      cbn in Hid. apply negb_true_iff, Z.eqb_neq in Hid.
      rewrite (onInvokeResolved_accepted cl invokeRes i _ Ei Hid).
      exact Ha'.
    + rewrite (onInvokeResolved_missing cl invokeRes _ Hid). exact Ha'.
  - destruct (lookup rq _); [| discriminate]. injection Hs as <-.
    rewrite onInvokeRejected_eq.
    now apply (timeout_armed_cleared (settle_invoke rq s)).
  - destruct (find_interval t s) as [iv |]; [| discriminate].
    injection Hs as <-. rewrite onTick_eq.
    destruct (MAX_POLL_ATTEMPTS <=? _).
    + now apply timeout_armed_cleared.
    + exact Ha.
  - destruct (lookup rq _) as [cl |]; [| discriminate]. injection Hs as <-.
    assert (Ha' : timeout_armed (settle_poll rq s)) by exact Ha.
    rewrite onPollResolved_eq. cbv zeta.
    destruct (_ && _); [| destruct (terminal _)].
    + now apply (timeout_armed_cleared (recorded res (settle_poll rq s))).
    + now apply (timeout_armed_cleared (settle_poll rq s)).
    + exact Ha'.
  - destruct (lookup rq _); [| discriminate]. injection Hs as <-.
    rewrite onPollRejected_eq.
    now apply (timeout_armed_cleared (settle_poll rq s)).
  - destruct (find_timeout t s) as [tm |]; [| discriminate].
    injection Hs as <-. rewrite onRunTimeout_eq.
    apply (timeout_armed_cleared (clearTimeout t s)).
    intros tm' Hin. apply Hst. cbn in Hin. now apply filter_In in Hin.
  - injection Hs as <-. unfold timeout_armed.
    destruct (onDeleted_eq s) as [-> ->].
    now apply clear_single_timeout.
  - injection Hs as <-. exact Ha.
  - injection Hs as <-. unfold timeout_armed.
    destruct (handlePayloadChange_eq value s) as [-> ->]. exact Ha.
Qed.

Lemma onReset_eq (s : State) :
  view (onReset s)
  = {| jsonError := None; isRunning := false; runMessage := None;
       activeTab := activeTab (view s); runStatus := idle; runLogs := [];
       runResult := ""; runDurationMs := None |}
  /\ refs (onReset s) = cleared
  /\ browser (onReset s)
     = clear_browser (pollRef (refs s)) (runTimeoutRef (refs s)) (browser s).
Proof. unfold onReset. rewrite clearPoll_eq. repeat split. Qed.

Lemma exec_page_tracked {engine : JsEngine} (es : list Event) (s : State) :
  exec_page s (map Tracked es) = exec s es.
Proof.
  revert s. induction es as [| e es IH]; intros s; cbn; [reflexivity |].
  destruct (step s e); [apply IH | reflexivity].
Qed.

Lemma timeout_armed_step_page {engine : JsEngine} (s s' : State)
  (e : PageEvent) :
  timeout_armed s -> step_page s e = Some s' -> timeout_armed s'.
Proof.
  intros Ha Hs. destruct e as [e |]; cbn in Hs.
  - eauto using timeout_armed_step.
  - injection Hs as <-. unfold timeout_armed.
    destruct (onReset_eq s) as (_ & -> & ->).
    apply clear_single_timeout. now apply timeout_armed_single.
Qed.

(** X1.  In every state the page can reach, by the events of a run, a
    delete, a new draft, an edit of the payload or a click on Reset,
    [runTimeoutRef] and the browser agree: when the ref holds an id,
    exactly that one timeout is live and its delay is 60000 ms; when it
    holds none, no run-timeout is live.  So at most one run-timeout is
    ever armed and the ref never names a dead timer. *)
Theorem run_timeout_matches_ref {engine : JsEngine} (es : list PageEvent)
  (s : State) :
  exec_page mounted es = Some s ->
  timeout_armed s /\ length (timeouts (browser s)) <= 1.
Proof.
  intros Hx.
  assert (G : forall es s0 s, timeout_armed s0 -> exec_page s0 es = Some s ->
                              timeout_armed s).
  { clear es s Hx. induction es as [| e es IH]; intros s0 s H0 Hx;
      cbn in Hx.
    - now injection Hx as <-.
    - destruct (step_page s0 e) as [s1 |] eqn:Hs; [| discriminate].
      eauto using timeout_armed_step_page. }
  assert (Ha : timeout_armed s)
    by (apply (G es mounted); [reflexivity | exact Hx]).
  split; [exact Ha |].
  unfold timeout_armed in Ha.
  destruct (runTimeoutRef (refs s)); rewrite Ha; cbn; lia.
Qed.

Lemma run_timeout_matches_ref_witness :
  @exec_page sampleEngine mounted
    [ Reset;
      Tracked (Run (Some (sampleFunction 1 "ingest-events")) "{}" 0);
      Tracked (InvokeResolved 0 (accepted 7)) ] = Some sampleAccepted
  /\ timeout_armed sampleAccepted.
Proof.
  assert (H : @exec_page sampleEngine mounted
                [ Reset;
                  Tracked
                    (Run (Some (sampleFunction 1 "ingest-events")) "{}" 0);
                  Tracked (InvokeResolved 0 (accepted 7)) ]
              = Some sampleAccepted)
    by reflexivity.
  split; [exact H |].
  exact (proj1 (@run_timeout_matches_ref sampleEngine _ _ H)).
Defined.

(** ** The cap on polls *)




(** ** A poll that finds the run finished *)

(** X4.  A poll response that reports a terminal status ([success] or
    [fail], after the two overrides) ends the run in that step: the status
    is shown, the run is no longer running, the message is the completion
    text for a success and the response's error message (or the default
    failure text when it has none) otherwise, and, the session being
    well-formed, no interval or timeout is left and no tick can fire.  The
    duration shown is the response's [duration_ms] whenever the response
    has that key, so a [null] there leaves the duration empty; only when
    the key is missing is it the time elapsed since the submit. *)
Theorem terminal_poll_ends_run {engine : JsEngine} (s : State) (rq : nat)
  (cl : PollClosure) (res : InvokeResponse) (now : Z) :
  lookup rq (polling (browser s)) = Some cl ->
  polledStatusOf res = success \/ polledStatusOf res = fail ->
  single_session s ->
  single_timeout s ->
  exists s',
    step s (PollResolved rq res now) = Some s'
    /\ runStatus (view s') = polledStatusOf res
    /\ isRunning (view s') = false
    /\ runMessage (view s')
       = Some (match polledStatusOf res with
               | success => "실행 완료"
               | _ => match error_message res with
                      | Some m => m
                      | None => "실행 실패"
                      end
               end)
    /\ runDurationMs (view s')
       = match duration_ms res with
         | Some d => d
         | None => Some (now - poll_startedAt cl)%Z
         end
    /\ refs s' = cleared
    /\ intervals (browser s') = []
    /\ timeouts (browser s') = []
    /\ calls (browser s') = calls (browser s)
    /\ forall t, step s' (Tick t) = None.
Proof.
  intros Hrq Hterm Hss Hst. cbn [step]. rewrite Hrq.
  eexists. split; [reflexivity |].
  rewrite onPollResolved_eq. cbv zeta.
  assert (E1 : nonterminal (polledStatusOf res) = false)
    by (destruct Hterm as [-> | ->]; reflexivity).
  assert (E2 : terminal (polledStatusOf res) = true)
    by (destruct Hterm as [-> | ->]; reflexivity).
  rewrite E1, E2. cbn [andb].
  assert (Hiv : intervals
                  (clear_browser (pollRef (refs (settle_poll rq s)))
                     (runTimeoutRef (refs (settle_poll rq s)))
                     (browser (settle_poll rq s))) = [])
    by (apply clear_single_session; exact Hss).
  assert (Hto : timeouts
                  (clear_browser (pollRef (refs (settle_poll rq s)))
                     (runTimeoutRef (refs (settle_poll rq s)))
                     (browser (settle_poll rq s))) = [])
    by (apply clear_single_timeout; exact Hst).
  cbn [view refs browser finished_view recorded recorded_view runStatus
         isRunning runMessage runDurationMs].
  split; [reflexivity |]. split; [reflexivity |].
  split; [destruct Hterm as [-> | ->]; reflexivity |].
  split; [destruct (duration_ms res); reflexivity |].
  split; [reflexivity |]. split; [exact Hiv |]. split; [exact Hto |].
  split; [reflexivity |].
  intros t. cbn [step]. unfold find_interval. cbn [browser].
  now rewrite Hiv.
Qed.

Lemma terminal_poll_ends_run_witness :
  lookup 1 (polling (browser samplePolling))
  = Some {| poll_functionId := 1; poll_invocationId := 7;
            poll_startedAt := 0 |}
  /\ (exists s',
        @step sampleEngine samplePolling (PollResolved 1 done_ 842)
        = Some s'
        /\ runMessage (view s') = Some "실행 완료"
        /\ runDurationMs (view s') = Some 842%Z)
  /\ exists s',
       @step sampleEngine samplePolling
         (PollResolved 1
            (response None (Some "failed") None (Some "boom") (Some None))
            842)
       = Some s'
       /\ runMessage (view s') = Some "boom"
       /\ runDurationMs (view s') = None.
Proof.
  assert (H1 : lookup 1 (polling (browser samplePolling))
               = Some {| poll_functionId := 1; poll_invocationId := 7;
                         poll_startedAt := 0 |}) by reflexivity.
  assert (H2 : single_session samplePolling)
    by (intros iv [<- | []]; reflexivity).
  assert (H3 : single_timeout samplePolling)
    by (intros tm [<- | []]; reflexivity).
  split; [exact H1 |]. split.
  - destruct (@terminal_poll_ends_run sampleEngine samplePolling 1 _ done_
                842%Z H1 (or_introl eq_refl) H2 H3)
      as (s' & Hs & _ & _ & Hm & Hd & _).
    exists s'. auto.
  - destruct (@terminal_poll_ends_run sampleEngine samplePolling 1 _
                (response None (Some "failed") None (Some "boom")
                   (Some None))
                842%Z H1 (or_intror eq_refl) H2 H3)
      as (s' & Hs & _ & _ & Hm & Hd & _).
    exists s'. auto.
Defined.

(** ** A rejected submit *)

(** X5.  When the invoke call is rejected, that step ends the run as
    [fail], shows and logs the message of the error, and clears the
    session, the run-timeout included; no request is sent, and in a
    well-formed session no timer is left, so nothing will poll for this
    run. *)
Theorem invoke_rejection_ends_run {engine : JsEngine} (s : State) (rq : nat)
  (cl : InvokeClosure) (error : Thrown) :
  lookup rq (invoking (browser s)) = Some cl ->
  single_session s ->
  single_timeout s ->
  exists s',
    step s (InvokeRejected rq error) = Some s'
    /\ runStatus (view s') = fail
    /\ isRunning (view s') = false
    /\ runMessage (view s')
       = Some ("실행 요청 실패: " ++ error_text error)%string
    /\ runLogs (view s')
       = runLogs (view s) ++ [("[Error] " ++ error_text error)%string]
    /\ refs s' = cleared
    /\ intervals (browser s') = []
    /\ timeouts (browser s') = []
    /\ calls (browser s') = calls (browser s)
    /\ lookup rq (invoking (browser s')) = None
    /\ forall t, step s' (Tick t) = None.
Proof.
  intros Hrq Hss Hst. cbn [step]. rewrite Hrq.
  eexists. split; [reflexivity |].
  rewrite onInvokeRejected_eq.
  assert (Hiv : intervals
                  (clear_browser (pollRef (refs (settle_invoke rq s)))
                     (runTimeoutRef (refs (settle_invoke rq s)))
                     (browser (settle_invoke rq s))) = [])
    by (apply clear_single_session; exact Hss).
  assert (Hto : timeouts
                  (clear_browser (pollRef (refs (settle_invoke rq s)))
                     (runTimeoutRef (refs (settle_invoke rq s)))
                     (browser (settle_invoke rq s))) = [])
    by (apply clear_single_timeout; exact Hst).
  unfold aborted.
  cbn [view refs browser failed_view runStatus isRunning runMessage
         runLogs].
  repeat (split; [first [reflexivity | exact Hiv | exact Hto] |]).
  split.
  - unfold lookup. cbn [clear_browser invoking settle_invoke on_browser
                          browser].
    destruct (find _ (filter _ _)) as [[k v] |] eqn:F; [| reflexivity].
    apply find_some in F as [Hin Hk]. apply filter_In in Hin as [_ Hne].
    cbn in Hk, Hne. rewrite Hk in Hne. discriminate.
  - intros t. cbn [step]. unfold find_interval. cbn [browser].
    now rewrite Hiv.
Qed.

Lemma invoke_rejection_ends_run_witness :
  exists s',
    @step sampleEngine
      (@handleRun sampleEngine (Some (sampleFunction 1 "ingest-events"))
         "{}" 0%Z mounted)
      (InvokeRejected 0 (ErrorObject "Failed to fetch")) = Some s'
    /\ runMessage (view s') = Some "실행 요청 실패: Failed to fetch".
Proof.
  assert (H1 : lookup 0
                 (invoking
                    (browser
                       (@handleRun sampleEngine
                          (Some (sampleFunction 1 "ingest-events"))
                          "{}" 0%Z mounted)))
               = Some {| inv_functionId := 1; inv_startedAt := 0 |})
    by reflexivity.
  assert (H2 : single_session
                 (@handleRun sampleEngine
                    (Some (sampleFunction 1 "ingest-events")) "{}" 0%Z
                    mounted)) by (intros iv []).
  assert (H3 : single_timeout
                 (@handleRun sampleEngine
                    (Some (sampleFunction 1 "ingest-events")) "{}" 0%Z
                    mounted)) by (intros tm [<- | []]; reflexivity).
  destruct (@invoke_rejection_ends_run sampleEngine _ 0 _
              (ErrorObject "Failed to fetch") H1 H2 H3)
    as (s' & Hs & _ & _ & Hm & _).
  exists s'. auto.
Defined.

(** ** The Run button and the preconditions of [handleRun] *)

(** X6.  Once the payload editor has reported its text, the Run button is
    enabled exactly when no run is in progress and the three preconditions
    of [handleRun] hold; a click then always starts a run: one submit is
    sent for the selected function with the parsed payload, and the
    handler's own checks never fire. *)
Theorem run_button_matches_preconditions {engine : JsEngine}
  (selectedFunction : option SoftGateFunction) (value : option string)
  (now : Z) (s : State) :
  let payload := match value with Some v => v | None => "" end in
  let s' := handlePayloadChange value s in
  runDisabled selectedFunction s' = false
  <-> (isRunning (view s) = false
       /\ exists fn parsed,
            selectedFunction = Some fn
            /\ (0 <= fn_id fn)%Z
            /\ JSON_parse payload = Some parsed
            /\ handleRun selectedFunction payload now s'
               = started fn parsed now s'
            /\ calls (browser (handleRun selectedFunction payload now s'))
               = calls (browser s) ++ [CallInvoke (fn_id fn) parsed]).
Proof.
  cbv zeta. unfold runDisabled, handlePayloadChange.
  set (payload := match value with Some v => v | None => "" end).
  destruct (JSON_parse payload) as [parsed |] eqn:Hparse;
    cbn [setJsonError on_view view jsonError isRunning Js.truthy_str].
  - cbn [orb]. split.
    + intros H. apply orb_false_iff in H as [Hr Hsel].
      split; [exact Hr |].
      destruct selectedFunction as [fn |]; [| discriminate].
      exists fn, parsed.
      assert (Hid : (0 <= fn_id fn)%Z) by now apply Z.ltb_ge.
      split; [reflexivity |]. split; [exact Hid |].
      split; [reflexivity |].
      rewrite (handleRun_eq fn payload parsed now _ Hsel Hparse).
      split; reflexivity.
    + intros [Hr (fn & parsed' & -> & Hid & _)].
      rewrite Hr. cbn [orb]. now apply Z.ltb_ge.
  - split; [discriminate |].
    intros [_ (fn & parsed' & _ & _ & Hp & _)]. discriminate.
Qed.

(** ** The log of a run *)

(** X7.  Between two restarts of the log (a new run, a delete, a new
    draft) nothing is ever removed from it or rewritten: every other step
    leaves the old log as a prefix of the new one and adds at most two
    lines. *)
Theorem run_logs_append_only {engine : JsEngine} (s s' : State) (e : Event) :
  restarts_log e = false ->
  step s e = Some s' ->
  exists more,
    runLogs (view s') = runLogs (view s) ++ more /\ length more <= 2.
Proof.
  intros He Hs. destruct e; try discriminate He; cbn [step] in Hs.
  - destruct (lookup rq _) as [cl |]; [| discriminate]. injection Hs as <-.
    destruct (truthy_num (invocation_id invokeRes)) eqn:Hid.
    + destruct (invocation_id invokeRes) as [i |] eqn:Ei; [| discriminate].
      cbn in Hid. apply negb_true_iff, Z.eqb_neq in Hid.
      rewrite (onInvokeResolved_accepted cl invokeRes i _ Ei Hid).
      eexists. split; [reflexivity | cbn; lia].
    + rewrite (onInvokeResolved_missing cl invokeRes _ Hid).
      eexists. split; [reflexivity | cbn; lia].
  - destruct (lookup rq _); [| discriminate]. injection Hs as <-.
    rewrite onInvokeRejected_eq. eexists. split; [reflexivity | cbn; lia].
  - destruct (find_interval t s) as [iv |]; [| discriminate].
    injection Hs as <-. rewrite onTick_eq.
    destruct (MAX_POLL_ATTEMPTS <=? _).
    + eexists. split; [reflexivity | cbn; lia].
    + exists []. split; [now rewrite app_nil_r | cbn; lia].
  - destruct (lookup rq _) as [cl |]; [| discriminate]. injection Hs as <-.
    rewrite onPollResolved_eq. cbv zeta.
    assert (Hrec : exists line,
               runLogs (recorded_view res (view (settle_poll rq s)))
               = runLogs (view s) ++ line /\ length line <= 1).
    { cbn [recorded_view runLogs settle_poll on_browser view].
      destruct (logged_at res) as [l |].
      - destruct (Js.truthy_str (Some l)).
        + eexists. split; [reflexivity | cbn; lia].
        + exists []. split; [now rewrite app_nil_r | cbn; lia].
      - exists []. split; [now rewrite app_nil_r | cbn; lia]. }
    destruct Hrec as (line & Hline & Hlen).
    destruct (_ && _); [| destruct (terminal _)].
    + unfold aborted. cbn [view failed_view runLogs recorded].
      rewrite Hline, <- app_assoc.
      eexists. split; [reflexivity |]. rewrite length_app. cbn. lia.
    + cbn [view finished_view runLogs recorded]. rewrite Hline.
      exists line. split; [reflexivity | lia].
    + cbn [view recorded]. rewrite Hline.
      exists line. split; [reflexivity | lia].
  - destruct (lookup rq _); [| discriminate]. injection Hs as <-.
    rewrite onPollRejected_eq. eexists. split; [reflexivity | cbn; lia].
  - destruct (find_timeout t s); [| discriminate]. injection Hs as <-.
    rewrite onRunTimeout_eq. eexists. split; [reflexivity | cbn; lia].
  - injection Hs as <-. unfold handlePayloadChange.
    destruct (JSON_parse _); exists [];
      (split; [cbn; now rewrite app_nil_r | cbn; lia]).
Qed.

Lemma run_logs_append_only_witness :
  exists more,
    runLogs (view
               (@onPollResolved sampleEngine
                  {| poll_functionId := 1; poll_invocationId := 7;
                     poll_startedAt := 0 |} stillProcessing 5%Z
                  (settle_poll 1 samplePolling)))
    = runLogs (view samplePolling) ++ more.
Proof.
  destruct (@run_logs_append_only sampleEngine samplePolling _
              (PollResolved 1 stillProcessing 5%Z) eq_refl eq_refl)
    as (more & Hm & _).
  exists more. exact Hm.
Defined.

(** ** Which functions are polled *)

Lemma invoked_grows (s s' : State) (id : Z) (more : list Call) :
  calls (browser s') = calls (browser s) ++ more ->
  invoked s id -> invoked s' id.
Proof.
  intros E [parsed Hin]. exists parsed. rewrite E. apply in_or_app. now left.
Qed.

Lemma polls_invoked_same_calls (s s' : State) :
  incl (intervals (browser s')) (intervals (browser s)) ->
  incl (polling (browser s')) (polling (browser s)) ->
  incl (invoking (browser s')) (invoking (browser s)) ->
  calls (browser s') = calls (browser s) ->
  polls_invoked s -> polls_invoked s'.
Proof.
  intros Hi Hp Hv Hc (A & B & C & D).
  assert (G : forall id, invoked s id -> invoked s' id).
  { intros id H. apply (invoked_grows s s' id []); [| exact H].
    now rewrite app_nil_r. }
  unfold polls_invoked. repeat split.
  - intros iv Hin. apply G, A, Hi, Hin.
  - intros rq cl Hin. apply G, (B rq), Hp, Hin.
  - intros rq cl Hin. apply G, (C rq), Hv, Hin.
  - intros id i Hin. rewrite Hc in Hin. apply G, (D id i), Hin.
Qed.

Lemma incl_cleared_intervals (p t : option nat) (b : Browser) :
  incl (intervals (clear_browser p t b)) (intervals b).
Proof. intros iv. apply clear_browser_intervals. Qed.

Lemma polls_invoked_step {engine : JsEngine} (s s' : State) (e : Event) :
  polls_invoked s -> step s e = Some s' -> polls_invoked s'.
Proof.
  intros Hpi Hs. destruct e; cbn [step] in Hs.
  - injection Hs as <-.
    destruct (handleRun_cases selectedFunction payload now s)
      as [[_ Hb] | (fn & parsed & _ & _ & _ & ->)].
    + apply (polls_invoked_same_calls s); try rewrite Hb;
        auto using incl_refl.
    + destruct Hpi as (A & B & C & D).
      assert (G : forall id, invoked s id
                             -> invoked (started fn parsed now s) id).
      { intros id H.
        apply (invoked_grows s _ id [CallInvoke (fn_id fn) parsed]);
          [reflexivity | exact H]. }
      unfold polls_invoked.
      cbn [started browser intervals polling invoking calls clear_browser].
      repeat split.
      * intros iv Hin. apply G, A.
        apply (clear_browser_intervals (pollRef (refs s))
                 (runTimeoutRef (refs s))). exact Hin.
      * intros rq cl Hin. apply G, (B rq), Hin.
      * intros rq cl Hin. apply in_app_iff in Hin as [Hin | [Hin | []]].
        -- apply G, (C rq), Hin.
        -- injection Hin as _ <-. exists parsed.
           cbn [started browser calls inv_functionId].
           apply in_or_app. right. now left.
      * intros id i Hin. apply in_app_iff in Hin as [Hin | [Hin | []]].
        -- apply G, (D id i), Hin.
        -- discriminate.
  - destruct (lookup rq _) as [cl |] eqn:L; [| discriminate].
    injection Hs as <-. apply lookup_In in L.
    destruct Hpi as (A & B & C & D).
    destruct (truthy_num (invocation_id invokeRes)) eqn:Hid.
    + destruct (invocation_id invokeRes) as [i |] eqn:Ei; [| discriminate].
      cbn in Hid. apply negb_true_iff, Z.eqb_neq in Hid.
      rewrite (onInvokeResolved_accepted cl invokeRes i _ Ei Hid).
      unfold polls_invoked, invoked.
      cbn [browser intervals polling invoking calls settle_invoke
             on_browser].
      split; [| split; [exact B | split; [| exact D]]].
      * intros iv Hin. apply in_app_iff in Hin as [Hin | [<- | []]].
        -- apply A, Hin.
        -- apply (C rq cl), L.
      * intros rq' cl' Hin. apply filter_In in Hin as [Hin _].
        apply (C rq'), Hin.
    + rewrite (onInvokeResolved_missing cl invokeRes _ Hid).
      unfold polls_invoked, invoked.
      cbn [browser intervals polling invoking calls settle_invoke
             on_browser].
      split; [exact A |]. split; [exact B |]. split; [| exact D].
      intros rq' cl' Hin. apply filter_In in Hin as [Hin _].
      apply (C rq'), Hin.
  - destruct (lookup rq _); [| discriminate]. injection Hs as <-.
    rewrite onInvokeRejected_eq.
    apply (polls_invoked_same_calls s); auto using incl_refl.
    + cbn. intros iv Hin.
      apply (clear_browser_intervals (pollRef (refs s))
               (runTimeoutRef (refs s))). exact Hin.
    + cbn. intros x Hin. now apply filter_In in Hin.
  - destruct (find_interval t s) as [iv |] eqn:F; [| discriminate].
    injection Hs as <-. rewrite onTick_eq.
    destruct (MAX_POLL_ATTEMPTS <=? _).
    + apply (polls_invoked_same_calls s); auto using incl_refl.
      apply incl_cleared_intervals.
    + apply find_interval_In in F as [Hin _].
      destruct Hpi as (A & B & C & D).
      set (s1 := getInvocationStatus (iv_closure iv)
                   (set_pollAttemptsRef (pollAttemptsRef (refs s) + 1) s)).
      assert (G : forall id, invoked s id -> invoked s1 id).
      { intros id H. apply (invoked_grows s s1 id [poll_of iv]);
          [reflexivity | exact H]. }
      unfold polls_invoked.
      cbn [s1 getInvocationStatus set_pollAttemptsRef on_refs on_browser
             browser intervals polling invoking calls].
      repeat split.
      * intros iv' Hin'. apply G, A, Hin'.
      * intros rq cl Hq. apply in_app_iff in Hq as [Hq | [Hq | []]].
        -- apply G, (B rq), Hq.
        -- injection Hq as _ <-. apply G, A, Hin.
      * intros rq cl Hq. apply G, (C rq), Hq.
      * intros id i Hq. apply in_app_iff in Hq as [Hq | [Hq | []]].
        -- apply G, (D id i), Hq.
        -- injection Hq as <- _. apply G, A, Hin.
  - destruct (lookup rq _) as [cl |]; [| discriminate]. injection Hs as <-.
    apply (polls_invoked_same_calls s); auto using incl_refl.
    + rewrite onPollResolved_eq. cbv zeta.
      destruct (_ && _); [| destruct (terminal _)]; cbn;
        try apply incl_refl;
        intros iv Hin;
        apply (clear_browser_intervals (pollRef (refs s))
                 (runTimeoutRef (refs s))); exact Hin.
    + rewrite onPollResolved_eq. cbv zeta.
      destruct (_ && _); [| destruct (terminal _)]; cbn;
        intros x Hin; now apply filter_In in Hin.
    + rewrite onPollResolved_eq. cbv zeta.
      destruct (_ && _); [| destruct (terminal _)]; cbn; apply incl_refl.
    + rewrite onPollResolved_eq. cbv zeta.
      destruct (_ && _); [| destruct (terminal _)]; reflexivity.
  - destruct (lookup rq _); [| discriminate]. injection Hs as <-.
    rewrite onPollRejected_eq.
    apply (polls_invoked_same_calls s); auto using incl_refl.
    + cbn. intros iv Hin.
      apply (clear_browser_intervals (pollRef (refs s))
               (runTimeoutRef (refs s))). exact Hin.
    + cbn. intros x Hin. now apply filter_In in Hin.
  - destruct (find_timeout t s); [| discriminate]. injection Hs as <-.
    rewrite onRunTimeout_eq.
    apply (polls_invoked_same_calls s); auto using incl_refl.
    cbn. intros iv Hin.
    apply (clear_browser_intervals (pollRef (refs s))
             (runTimeoutRef (refs s))). exact Hin.
  - injection Hs as <-.
    apply (polls_invoked_same_calls s);
      rewrite ?(proj2 (onDeleted_eq s)); auto using incl_refl.
    apply incl_cleared_intervals.
  - injection Hs as <-. exact Hpi.
  - injection Hs as <-.
    apply (polls_invoked_same_calls s);
      rewrite ?(proj2 (handlePayloadChange_eq value s));
      auto using incl_refl.
Qed.

Lemma invariants_step_page {engine : JsEngine} (s s' : State)
  (e : PageEvent) :
  polls_invoked s /\ nonzero_polls s -> step_page s e = Some s' ->
  polls_invoked s' /\ nonzero_polls s'.
Proof.
  intros [Hpi Hnz] Hs. destruct e as [e |]; cbn in Hs.
  - eauto using polls_invoked_step, nonzero_polls_step.
  - injection Hs as <-. destruct (onReset_eq s) as (_ & _ & Eb). split.
    + apply (polls_invoked_same_calls s); rewrite ?Eb;
        auto using incl_refl, incl_cleared_intervals.
    + destruct Hnz as (Hi & Hp & Hc). unfold nonzero_polls. rewrite Eb.
      split; [| split; [exact Hp | exact Hc]].
      intros iv Hin. apply Hi.
      apply (clear_browser_intervals (pollRef (refs s))
               (runTimeoutRef (refs s))). exact Hin.
Qed.

(** X8.  The page never polls a function it did not invoke: in every
    state it can reach, a click on Reset included, each live interval,
    each request still in flight and each status request in the call log
    is for a function whose submit is in the call log, and no status
    request is for invocation 0. *)
Theorem polls_only_invoked_functions {engine : JsEngine}
  (es : list PageEvent) (s : State) :
  exec_page mounted es = Some s ->
  polls_invoked s
  /\ forall id invocationId,
       In (CallGetInvocationStatus id invocationId) (calls (browser s)) ->
       (exists parsed, In (CallInvoke id parsed) (calls (browser s)))
       /\ invocationId <> 0%Z.
Proof.
  intros Hx.
  assert (G : forall es s0 s,
             polls_invoked s0 /\ nonzero_polls s0 ->
             exec_page s0 es = Some s ->
             polls_invoked s /\ nonzero_polls s).
  { clear. induction es as [| e es IH]; intros s0 s H0 Hx; cbn in Hx.
    - now injection Hx as <-.
    - destruct (step_page s0 e) as [s1 |] eqn:Hs; [| discriminate].
      eauto using invariants_step_page. }
  assert (H0 : polls_invoked mounted).
  { unfold polls_invoked. cbn. repeat split; intros; contradiction. }
  destruct (G es mounted s (conj H0 nonzero_polls_mounted) Hx)
    as [Hpi (_ & _ & Hz)].
  split; [exact Hpi |]. intros id invocationId Hin. split.
  - destruct Hpi as (_ & _ & _ & D). exact (D id invocationId Hin).
  - intros ->. exact (Hz id Hin).
Qed.

Lemma polls_only_invoked_functions_witness :
  In (CallGetInvocationStatus 1 7) (calls (browser samplePolling))
  /\ exists parsed, In (CallInvoke 1 parsed) (calls (browser samplePolling)).
Proof.
  assert (Hin : In (CallGetInvocationStatus 1 7)
                  (calls (browser samplePolling)))
    by (right; left; reflexivity).
  split; [exact Hin |].
  assert (Hx : @exec_page sampleEngine mounted
                 [ Tracked
                     (Run (Some (sampleFunction 1 "ingest-events")) "{}" 0);
                   Tracked (InvokeResolved 0 (accepted 7));
                   Tracked (Tick 2) ]
               = Some samplePolling) by reflexivity.
  exact (proj1 (proj2 (@polls_only_invoked_functions sampleEngine _ _ Hx)
                  1%Z 7%Z Hin)).
Defined.

(** ** Deleting the function whose run is polling *)

(** X9.  Deleting the selected function stops its run: the status goes
    back to [idle], log, result, duration and message are emptied, and in a
    well-formed session no interval or timeout is left, so no tick can fire
    and (no submit being in flight) no later event short of a new run
    polls.  [isRunning] is left as it was. *)
Theorem delete_stops_polling {engine : JsEngine} (s : State) :
  single_session s ->
  single_timeout s ->
  invoking (browser s) = [] ->
  exists s',
    step s Deleted = Some s'
    /\ runStatus (view s') = idle
    /\ runLogs (view s') = []
    /\ runResult (view s') = ""
    /\ runDurationMs (view s') = None
    /\ runMessage (view s') = None
    /\ isRunning (view s') = isRunning (view s)
    /\ refs s' = cleared
    /\ intervals (browser s') = []
    /\ timeouts (browser s') = []
    /\ calls (browser s') = calls (browser s)
    /\ (forall t, step s' (Tick t) = None)
    /\ (forall es s'', no_run es = true -> exec s' es = Some s'' ->
                       calls (browser s'') = calls (browser s')).
Proof.
  intros Hss Hst Hv. cbn [step]. eexists. split; [reflexivity |].
  pose proof (clear_single_session s (runTimeoutRef (refs s)) Hss) as Hiv.
  pose proof (clear_single_timeout s (pollRef (refs s)) Hst) as Hto.
  destruct (onDeleted_eq s) as [Hr Hb].
  unfold onDeleted at 1 2 3 4 5 6. rewrite clearPoll_eq.
  cbn [view setRunMessage setRunDurationMs setRunResult setRunLogs
         setRunStatus on_view runStatus runLogs runResult runDurationMs
         runMessage isRunning].
  repeat (split; [reflexivity |]).
  rewrite Hr, Hb.
  split; [reflexivity |]. split; [exact Hiv |]. split; [exact Hto |].
  split; [reflexivity |]. split.
  - intros t. cbn [step]. unfold find_interval. now rewrite Hb, Hiv.
  - intros es s'' Hes Hx. rewrite <- Hb.
    refine (proj2 (quiet_exec es _ s'' _ Hes Hx)).
    split; rewrite Hb; [exact Hiv | exact Hv].
Qed.

Lemma delete_stops_polling_witness :
  single_session samplePolling
  /\ exists s',
       @step sampleEngine samplePolling Deleted = Some s'
       /\ intervals (browser s') = [].
Proof.
  assert (H1 : single_session samplePolling)
    by (intros iv [<- | []]; reflexivity).
  assert (H2 : single_timeout samplePolling)
    by (intros tm [<- | []]; reflexivity).
  split; [exact H1 |].
  destruct (@delete_stops_polling sampleEngine samplePolling H1 H2 eq_refl)
    as (s' & Hs & _ & _ & _ & _ & _ & _ & _ & Hi & _).
  exists s'. auto.
Defined.

Lemma sequential_run_keeps_one_timer_witness :
  single_session mounted
  /\ exists s',
       @exec sampleEngine mounted
         [ Run (Some (sampleFunction 1 "ingest-events")) "{}" 0;
           InvokeResolved (nextRequest (browser mounted)) (accepted 7) ]
       = Some s'
       /\ length (intervals (browser s')) = 1.
Proof.
  assert (H1 : single_session mounted) by (intros iv []).
  split; [exact H1 |].
  assert (Hnz : 7%Z <> 0%Z) by discriminate.
  destruct (@sequential_run_keeps_one_timer sampleEngine mounted
              (sampleFunction 1 "ingest-events") "{}" (JObj []) 0%Z
              (accepted 7) 7%Z eq_refl eq_refl H1 eq_refl eq_refl Hnz)
    as (s' & iv & Hx & Hi & _).
  exists s'. split; [exact Hx |]. now rewrite Hi.
Defined.

(* ================================================================== *)
(** * Part IV: further properties of the function store *)
(* ================================================================== *)

Lemma find_ext {A : Type} (f g : A -> bool) (l : list A) :
  (forall x, f x = g x) -> find f l = find g l.
Proof.
  intros H. induction l as [| x l IH]; cbn; [reflexivity |].
  now rewrite H, IH.
Qed.

Lemma find_selected (st : FunctionStore) :
  find (is_selected st) (functions st) = selectedFunctionOf st.
Proof.
  unfold selectedFunctionOf, is_selected.
  destruct (selectedId st) as [cur |]; [reflexivity |].
  induction (functions st) as [| fn l IH]; cbn; auto.
Qed.

Lemma find_id_In (id : Z) (l : list SoftGateFunction) :
  In id (ids l) ->
  exists fn, find (fun g => fn_id g =? id)%Z l = Some fn /\ fn_id fn = id.
Proof.
  induction l as [| g l IH]; cbn; intros H; [contradiction |].
  destruct (Z.eqb_spec (fn_id g) id) as [E | E]; [eauto |].
  destruct H as [H | H]; [contradiction | auto].
Qed.

Lemma find_id_None (id : Z) (l : list SoftGateFunction) :
  find (fun g => fn_id g =? id)%Z l = None -> ~ In id (ids l).
Proof.
  intros F Hin. destruct (find_id_In id l Hin) as [fn [E _]]. congruence.
Qed.

Lemma ids_map (f : SoftGateFunction -> SoftGateFunction)
  (l : list SoftGateFunction) :
  (forall fn, fn_id (f fn) = fn_id fn) -> ids (map f l) = ids l.
Proof.
  intros H. unfold ids. rewrite map_map. apply map_ext. exact H.
Qed.

Lemma upsert_listed (fn : SoftGateFunction) (st : FunctionStore) :
  In (fn_id fn) (ids (functions st)) ->
  ids (functions (upsertFunction fn st)) = ids (functions st)
  /\ selectedId (upsertFunction fn st)
     = match selectedId st with
       | Some cur => Some cur
       | None => Some (fn_id fn)
       end.
Proof.
  intros Hin. unfold upsertFunction.
  destruct (find_id_In _ _ Hin) as [g [F _]]. rewrite F. cbn. split; auto.
  apply ids_map. intros x.
  destruct (Z.eqb_spec (fn_id x) (fn_id fn)); cbn; congruence.
Qed.

Lemma upsert_unlisted (fn : SoftGateFunction) (st : FunctionStore) :
  ~ In (fn_id fn) (ids (functions st)) ->
  upsertFunction fn st
  = {| functions := functions st ++ [fn]; selectedId := Some (fn_id fn) |}.
Proof.
  intros Hnin. unfold upsertFunction. now rewrite (find_absent _ _ Hnin).
Qed.

Lemma ids_app (l1 l2 : list SoftGateFunction) :
  ids (l1 ++ l2) = ids l1 ++ ids l2.
Proof. unfold ids. apply map_app. Qed.

Lemma setCode_ids (code : string) (st : FunctionStore) :
  ids (functions (setCode code st)) = ids (functions st)
  /\ selectedId (setCode code st) = selectedId st.
Proof.
  unfold setCode. destruct (find _ _) as [cur |]; [| auto].
  destruct (fn_code cur =? code)%string; [auto |]. cbn. split; auto.
  apply ids_map. intros fn. now destruct (is_selected st fn).
Qed.

Lemma changeLanguage_ids (language : Language) (st : FunctionStore) :
  ids (functions (changeLanguage language st)) = ids (functions st)
  /\ selectedId (changeLanguage language st) = selectedId st.
Proof.
  unfold changeLanguage. destruct (find _ _) as [cur |]; [| auto].
  destruct (_ && _); [auto |]. cbn. split; auto.
  apply ids_map. intros fn. now destruct (is_selected st fn).
Qed.

Lemma mergeFunction_ids (id : Z) (partial : PartialFunction)
  (st : FunctionStore) :
  p_id partial = None ->
  ids (functions (mergeFunction id partial st)) = ids (functions st)
  /\ selectedId (mergeFunction id partial st) = selectedId st.
Proof.
  intros H. unfold mergeFunction. cbn. split; auto.
  apply ids_map. intros fn. destruct (fn_id fn =? id)%Z; [| reflexivity].
  cbn. now rewrite H.
Qed.

Lemma removeFunction_resolves (id : Z) (st : FunctionStore) :
  resolves st -> resolves (removeFunction id st).
Proof.
  unfold resolves, removeFunction. cbn.
  destruct (selectedId st) as [cur |]; [| auto]. intros Hin.
  destruct (Z.eqb_spec cur id) as [E | E].
  - destruct (filter _ _) as [| first rest]; cbn; auto.
  - cbn. fold (without id (functions st)). apply without_ids. auto.
Qed.

(** X10.  The selection always resolves.  Starting from a store whose
    selection is null or names a listed function (as the created store
    does), every action of the store, used as the page uses it, leaves it
    so, and the selected function is then always found: upsert, remove,
    [setCode], [changeLanguage], a merge that carries no id, selecting a
    listed function, and loading a list that is not empty. *)
Theorem store_selection_resolves (st : FunctionStore) :
  resolves st ->
  (forall cur, selectedId st = Some cur ->
               exists fn, selectedFunctionOf st = Some fn /\ fn_id fn = cur)
  /\ (forall fn, resolves (upsertFunction fn st))
  /\ (forall id, resolves (removeFunction id st))
  /\ (forall code, resolves (setCode code st))
  /\ (forall language, resolves (changeLanguage language st))
  /\ (forall id partial, p_id partial = None ->
                         resolves (mergeFunction id partial st))
  /\ (forall fn, In fn (functions st) -> resolves (setSelected (fn_id fn) st))
  /\ (forall fs, fs <> [] -> resolves (setFunctions fs st)).
Proof.
  intros H. repeat split.
  - intros cur E. unfold resolves in H. rewrite E in H.
    unfold selectedFunctionOf. rewrite E. now apply find_id_In.
  - intros fn.
    destruct (in_dec Z.eq_dec (fn_id fn) (ids (functions st))) as [Hin | Hn].
    + destruct (upsert_listed fn st Hin) as [Ei Es].
      unfold resolves in *. rewrite Es, Ei.
      destruct (selectedId st); auto.
    + rewrite (upsert_unlisted fn st Hn). unfold resolves. cbn.
      rewrite ids_app. apply in_or_app. right. now left.
  - intros id. now apply removeFunction_resolves.
  - intros code. destruct (setCode_ids code st) as [Ei Es].
    unfold resolves in *. now rewrite Es, Ei.
  - intros language. destruct (changeLanguage_ids language st) as [Ei Es].
    unfold resolves in *. now rewrite Es, Ei.
  - intros id partial Hp.
    destruct (mergeFunction_ids id partial st Hp) as [Ei Es].
    unfold resolves in *. now rewrite Es, Ei.
  - intros fn Hin.
    destruct (setSelected_selectedId (fn_id fn) st) as [Es Ef].
    unfold resolves. rewrite Es, Ef. now apply in_map.
  - intros fs Hne. unfold resolves, setFunctions. cbn.
    destruct fs as [| first rest]; [congruence |]. now left.
Qed.

Lemma store_selection_resolves_witness :
  resolves initialStore
  /\ resolves (removeFunction 1 initialStore)
  /\ selectedId (removeFunction 1 initialStore) = Some 2%Z.
Proof.
  assert (H : resolves initialStore) by (cbn; auto).
  split; [exact H |]. split; [| reflexivity].
  exact (proj1 (proj2 (proj2 (store_selection_resolves initialStore H))) 1%Z).
Defined.

(** X11.  Ids stay distinct.  No action of the store introduces a second
    entry with an id already listed: upsert (which edits in place or
    appends an unlisted id), remove, [setCode], [changeLanguage] and a
    merge that carries no id all keep the ids of the list free of
    duplicates. *)
Theorem store_ids_distinct (st : FunctionStore) :
  NoDup (ids (functions st)) ->
  (forall fn, NoDup (ids (functions (upsertFunction fn st))))
  /\ (forall id, NoDup (ids (functions (removeFunction id st))))
  /\ (forall code, NoDup (ids (functions (setCode code st))))
  /\ (forall language, NoDup (ids (functions (changeLanguage language st))))
  /\ (forall id partial, p_id partial = None ->
                         NoDup (ids (functions (mergeFunction id partial st)))).
Proof.
  intros H. repeat split.
  - intros fn.
    destruct (in_dec Z.eq_dec (fn_id fn) (ids (functions st))) as [Hin | Hn].
    + now rewrite (proj1 (upsert_listed fn st Hin)).
    + rewrite (upsert_unlisted fn st Hn). cbn. rewrite ids_app.
      apply NoDup_app; [exact H | repeat constructor; intros [] |].
      intros x Hx [<- | []]. exact (Hn Hx).
  - intros id. cbn. now apply without_NoDup.
  - intros code. now rewrite (proj1 (setCode_ids code st)).
  - intros language. now rewrite (proj1 (changeLanguage_ids language st)).
  - intros id partial Hp. now rewrite (proj1 (mergeFunction_ids id partial st Hp)).
Qed.

Lemma store_ids_distinct_witness :
  NoDup (ids (functions initialStore))
  /\ NoDup (ids (functions
                   (upsertFunction (sampleFunction (-1) "draft-a")
                      initialStore))).
Proof.
  assert (H : NoDup (ids (functions initialStore))).
  { cbn. repeat constructor; cbn; intuition discriminate. }
  split; [exact H |].
  exact (proj1 (store_ids_distinct initialStore H) _).
Defined.

Lemma spread_eq (item fn : SoftGateFunction) : spread item fn = fn.
Proof. now destruct fn. Qed.

(** X12.  Upsert, then look up.  After [upsertFunction fn], for an [fn]
    that lists all its keys as the page's literals do, a lookup of [fn]'s
    id finds exactly [fn], whether the id was listed before or not, and
    the lookup of every other id finds what it found before. *)
Theorem upsert_then_find (fn : SoftGateFunction) (st : FunctionStore) :
  find (fun g => fn_id g =? fn_id fn)%Z (functions (upsertFunction fn st))
  = Some fn
  /\ forall id, id <> fn_id fn ->
       find (fun g => fn_id g =? id)%Z (functions (upsertFunction fn st))
       = find (fun g => fn_id g =? id)%Z (functions st).
Proof.
  unfold upsertFunction.
  destruct (find (fun item => fn_id item =? fn_id fn)%Z (functions st))
    as [old |] eqn:F; cbn [functions].
  - split.
    + revert F. induction (functions st) as [| g l IH]; intros F;
        [discriminate |].
      cbn in *. destruct (Z.eqb_spec (fn_id g) (fn_id fn)) as [E | E].
      * rewrite spread_eq. cbn. now rewrite Z.eqb_refl.
      * cbn. destruct (Z.eqb_spec (fn_id g) (fn_id fn)); [contradiction |].
        auto.
    + intros id Hne. clear F.
      induction (functions st) as [| g l IH]; [reflexivity |].
      cbn. destruct (Z.eqb_spec (fn_id g) (fn_id fn)) as [E | E].
      * rewrite spread_eq.
        destruct (Z.eqb_spec (fn_id fn) id) as [E1 | E1]; [congruence |].
        destruct (Z.eqb_spec (fn_id g) id) as [E2 | E2]; [congruence |].
        exact IH.
      * destruct (fn_id g =? id)%Z; [reflexivity | exact IH].
  - pose proof (find_id_None _ _ F) as Hn. split.
    + now apply find_appended.
    + intros id Hne.
      induction (functions st) as [| g l IH]; cbn.
      * destruct (Z.eqb_spec (fn_id fn) id); [congruence | reflexivity].
      * destruct (fn_id g =? id)%Z; [reflexivity |]. apply IH.
        -- cbn in F. destruct (fn_id g =? fn_id fn)%Z; [discriminate | auto].
        -- intros Hin. apply Hn. now right.
Qed.

(** X13.  Where an upsert puts its entry, and what it selects.  An id that
    is listed is edited in place: the ids of the list, and so every
    position, stay as they are and a selection that is set does not move.
    An id that is not listed is appended at the end and becomes the
    selection. *)
Theorem upsert_in_place_or_appended (fn : SoftGateFunction)
  (st : FunctionStore) :
  (In (fn_id fn) (ids (functions st)) ->
   ids (functions (upsertFunction fn st)) = ids (functions st)
   /\ (forall id, position id (functions (upsertFunction fn st))
                  = position id (functions st))
   /\ (forall cur, selectedId st = Some cur ->
                   selectedId (upsertFunction fn st) = Some cur))
  /\ (~ In (fn_id fn) (ids (functions st)) ->
      functions (upsertFunction fn st) = functions st ++ [fn]
      /\ position (fn_id fn) (functions (upsertFunction fn st))
         = Some (length (functions st))
      /\ selectedId (upsertFunction fn st) = Some (fn_id fn)).
Proof.
  split.
  - intros Hin. destruct (upsert_listed fn st Hin) as [Ei Es].
    split; [exact Ei |]. split.
    + intros id.
      assert (G : forall l1 l2, ids l1 = ids l2 ->
                                position id l1 = position id l2).
      { induction l1 as [| a l1 IH]; destruct l2 as [| b l2]; cbn;
          try discriminate; [reflexivity |].
        intros [= E1 E2]. rewrite E1. now rewrite (IH l2 E2). }
      now apply G.
    + intros cur Hc. now rewrite Es, Hc.
  - intros Hn. rewrite (upsert_unlisted fn st Hn). cbn.
    split; [reflexivity |]. split; [| reflexivity].
    now apply position_appended.
Qed.

Lemma upsert_in_place_or_appended_witness :
  In (fn_id (sampleFunction 2 "renamed")) (ids (functions initialStore))
  /\ ids (functions (upsertFunction (sampleFunction 2 "renamed") initialStore))
     = [1; 2; 3]%Z.
Proof.
  assert (H : In (fn_id (sampleFunction 2 "renamed"))
                (ids (functions initialStore))) by (cbn; auto).
  split; [exact H |].
  exact (proj1 (proj1 (upsert_in_place_or_appended _ initialStore) H)).
Defined.

Lemma find_map_selected (cur : Z) (f : SoftGateFunction -> SoftGateFunction)
  (l : list SoftGateFunction) :
  (forall g, fn_id (f g) = fn_id g) ->
  find (fun g => fn_id g =? cur)%Z
    (map (fun g => if (fn_id g =? cur)%Z then f g else g) l)
  = option_map f (find (fun g => fn_id g =? cur)%Z l).
Proof.
  intros Hf. induction l as [| g l IH]; cbn; [reflexivity |].
  destruct (fn_id g =? cur)%Z eqn:E.
  - now rewrite Hf, E.
  - now rewrite E.
Qed.

Lemma In_map_unselected (cur : Z) (f : SoftGateFunction -> SoftGateFunction)
  (l : list SoftGateFunction) (g : SoftGateFunction) :
  In g l -> fn_id g <> cur ->
  In g (map (fun g => if (fn_id g =? cur)%Z then f g else g) l).
Proof.
  intros Hin Hne. apply in_map_iff. exists g. split; [| exact Hin].
  destruct (Z.eqb_spec (fn_id g) cur); [contradiction | reflexivity].
Qed.

(** The function [changeLanguage] leaves in place of [fn]. *)
Lemma changeLanguage_selected (language : Language) (st : FunctionStore)
  (fn : SoftGateFunction) :
  selectedFunctionOf st = Some fn ->
  selectedFunctionOf (changeLanguage language st)
  = Some {| fn_id := fn_id fn; fn_name := fn_name fn;
            fn_language := language;
            fn_code := defaultCodeByLanguage language;
            fn_description := fn_description fn |}.
Proof.
  intros Hsel. unfold changeLanguage. rewrite find_selected, Hsel.
  destruct (Language_eqb (fn_language fn) language
            && (fn_code fn =? defaultCodeByLanguage language)%string) eqn:E.
  - rewrite Hsel. apply andb_true_iff in E as [El Ec].
    apply String.eqb_eq in Ec. destruct fn as [i n l c d]. cbn in *.
    rewrite <- Ec. destruct l, language; (discriminate || reflexivity).
  - unfold selectedFunctionOf in *. unfold is_selected. cbn [selectedId functions].
    destruct (selectedId st) as [cur |]; [| discriminate].
    rewrite find_map_selected by reflexivity. now rewrite Hsel.
Qed.

Lemma setCode_selected (code : string) (st : FunctionStore)
  (fn : SoftGateFunction) :
  selectedFunctionOf st = Some fn ->
  selectedFunctionOf (setCode code st)
  = Some {| fn_id := fn_id fn; fn_name := fn_name fn;
            fn_language := fn_language fn; fn_code := code;
            fn_description := fn_description fn |}.
Proof.
  intros Hsel. unfold setCode. rewrite find_selected, Hsel.
  destruct (String.eqb_spec (fn_code fn) code) as [E | E].
  - rewrite Hsel. now destruct fn; cbn in *; subst.
  - unfold selectedFunctionOf in *. unfold is_selected. cbn [selectedId functions].
    destruct (selectedId st) as [cur |]; [| discriminate].
    rewrite find_map_selected by reflexivity. now rewrite Hsel.
Qed.

Lemma Language_eqb_refl (l : Language) : Language_eqb l l = true.
Proof. now destruct l. Qed.

(** X14.  Changing the language resets the code.  [changeLanguage] leaves
    the selected function with the chosen language and that language's
    template as its code, keeping id, name and description; code typed
    into the editor before ([setCode]) is discarded, also when the
    language chosen is the one the function already has.  Every other
    function of the list is kept as it is, and choosing the same language
    again changes nothing. *)
Theorem changeLanguage_resets_code (language : Language) (st : FunctionStore)
  (fn : SoftGateFunction) :
  selectedFunctionOf st = Some fn ->
  let reset :=
    {| fn_id := fn_id fn; fn_name := fn_name fn; fn_language := language;
       fn_code := defaultCodeByLanguage language;
       fn_description := fn_description fn |} in
  selectedFunctionOf (changeLanguage language st) = Some reset
  /\ (forall code,
        selectedFunctionOf (changeLanguage language (setCode code st))
        = Some reset)
  /\ (forall g, In g (functions st) -> fn_id g <> fn_id fn ->
                In g (functions (changeLanguage language st)))
  /\ changeLanguage language (changeLanguage language st)
     = changeLanguage language st.
Proof.
  intros Hsel reset. pose proof (changeLanguage_selected language st fn Hsel) as H1.
  split; [exact H1 |]. split; [| split].
  - intros code.
    now rewrite (changeLanguage_selected language _ _
                   (setCode_selected code st fn Hsel)).
  - intros g Hin Hne. unfold changeLanguage.
    destruct (find _ _) as [cur |]; [| exact Hin].
    destruct (_ && _); [exact Hin |]. cbn [functions].
    assert (Hid : selectedId st = Some (fn_id fn)).
    { unfold selectedFunctionOf in Hsel.
      destruct (selectedId st) as [c |]; [| discriminate].
      apply find_some in Hsel as [_ E]. apply Z.eqb_eq in E. now rewrite E. }
    unfold is_selected. rewrite Hid. now apply In_map_unselected.
  - set (st' := changeLanguage language st) in *.
    unfold changeLanguage at 1. rewrite find_selected, H1. cbn.
    now rewrite Language_eqb_refl, String.eqb_refl.
Qed.

Lemma changeLanguage_resets_code_witness :
  selectedFunctionOf initialStore
  = Some {| fn_id := 1; fn_name := "ingest-events"; fn_language := python;
            fn_code := template_python; fn_description := None |}
  /\ selectedFunctionOf
       (changeLanguage python (setCode "print(1)" initialStore))
     = Some {| fn_id := 1; fn_name := "ingest-events";
               fn_language := python; fn_code := template_python;
               fn_description := None |}.
Proof.
  assert (H : selectedFunctionOf initialStore
              = Some {| fn_id := 1; fn_name := "ingest-events";
                        fn_language := python; fn_code := template_python;
                        fn_description := None |}) by reflexivity.
  split; [exact H |].
  exact (proj1 (proj2 (changeLanguage_resets_code python initialStore _ H))
           "print(1)").
Defined.

(* ================================================================== *)
(** * Part V: creating, deleting and saving on the page *)
(* ================================================================== *)

Lemma draft_unlisted (p : Page) :
  drafts_counted p -> ~ In (fn_id (draftOf p)) (ids (functions (pg_store p))).
Proof.
  intros Hc Hin. apply Hc in Hin. cbn in Hin. lia.
Qed.

Lemma handleCreateFunction_named (p : Page) :
  trim (createName p) <> "" ->
  handleCreateFunction p
  = {| pg_store :=
         setSelected (fn_id (draftOf p))
           (upsertFunction (draftOf p) (pg_store p));
       pg_run := onDraftCreated (pg_run p);
       pg_payload := samplePayload;
       pg_toast := pg_toast p;
       draftCounter := draftCounter p + 1;
       showCreateForm := false;
       createName := "";
       createLanguage := python;
       createDescription := "";
       isDeleting := isDeleting p |}.
Proof.
  intros Hn. unfold handleCreateFunction.
  destruct (String.eqb_spec (trim (createName p)) ""); [contradiction |].
  reflexivity.
Qed.

Lemma created_store (p : Page) :
  trim (createName p) <> "" -> drafts_counted p ->
  functions (pg_store (handleCreateFunction p))
  = functions (pg_store p) ++ [draftOf p]
  /\ selectedId (pg_store (handleCreateFunction p))
     = Some (fn_id (draftOf p)).
Proof.
  intros Hn Hc. rewrite (handleCreateFunction_named p Hn). cbn [pg_store].
  destruct (setSelected_selectedId (fn_id (draftOf p))
              (upsertFunction (draftOf p) (pg_store p))) as [Es Ef].
  rewrite Es, Ef, (upsert_unlisted _ _ (draft_unlisted p Hc)). auto.
Qed.

(** X15.  A new draft gets a fresh negative id.  When the name typed is
    not blank and every listed id is one the counter has handed out or a
    registry id, [handleCreateFunction] appends a draft whose id is
    negative and not listed, selects it, counts it, resets the payload to
    the sample and keeps the ids distinct; the draft cannot be run: the
    Run button is disabled for it and [handleRun] only reports that it has
    to be saved first, touching neither refs nor timers. *)
Theorem created_draft_is_fresh {engine : JsEngine} (p : Page) :
  trim (createName p) <> "" ->
  drafts_counted p ->
  NoDup (ids (functions (pg_store p))) ->
  let p' := handleCreateFunction p in
  (fn_id (draftOf p) < 0)%Z
  /\ ~ In (fn_id (draftOf p)) (ids (functions (pg_store p)))
  /\ functions (pg_store p') = functions (pg_store p) ++ [draftOf p]
  /\ selectedFunctionOf (pg_store p') = Some (draftOf p)
  /\ draftCounter p' = S (draftCounter p)
  /\ pg_payload p' = samplePayload
  /\ drafts_counted p'
  /\ NoDup (ids (functions (pg_store p')))
  /\ runDisabled (selectedFunctionOf (pg_store p')) (pg_run p') = true
  /\ forall payload now,
       handleRun (selectedFunctionOf (pg_store p')) payload now (pg_run p')
       = setRunMessage (Some "저장 후 실행할 수 있습니다.") (pg_run p').
Proof.
  intros Hn Hc Hnd p'.
  pose proof (draft_unlisted p Hc) as Hfresh.
  destruct (created_store p Hn Hc) as [Ef Es]. fold p' in Ef, Es.
  assert (Hneg : (fn_id (draftOf p) < 0)%Z) by (cbn; lia).
  assert (Hsel : selectedFunctionOf (pg_store p') = Some (draftOf p)).
  { unfold selectedFunctionOf. rewrite Es, Ef. now apply find_appended. }
  assert (Hcnt : draftCounter p' = S (draftCounter p)).
  { unfold p'. rewrite (handleCreateFunction_named p Hn). cbn. lia. }
  split; [exact Hneg |]. split; [exact Hfresh |]. split; [exact Ef |].
  split; [exact Hsel |]. split; [exact Hcnt |]. split.
  { unfold p'. now rewrite (handleCreateFunction_named p Hn). }
  split.
  { intros id Hin. rewrite Ef, ids_app in Hin. rewrite Hcnt.
    apply in_app_or in Hin as [Hin | [<- | []]].
    - apply Hc in Hin. lia.
    - cbn. lia. }
  split.
  { rewrite Ef, ids_app. apply NoDup_app; [exact Hnd | |].
    - repeat constructor. intros [].
    - intros x Hx [<- | []]. exact (Hfresh Hx). }
  rewrite Hsel. apply Z.ltb_lt in Hneg. split.
  - unfold runDisabled. rewrite Hneg. now rewrite !orb_true_r.
  - intros payload now. unfold handleRun. now rewrite Hneg.
Qed.

Lemma created_draft_is_fresh_witness :
  trim (createName
          {| pg_store := initialStore; pg_run := mounted;
             pg_payload := "{}"; pg_toast := None; draftCounter := 0;
             showCreateForm := true; createName := "  resize  ";
             createLanguage := go; createDescription := "";
             isDeleting := false |}) <> ""
  /\ draftOf
       {| pg_store := initialStore; pg_run := mounted;
          pg_payload := "{}"; pg_toast := None; draftCounter := 0;
          showCreateForm := true; createName := "  resize  ";
          createLanguage := go; createDescription := "";
          isDeleting := false |}
     = {| fn_id := -1; fn_name := "resize"; fn_language := go;
          fn_code := template_go; fn_description := None |}
  /\ (fn_id
        (draftOf
           {| pg_store := initialStore; pg_run := mounted;
              pg_payload := "{}"; pg_toast := None; draftCounter := 0;
              showCreateForm := true; createName := "  resize  ";
              createLanguage := go; createDescription := "";
              isDeleting := false |}) < 0)%Z.
Proof.
  set (p := {| pg_store := initialStore; pg_run := mounted;
               pg_payload := "{}"; pg_toast := None; draftCounter := 0;
               showCreateForm := true; createName := "  resize  ";
               createLanguage := go; createDescription := "";
               isDeleting := false |}).
  assert (Hn : trim (createName p) <> "") by (vm_compute; discriminate).
  assert (Hc : drafts_counted p).
  { intros id Hin. cbn in Hin. cbn. lia. }
  assert (Hnd : NoDup (ids (functions (pg_store p)))).
  { cbn. repeat constructor; cbn; intuition discriminate. }
  split; [exact Hn |]. split; [reflexivity |].
  exact (proj1 (@created_draft_is_fresh sampleEngine p Hn Hc Hnd)).
Defined.

Lemma removeFunction_appended (fn : SoftGateFunction) (st : FunctionStore) :
  ~ In (fn_id fn) (ids (functions st)) ->
  removeFunction (fn_id fn)
    {| functions := functions st ++ [fn]; selectedId := Some (fn_id fn) |}
  = {| functions := functions st;
       selectedId :=
         match functions st with
         | first :: _ => Some (fn_id first)
         | [] => None
         end |}.
Proof.
  intros Hn. unfold removeFunction. cbn [functions selectedId].
  rewrite filter_app. fold (without (fn_id fn) (functions st)).
  rewrite (without_absent _ _ Hn). cbn. rewrite !Z.eqb_refl. cbn.
  now rewrite app_nil_r.
Qed.

(** X16.  Creating a draft and deleting it again.  The confirmed delete of
    a draft just created sends no request; it puts the list back as it
    was, but the selection goes to the first function of the list, not to
    the one selected before, and the counter keeps its advance, so the
    next draft gets another id.  The tracker is reset and the toast says
    that the draft is deleted. *)
Theorem create_then_delete_draft (p : Page) :
  trim (createName p) <> "" ->
  drafts_counted p ->
  let p'' := fst (handleDelete true (handleCreateFunction p)) in
  snd (handleDelete true (handleCreateFunction p)) = None
  /\ functions (pg_store p'') = functions (pg_store p)
  /\ selectedId (pg_store p'')
     = match functions (pg_store p) with
       | first :: _ => Some (fn_id first)
       | [] => None
       end
  /\ draftCounter p'' = S (draftCounter p)
  /\ fn_id (draftOf p'') <> fn_id (draftOf p)
  /\ drafts_counted p''
  /\ pg_run p'' = onDeleted (onDraftCreated (pg_run p))
  /\ pg_payload p'' = samplePayload
  /\ pg_toast p'' = Some (toast_success, "초안이 삭제되었습니다.").
Proof.
  intros Hn Hc p''.
  pose proof (draft_unlisted p Hc) as Hfresh.
  destruct (created_store p Hn Hc) as [Ef Es].
  set (p' := handleCreateFunction p) in *.
  assert (Hsel : selectedFunctionOf (pg_store p') = Some (draftOf p)).
  { unfold selectedFunctionOf. rewrite Es, Ef. now apply find_appended. }
  assert (Hneg : (fn_id (draftOf p) <? 0)%Z = true)
    by (apply Z.ltb_lt; cbn; lia).
  assert (Hd : handleDelete true p'
               = (deleted (fn_id (draftOf p)) "초안이 삭제되었습니다." p', None)).
  { unfold handleDelete. now rewrite Hsel, Hneg. }
  assert (Hst : pg_store p'
                = {| functions := functions (pg_store p) ++ [draftOf p];
                     selectedId := Some (fn_id (draftOf p)) |}).
  { destruct (pg_store p') as [fs sel]. cbn in Ef, Es. now subst. }
  assert (Hcnt : draftCounter p' = S (draftCounter p)).
  { unfold p'. rewrite (handleCreateFunction_named p Hn). cbn. lia. }
  assert (Hrun : pg_run p' = onDraftCreated (pg_run p)).
  { unfold p'. now rewrite (handleCreateFunction_named p Hn). }
  unfold p''. rewrite Hd. cbn [fst snd deleted pg_store pg_run pg_payload
                                 pg_toast draftCounter].
  rewrite Hst, (removeFunction_appended _ _ Hfresh), Hcnt, Hrun.
  cbn [functions selectedId].
  repeat (split; [reflexivity |]).
  split; [cbn; rewrite Hcnt; lia |].
  split; [| repeat split; reflexivity].
  intros id Hin. cbn [deleted pg_store draftCounter] in Hin |- *.
  rewrite Hst, (removeFunction_appended _ _ Hfresh) in Hin.
  cbn [functions] in Hin. rewrite Hcnt. apply Hc in Hin. lia.
Qed.

Lemma create_then_delete_draft_witness :
  trim (createName
          {| pg_store := setSelected 2 initialStore; pg_run := mounted;
             pg_payload := "{}"; pg_toast := None; draftCounter := 0;
             showCreateForm := true; createName := "resize";
             createLanguage := node; createDescription := "thumbnails";
             isDeleting := false |}) <> ""
  /\ selectedId
       (pg_store
          (fst (handleDelete true
                  (handleCreateFunction
                     {| pg_store := setSelected 2 initialStore;
                        pg_run := mounted; pg_payload := "{}";
                        pg_toast := None; draftCounter := 0;
                        showCreateForm := true; createName := "resize";
                        createLanguage := node;
                        createDescription := "thumbnails";
                        isDeleting := false |}))))
     = Some 1%Z.
Proof.
  set (p := {| pg_store := setSelected 2 initialStore; pg_run := mounted;
               pg_payload := "{}"; pg_toast := None; draftCounter := 0;
               showCreateForm := true; createName := "resize";
               createLanguage := node; createDescription := "thumbnails";
               isDeleting := false |}).
  assert (Hn : trim (createName p) <> "") by (vm_compute; discriminate).
  assert (Hc : drafts_counted p).
  { intros id Hin. cbn in Hin. cbn. lia. }
  split; [exact Hn |].
  exact (proj1 (proj2 (proj2 (create_then_delete_draft p Hn Hc)))).
Defined.

(** X17.  A save touches the store only on success.  [handleSave] sends a
    create request exactly when a function with an id that is not positive
    is selected, and does not change the store before the answer; when the
    request fails the store and the payload are as they were, the saving
    flag is off again and the toast carries the error's text. *)
Theorem save_failure_keeps_store {engine : JsEngine} (p : SavePage)
  (error : Thrown) :
  let p1 := fst (handleSave p) in
  store p1 = store p
  /\ (snd (handleSave p) <> None
      <-> exists fn, selectedFunctionOf (store p) = Some fn
                     /\ (fn_id fn <= 0)%Z)
  /\ store (handleSave_rejected error p1) = store p
  /\ payload_text (handleSave_rejected error p1) = payload_text p
  /\ isSaving (handleSave_rejected error p1) = false
  /\ toast (handleSave_rejected error p1)
     = Some (toast_error, ("저장 실패: " ++ error_text error)%string).
Proof.
  unfold handleSave.
  destruct (selectedFunctionOf (store p)) as [fn |] eqn:Hsel.
  - destruct (Z.ltb_spec 0 (fn_id fn)) as [Hpos | Hpos]; cbn.
    + repeat split; try reflexivity.
      * intros H. now contradiction H.
      * intros [g [[= <-] Hle]]. lia.
    + repeat split; try reflexivity.
      * intros _. now exists fn.
      * discriminate.
  - cbn. repeat split; try reflexivity.
    + intros H. now contradiction H.
    + intros [g [[=] _]].
Qed.

Lemma mapRuntimeToLanguage_runtimeForLanguage (l : Language) :
  mapRuntimeToLanguage (Some (runtimeForLanguage l)) = l.
Proof. now destruct l. Qed.

(** X18.  A registry that echoes the request keeps the draft as written.
    For a selected draft [handleSave] sends its name, the runtime of its
    language, its code and its description; when the answer carries the
    same name, runtime and description, and the same code or none, the
    function stored is the draft with the registry's id: the runtime maps
    back to the draft's language. *)
Theorem echoed_save_keeps_draft {engine : JsEngine} (p : SavePage)
  (draft : SoftGateFunction) :
  selectedFunctionOf (store p) = Some draft ->
  (fn_id draft <= 0)%Z ->
  exists rq cl,
    handleSave p = (setIsSaving true p, Some (rq, cl))
    /\ forall res,
         fd_name res = rq_name rq ->
         fd_runtime res = rq_runtime rq ->
         fd_description res = rq_description rq ->
         fd_code res = None \/ fd_code res = Some (rq_code rq) ->
         savedFnOf (sv_selectedFunction cl) res
         = {| fn_id := fd_id res; fn_name := fn_name draft;
              fn_language := fn_language draft; fn_code := fn_code draft;
              fn_description := fn_description draft |}.
Proof.
  intros Hsel Hid. unfold handleSave. rewrite Hsel.
  destruct (Z.ltb_spec 0 (fn_id draft)) as [Hpos | _]; [lia |].
  eexists _, _. split; [reflexivity |]. cbn.
  intros res En Er Ed Ec. unfold savedFnOf.
  rewrite En, Er, Ed, mapRuntimeToLanguage_runtimeForLanguage.
  now destruct Ec as [-> | ->].
Qed.

Lemma echoed_save_keeps_draft_witness :
  selectedFunctionOf (store samplePage)
  = Some (sampleFunction (-1) "draft-a")
  /\ exists rq cl,
       @handleSave sampleEngine samplePage
       = (setIsSaving true samplePage, Some (rq, cl))
       /\ rq_runtime rq = "python".
Proof.
  assert (Hsel : selectedFunctionOf (store samplePage)
                 = Some (sampleFunction (-1) "draft-a")) by reflexivity.
  assert (Hid : (fn_id (sampleFunction (-1) "draft-a") <= 0)%Z)
    by (cbn; lia).
  split; [exact Hsel |].
  destruct (@echoed_save_keeps_draft sampleEngine samplePage _ Hsel Hid)
    as [rq [cl [E _]]].
  exists rq, cl. split; [exact E |].
  cbv in E. now injection E as <- <-.
Defined.

(* ================================================================== *)
(** * Part VI: the gateway *)
(* ================================================================== *)

(** X19.  The gateway fulfils only an ok response.  Whatever [fetch]
    settled with, [apiRequest] hands a value to its caller only for a
    response that is ok, and the value is the body's text or the body
    parsed; a response that is not ok always ends in a thrown [Error],
    whose message is the body itself when the body is not announced as
    JSON; a rejection of [fetch] is passed on as it is. *)
Theorem gateway_fulfils_only_ok {engine : JsEngine}
  (syntaxErrorMessage : string -> string) (f : Fetched) :
  (forall d,
      apiRequest_settled syntaxErrorMessage f = Fulfilled d ->
      exists res,
        f = FetchAnswered res /\ res_ok res = true
        /\ (d = DecodedText (res_body res)
            \/ exists v, JSON_parse (res_body res) = Some v
                         /\ d = DecodedJson v))
  /\ (forall res,
         f = FetchAnswered res -> res_ok res = false ->
         exists message,
           apiRequest_settled syntaxErrorMessage f
           = Rejected (ErrorObject message)
           /\ (match res_contentType res with
               | Some contentType =>
                   Js.includes contentType "application/json" = false
               | None => True
               end -> message = res_body res))
  /\ (forall error,
         f = FetchRejected error ->
         apiRequest_settled syntaxErrorMessage f = Rejected error).
Proof.
  split; [| split].
  - intros d H. destruct f as [error | res]; [discriminate |].
    exists res. split; [reflexivity |].
    cbn in H. unfold apiRequest_answered in H.
    destruct (res_ok res); cbn in H.
    + split; [reflexivity |].
      destruct (res_contentType res) as [ct |].
      * destruct (Js.includes ct "application/json").
        -- destruct (JSON_parse (res_body res)) as [v |] eqn:P;
             [| discriminate].
           injection H as <-. right. now exists v.
        -- injection H as <-. now left.
      * injection H as <-. now left.
    + destruct (res_contentType res) as [ct |].
      * destruct (Js.includes ct "application/json");
          [destruct (JSON_parse (res_body res)) |]; discriminate.
      * discriminate.
  - intros res -> Hok. cbn. unfold apiRequest_answered. rewrite Hok. cbn.
    destruct (res_contentType res) as [ct |].
    + destruct (Js.includes ct "application/json").
      * destruct (JSON_parse (res_body res)) as [v |];
          eexists; (split; [reflexivity | discriminate]).
      * eexists. split; reflexivity.
    + eexists. split; reflexivity.
  - now intros error ->.
Qed.

(* ================================================================== *)
(** * Part VII: the base URL of the gateway *)
(* ================================================================== *)

Lemma startsWith_slash (s : string) :
  startsWith s "/" = true -> exists r, s = String "/" r.
Proof.
  unfold startsWith.
  destruct s as [| c r]; cbn [prefix]; [intros H; discriminate H |].
  destruct (ascii_dec "/"%char c) as [<- | _];
    [eauto | intros H; discriminate H].
Qed.

Lemma startsWith_rooted (r : string) : startsWith (String "/" r) "/" = true.
Proof.
  unfold startsWith. cbn [prefix].
  destruct (ascii_dec "/"%char "/"%char); [| congruence].
  now destruct r.
Qed.

Lemma string_rev_app_slash (b : string) :
  string_rev (b ++ "/") = String "/" (string_rev b).
Proof.
  induction b as [| c b IH]; cbn; [reflexivity |]. now rewrite IH.
Qed.

Lemma endsWith_app_slash (b : string) : endsWith (b ++ "/") "/" = true.
Proof.
  unfold endsWith. rewrite string_rev_app_slash. cbn [string_rev prefix].
  destruct (ascii_dec "/"%char "/"%char); [| congruence].
  now destruct (string_rev b).
Qed.

Lemma dropLast_app_slash (b : string) : dropLast (b ++ "/") = b.
Proof.
  induction b as [| c b IH]; cbn; [reflexivity |].
  rewrite IH. destruct b; reflexivity.
Qed.

Lemma stripTrailingSlash_app_slash (b : string) :
  stripTrailingSlash (b ++ "/") = b.
Proof.
  unfold stripTrailingSlash.
  now rewrite endsWith_app_slash, dropLast_app_slash.
Qed.

(** A relative base is the proxy's default or the base itself, rooted. *)
Lemma normalizeRelativeBase_cases (base : string) :
  normalizeRelativeBase base = "/api/softgate"
  \/ exists r,
       normalizeRelativeBase base = String "/" r
       /\ String "/" r <> "/api" /\ String "/" r <> "/api/"
       /\ String "/" r <> "/"
       /\ (base = String "/" r \/ String "/" base = String "/" r).
Proof.
  unfold normalizeRelativeBase.
  assert (W : exists r,
             (if startsWith base "/" then base else ("/" ++ base)%string)
             = String "/" r
             /\ (base = String "/" r \/ String "/" base = String "/" r)).
  { destruct (startsWith base "/") eqn:E.
    - destruct (startsWith_slash base E) as [r ->]. eauto.
    - exists base. auto. }
  destruct W as [r [-> Hb]].
  destruct (String.eqb_spec (String "/" r) "/api") as [E1 | E1];
    [now left |].
  destruct (String.eqb_spec (String "/" r) "/api/") as [E2 | E2];
    [now left |].
  destruct (String.eqb_spec (String "/" r) "/") as [E3 | E3];
    [now left |].
  cbn. right. exists r. auto.
Qed.

(** X20.  A relative base is always rooted.  [normalizeRelativeBase]
    returns a path that starts with a slash and is never the bare root,
    ["/api"] or ["/api/"]: those, and the empty base, go to the proxy
    route ["/api/softgate"].  Normalizing again changes nothing. *)
Theorem relative_base_rooted (base : string) :
  startsWith (normalizeRelativeBase base) "/" = true
  /\ normalizeRelativeBase base <> ""
  /\ normalizeRelativeBase base <> "/"
  /\ normalizeRelativeBase base <> "/api"
  /\ normalizeRelativeBase base <> "/api/"
  /\ normalizeRelativeBase (normalizeRelativeBase base)
     = normalizeRelativeBase base.
Proof.
  destruct (normalizeRelativeBase_cases base)
    as [-> | [r [E [N1 [N2 [N3 _]]]]]].
  - repeat split; try discriminate; reflexivity.
  - rewrite E. split; [apply startsWith_rooted |].
    split; [discriminate |]. repeat (split; [assumption |]).
    unfold normalizeRelativeBase. rewrite startsWith_rooted.
    destruct (String.eqb_spec (String "/" r) "/api"); [contradiction |].
    destruct (String.eqb_spec (String "/" r) "/api/"); [contradiction |].
    destruct (String.eqb_spec (String "/" r) "/"); [contradiction |].
    reflexivity.
Qed.

(** X21.  One trailing slash does not matter.  [resolveApiBaseUrl] gives
    the same URL for a configured base with and without one trailing
    slash, and on the server for a site origin with and without one. *)
Theorem base_url_trailing_slash_ignored (env : Environment)
  (base origin : string) :
  endsWith base "/" = false ->
  endsWith origin "/" = false ->
  resolveApiBaseUrl env (base ++ "/") = resolveApiBaseUrl env base
  /\ resolveApiBaseUrl
       {| isServer := isServer env;
          NEXT_PUBLIC_SITE_URL := Some (origin ++ "/")%string;
          VERCEL_URL := VERCEL_URL env |} base
     = resolveApiBaseUrl
         {| isServer := isServer env;
            NEXT_PUBLIC_SITE_URL := Some origin;
            VERCEL_URL := VERCEL_URL env |} base.
Proof.
  intros Hb Ho. split.
  - destruct base as [| c b].
    + destruct env as [srv [site |] [host |]], srv; reflexivity.
    + unfold resolveApiBaseUrl.
      replace ((String c b ++ "/") =? "")%string with false by reflexivity.
      replace (String c b =? "")%string with false by reflexivity.
      rewrite stripTrailingSlash_app_slash.
      unfold stripTrailingSlash at 1 2 3 4 5. now rewrite Hb.
  - unfold resolveApiBaseUrl. cbn [isServer NEXT_PUBLIC_SITE_URL VERCEL_URL].
    now rewrite endsWith_app_slash, dropLast_app_slash, Ho.
Qed.

Lemma base_url_trailing_slash_ignored_witness :
  endsWith "/gateway" "/" = false
  /\ resolveApiBaseUrl
       {| isServer := true; NEXT_PUBLIC_SITE_URL := None;
          VERCEL_URL := Some "softgate.example" |} "/gateway/"
     = "https://softgate.example/gateway".
Proof.
  assert (Hb : endsWith "/gateway" "/" = false) by reflexivity.
  assert (Ho : endsWith "o" "/" = false) by reflexivity.
  split; [exact Hb |].
  exact (eq_trans
           (proj1 (base_url_trailing_slash_ignored
                     {| isServer := true; NEXT_PUBLIC_SITE_URL := None;
                        VERCEL_URL := Some "softgate.example" |}
                     "/gateway" "o" Hb Ho))
           eq_refl).
Defined.

(** X22.  In the browser the base is absolute or rooted.  With a window,
    [resolveApiBaseUrl] returns the configured base when it is an http or
    https URL and a path that starts with a slash otherwise; it never
    returns the empty string, the bare root, ["/api"] or ["/api/"], so the
    page never calls its own origin's api root. *)
Theorem browser_base_url_rooted (env : Environment) (base : string) :
  isServer env = false ->
  let url := resolveApiBaseUrl env base in
  (startsWith url "http://" || startsWith url "https://"
   || startsWith url "/") = true
  /\ url <> "" /\ url <> "/" /\ url <> "/api" /\ url <> "/api/".
Proof.
  intros Hsrv url. unfold url, resolveApiBaseUrl. rewrite Hsrv. cbn [negb].
  set (cleaned :=
         stripTrailingSlash
           (if (base =? "")%string then "/api/softgate" else base)).
  destruct (startsWith cleaned "http://" || startsWith cleaned "https://")
    eqn:Habs.
  - split; [now rewrite Habs |].
    repeat split; intros E; rewrite E in Habs; discriminate.
  - destruct (normalizeRelativeBase_cases cleaned)
      as [-> | [r [-> [N1 [N2 [N3 _]]]]]].
    + repeat split; try discriminate; reflexivity.
    + rewrite startsWith_rooted, !orb_true_r.
      repeat split; try assumption; discriminate.
Qed.

Lemma browser_base_url_rooted_witness :
  resolveApiBaseUrl
    {| isServer := false; NEXT_PUBLIC_SITE_URL := None;
       VERCEL_URL := None |} "api/"
  <> "/api".
Proof.
  exact (proj1 (proj2 (proj2 (proj2
           (browser_base_url_rooted
              {| isServer := false; NEXT_PUBLIC_SITE_URL := None;
                 VERCEL_URL := None |} "api/" eq_refl))))).
Defined.

Lemma find_without (id x : Z) (l : list SoftGateFunction) :
  id <> x ->
  find (fun g => fn_id g =? id)%Z (without x l)
  = find (fun g => fn_id g =? id)%Z l.
Proof.
  intros Hne. induction l as [| g l IH]; cbn; [reflexivity |].
  destruct (Z.eqb_spec (fn_id g) x) as [E | E]; cbn.
  - destruct (Z.eqb_spec (fn_id g) id); [congruence | exact IH].
  - destruct (fn_id g =? id)%Z; [reflexivity | exact IH].
Qed.

Lemma selectedFunctionOf_selectedId (st : FunctionStore)
  (fn : SoftGateFunction) :
  selectedFunctionOf st = Some fn -> selectedId st = Some (fn_id fn).
Proof.
  unfold selectedFunctionOf. destruct (selectedId st) as [c |];
    [| discriminate].
  intros H. apply find_some in H as [_ E]. apply Z.eqb_eq in E.
  now rewrite E.
Qed.

(** X23.  Deleting a saved function.  For a selected function that is not
    a draft, [handleDelete] does nothing unless confirmed; confirmed, it
    only raises the deleting flag and sends the delete request.  When the
    request succeeds the function is gone from the list, which is one
    shorter, every other function is still found, the selection goes to
    the first function left, and the flag is down; when it fails, the
    store and the tracker are as they were and the flag is down. *)
Theorem confirmed_delete_removes_function (p : Page) (fn : SoftGateFunction)
  (error : Thrown) :
  selectedFunctionOf (pg_store p) = Some fn ->
  (0 <= fn_id fn)%Z ->
  NoDup (ids (functions (pg_store p))) ->
  let p' := handleDelete_resolved (fn_id fn) (setIsDeleting true p) in
  let q := handleDelete_rejected error (setIsDeleting true p) in
  handleDelete false p = (p, None)
  /\ handleDelete true p = (setIsDeleting true p, Some (fn_id fn))
  /\ ~ In (fn_id fn) (ids (functions (pg_store p')))
  /\ S (length (functions (pg_store p'))) = length (functions (pg_store p))
  /\ (forall id, id <> fn_id fn ->
        find (fun g => fn_id g =? id)%Z (functions (pg_store p'))
        = find (fun g => fn_id g =? id)%Z (functions (pg_store p)))
  /\ selectedId (pg_store p')
     = match without (fn_id fn) (functions (pg_store p)) with
       | first :: _ => Some (fn_id first)
       | [] => None
       end
  /\ pg_run p' = onDeleted (pg_run p)
  /\ isDeleting p' = false
  /\ pg_store q = pg_store p /\ pg_run q = pg_run p /\ isDeleting q = false.
Proof.
  intros Hsel Hid Hnd p' q.
  pose proof (selectedFunctionOf_selectedId _ _ Hsel) as Hcur.
  pose proof (selectedFunctionOf_In _ _ Hsel) as Hin.
  assert (Hlt : (fn_id fn <? 0)%Z = false) by (apply Z.ltb_ge; lia).
  split; [unfold handleDelete; now rewrite Hsel |].
  split; [unfold handleDelete; now rewrite Hsel, Hlt |].
  unfold p', q, handleDelete_resolved, handleDelete_rejected.
  cbn [setIsDeleting deleted pg_showToast pg_store pg_run isDeleting].
  unfold removeFunction. cbn [functions selectedId].
  fold (without (fn_id fn) (functions (pg_store p))).
  rewrite Hcur, Z.eqb_refl.
  split; [intros H; apply without_ids in H as [_ H]; now apply H |].
  split.
  { apply without_length; [exact Hnd |]. now apply in_map. }
  split; [intros id Hne; now apply find_without |].
  repeat split; reflexivity.
Qed.

Lemma confirmed_delete_removes_function_witness :
  selectedFunctionOf (pg_store mountedPage)
  = Some {| fn_id := 1; fn_name := "ingest-events"; fn_language := python;
            fn_code := template_python; fn_description := None |}
  /\ ids (functions
            (pg_store
               (handleDelete_resolved 1 (setIsDeleting true mountedPage))))
     = [2; 3]%Z
  /\ handleDelete true mountedPage
     = (setIsDeleting true mountedPage, Some 1%Z).
Proof.
  assert (Hsel : selectedFunctionOf (pg_store mountedPage)
                 = Some {| fn_id := 1; fn_name := "ingest-events";
                           fn_language := python;
                           fn_code := template_python;
                           fn_description := None |}) by reflexivity.
  assert (Hnd : NoDup (ids (functions (pg_store mountedPage)))).
  { cbn. repeat constructor; cbn; intuition discriminate. }
  split; [exact Hsel |]. split; [reflexivity |].
  refine (proj1 (proj2 (confirmed_delete_removes_function mountedPage _
                          NotAnError Hsel _ Hnd))).
  cbn. lia.
Defined.

(* ================================================================== *)
(** * Part VIII: the Reset button and a run deleted under way *)
(* ================================================================== *)

Lemma lookup_nil {A : Type} (rq : nat) : @lookup A rq [] = None.
Proof. reflexivity. Qed.

Lemma stranded_disabled (selectedFunction : option SoftGateFunction)
  (s : State) :
  stranded s -> runDisabled selectedFunction s = true.
Proof.
  intros (Hr & _). unfold runDisabled. rewrite Hr.
  now rewrite orb_true_r.
Qed.

Lemma clear_browser_empty (p t : option nat) (b : Browser) :
  intervals b = [] -> timeouts b = [] ->
  intervals (clear_browser p t b) = []
  /\ timeouts (clear_browser p t b) = [].
Proof.
  intros Hi Ht. cbn. rewrite Hi, Ht. now destruct p, t.
Qed.

Lemma isRunning_onDeleted (s : State) :
  isRunning (view (onDeleted s)) = isRunning (view s).
Proof. unfold onDeleted. rewrite clearPoll_eq. reflexivity. Qed.

Lemma stranded_step_ui {engine : JsEngine} (s s' : State) (e : Event) :
  stranded s -> step_ui s e = Some s' ->
  stranded s' /\ calls (browser s') = calls (browser s)
  /\ is_run e = false.
Proof.
  intros Hs Hx. pose proof Hs as (Hr & Hi & Ht & Hv & Hp).
  destruct e; cbn [step_ui step is_run] in *.
  - now rewrite (stranded_disabled selectedFunction s Hs) in Hx.
  - now rewrite Hv, lookup_nil in Hx.
  - now rewrite Hv, lookup_nil in Hx.
  - unfold find_interval in Hx. now rewrite Hi in Hx.
  - now rewrite Hp, lookup_nil in Hx.
  - now rewrite Hp, lookup_nil in Hx.
  - unfold find_timeout in Hx. now rewrite Ht in Hx.
  - injection Hx as <-. destruct (onDeleted_eq s) as [_ Eb].
    unfold stranded. rewrite isRunning_onDeleted, Eb.
    destruct (clear_browser_empty (pollRef (refs s))
                (runTimeoutRef (refs s)) (browser s) Hi Ht) as [-> ->].
    cbn [clear_browser invoking polling calls]. auto 10.
  - injection Hx as <-. unfold stranded, onDraftCreated. cbn. auto 10.
  - injection Hx as <-.
    destruct (handlePayloadChange_eq value s) as [_ Eb].
    unfold stranded. rewrite Eb.
    assert (E : isRunning (view (handlePayloadChange value s))
                = isRunning (view s)).
    { unfold handlePayloadChange. now destruct (JSON_parse _). }
    rewrite E. auto 10.
Qed.

(** X24.  A run deleted under way leaves the Run button disabled.  The
    delete handler clears the session but does not reset [isRunning].  In
    a well-formed session (every live interval is the one [pollRef] holds
    and every live timeout the one [runTimeoutRef] holds) with a run in
    progress and neither a submit nor a status call in flight, a delete
    leaves nothing that could end the run: after every further event of
    the tracker the button is disabled, for every selection, and no
    request is sent.  Only a click on Reset enables it again. *)
Theorem deleted_run_strands_button {engine : JsEngine} (s : State)
  (es : list Event) (s' : State) :
  isRunning (view s) = true ->
  single_session s ->
  single_timeout s ->
  invoking (browser s) = [] ->
  polling (browser s) = [] ->
  exec_ui (onDeleted s) es = Some s' ->
  (forall selectedFunction, runDisabled selectedFunction s' = true)
  /\ no_run es = true
  /\ calls (browser s') = calls (browser s)
  /\ forall fn, (0 <= fn_id fn)%Z ->
                runDisabled (Some fn) (onReset s') = false.
Proof.
  intros Hr Hss Hst Hv Hp Hx.
  assert (H0 : stranded (onDeleted s)
               /\ calls (browser (onDeleted s)) = calls (browser s)).
  { destruct (onDeleted_eq s) as [_ Eb].
    unfold stranded. rewrite isRunning_onDeleted, Eb.
    rewrite (clear_single_session s _ Hss), (clear_single_timeout s _ Hst).
    cbn [clear_browser invoking polling calls]. auto 10. }
  destruct H0 as [H0 Hc0].
  assert (G : forall es s0 s1,
             stranded s0 -> exec_ui s0 es = Some s1 ->
             stranded s1 /\ calls (browser s1) = calls (browser s0)
             /\ no_run es = true).
  { clear. induction es as [| e es IH]; intros s0 s1 H0 Hx; cbn in Hx.
    - injection Hx as <-. auto.
    - destruct (step_ui s0 e) as [s2 |] eqn:Hs; [| discriminate].
      destruct (stranded_step_ui s0 s2 e H0 Hs) as (H2 & Hc & Hn).
      destruct (IH s2 s1 H2 Hx) as (H1 & Hc1 & Hn1).
      split; [exact H1 |]. split; [congruence |].
      unfold no_run in *. cbn [forallb]. now rewrite Hn, Hn1. }
  destruct (G es _ s' H0 Hx) as (H1 & Hc1 & Hn).
  split; [intros sel; now apply stranded_disabled |].
  split; [exact Hn |]. split; [congruence |].
  intros fn Hid. unfold runDisabled.
  destruct (onReset_eq s') as (-> & _ & _). cbn.
  apply Z.ltb_ge. lia.
Qed.

Lemma deleted_run_strands_button_witness :
  isRunning (view sampleAccepted) = true
  /\ runDisabled (Some (sampleFunction 2 "image-resizer"))
       (@handlePayloadChange sampleEngine (Some "{}")
          (onDeleted sampleAccepted)) = true.
Proof.
  assert (Hr : isRunning (view sampleAccepted) = true) by reflexivity.
  assert (Hss : single_session sampleAccepted).
  { intros iv [<- | []]. reflexivity. }
  assert (Hst : single_timeout sampleAccepted).
  { intros tm [<- | []]. reflexivity. }
  split; [exact Hr |].
  exact (proj1
           (@deleted_run_strands_button sampleEngine sampleAccepted
              [PayloadChanged (Some "{}")] _ Hr Hss Hst eq_refl eq_refl
              eq_refl) _).
Defined.

(** X25.  Reset ends the session.  A click on Reset puts the run card
    back to idle with an empty log, result, duration and message, no JSON
    error and no run in progress, and clears the refs; in a well-formed
    session no interval or timeout is left, so no tick fires, no request
    is sent by the click, and the Run button is enabled for every saved
    function. *)
Theorem reset_ends_session {engine : JsEngine} (s : State) :
  single_session s ->
  single_timeout s ->
  view (onReset s)
  = {| jsonError := None; isRunning := false; runMessage := None;
       activeTab := activeTab (view s); runStatus := idle; runLogs := [];
       runResult := ""; runDurationMs := None |}
  /\ refs (onReset s) = cleared
  /\ intervals (browser (onReset s)) = []
  /\ timeouts (browser (onReset s)) = []
  /\ calls (browser (onReset s)) = calls (browser s)
  /\ (forall t, step (onReset s) (Tick t) = None)
  /\ (forall t, step (onReset s) (RunTimeout t) = None)
  /\ forall fn, (0 <= fn_id fn)%Z ->
                runDisabled (Some fn) (onReset s) = false.
Proof.
  intros Hss Hst. destruct (onReset_eq s) as (Ev & Er & Eb).
  pose proof (clear_single_session s (runTimeoutRef (refs s)) Hss) as Ei.
  pose proof (clear_single_timeout s (pollRef (refs s)) Hst) as Et.
  split; [exact Ev |]. split; [exact Er |].
  split; [now rewrite Eb |]. split; [now rewrite Eb |].
  split; [now rewrite Eb |].
  split; [intros t; cbn [step]; unfold find_interval; now rewrite Eb, Ei |].
  split; [intros t; cbn [step]; unfold find_timeout; now rewrite Eb, Et |].
  intros fn Hid. unfold runDisabled. rewrite Ev. cbn.
  apply Z.ltb_ge. lia.
Qed.

Lemma reset_ends_session_witness :
  single_session samplePolling
  /\ intervals (browser (onReset samplePolling)) = [].
Proof.
  assert (Hss : single_session samplePolling).
  { intros iv [<- | []]. reflexivity. }
  assert (Hst : single_timeout samplePolling).
  { intros tm [<- | []]. reflexivity. }
  split; [exact Hss |].
  exact (proj1 (proj2 (proj2
           (@reset_ends_session sampleEngine samplePolling Hss Hst)))).
Defined.

(* ================================================================== *)
(** * Part IX: the repeat counter *)
(* ================================================================== *)

Lemma option_RunStatus_eqb_true (p : RunStatus) (o : option RunStatus) :
  option_RunStatus_eqb p o = true <-> o = Some p.
Proof.
  destruct o as [q |]; cbn; [| split; discriminate].
  destruct p, q; cbn; split; congruence.
Qed.

(** X28.  The repeat counter counts a stalled stretch wherever it starts.
    When an answered poll reports a status that is not terminal: if the
    status differs from the one remembered (or none is remembered) the
    counter goes back to 0 and the session goes on; if it is the one
    remembered the counter goes up by one, and the session goes on as long
    as the new count is below [MAX_STUCK_ATTEMPTS]; the answer that brings
    the count to [MAX_STUCK_ATTEMPTS] ends the run as [fail] with the
    no-change message, clears the refs and removes the interval [pollRef]
    holds. *)
Theorem stuck_count_follows_repeats {engine : JsEngine} (s : State)
  (rq : nat) (cl : PollClosure) (res : InvokeResponse) (now : Z) :
  lookup rq (polling (browser s)) = Some cl ->
  polledStatusOf res = queued \/ polledStatusOf res = processing ->
  exists s',
    step s (PollResolved rq res now) = Some s'
    /\ (lastStatusRef (refs s) <> Some (polledStatusOf res) ->
        polling_goes_on (polledStatusOf res) s s'
        /\ stuckCountRef (refs s') = 0)
    /\ (lastStatusRef (refs s) = Some (polledStatusOf res) ->
        stuckCountRef (refs s) + 1 < MAX_STUCK_ATTEMPTS ->
        polling_goes_on (polledStatusOf res) s s'
        /\ stuckCountRef (refs s') = stuckCountRef (refs s) + 1)
    /\ (lastStatusRef (refs s) = Some (polledStatusOf res) ->
        MAX_STUCK_ATTEMPTS <= stuckCountRef (refs s) + 1 ->
        runStatus (view s') = fail
        /\ isRunning (view s') = false
        /\ runMessage (view s') = Some "상태 변화 없이 대기 시간 초과"
        /\ (exists before,
              runLogs (view s')
              = before ++ ["[Error] 상태 변화 없음으로 중단"])
        /\ refs s' = cleared
        /\ calls (browser s') = calls (browser s)
        /\ forall t, pollRef (refs s) = Some t -> step s' (Tick t) = None).
Proof.
  intros Hrq Hp. cbn [step]. rewrite Hrq. eexists. split; [reflexivity |].
  rewrite onPollResolved_eq. cbv zeta.
  assert (Hnt : nonterminal (polledStatusOf res) = true)
    by (destruct Hp as [-> | ->]; reflexivity).
  rewrite Hnt, (nonterminal_not_terminal _ Hnt). cbn [andb].
  cbn [recorded refs recorded_refs stuckCountRef settle_poll on_browser].
  split; [| split].
  - intros Hne.
    assert (E : option_RunStatus_eqb (polledStatusOf res)
                  (lastStatusRef (refs s)) = false).
    { destruct (option_RunStatus_eqb _ _) eqn:E; [| reflexivity].
      apply option_RunStatus_eqb_true in E. contradiction. }
    rewrite E. cbn [Nat.leb MAX_STUCK_ATTEMPTS].
    unfold polling_goes_on. cbn. rewrite E. repeat split; reflexivity.
  - intros Heq Hlt.
    assert (E : option_RunStatus_eqb (polledStatusOf res)
                  (lastStatusRef (refs s)) = true)
      by now apply option_RunStatus_eqb_true.
    rewrite E. apply Nat.leb_gt in Hlt. rewrite Hlt.
    unfold polling_goes_on. cbn. rewrite E. repeat split; reflexivity.
  - intros Heq Hge.
    assert (E : option_RunStatus_eqb (polledStatusOf res)
                  (lastStatusRef (refs s)) = true)
      by now apply option_RunStatus_eqb_true.
    rewrite E. apply Nat.leb_le in Hge. rewrite Hge.
    cbn [aborted view refs browser failed_view runStatus isRunning
           runMessage runLogs].
    split; [reflexivity |]. split; [reflexivity |]. split; [reflexivity |].
    split; [eexists; reflexivity |]. split; [reflexivity |].
    split; [reflexivity |].
    intros t Ht. cbn [step]. unfold find_interval.
    cbn [aborted browser recorded refs recorded_refs pollRef clear_browser
           intervals settle_poll on_browser].
    rewrite Ht. now rewrite find_cleared_interval.
Qed.

Lemma stuck_count_follows_repeats_witness :
  lookup 1 (polling (browser samplePolling))
  = Some {| poll_functionId := 1; poll_invocationId := 7;
            poll_startedAt := 0 |}
  /\ polledStatusOf stillProcessing = processing
  /\ exists s',
       @step sampleEngine samplePolling
         (PollResolved 1 stillProcessing 500) = Some s'
       /\ stuckCountRef (refs s') = 0
       /\ lastStatusRef (refs s') = Some processing
       /\ intervals (browser s') = intervals (browser samplePolling).
Proof.
  assert (H1 : lookup 1 (polling (browser samplePolling))
               = Some {| poll_functionId := 1; poll_invocationId := 7;
                         poll_startedAt := 0 |}) by reflexivity.
  assert (H2 : polledStatusOf stillProcessing = processing) by reflexivity.
  split; [exact H1 |]. split; [exact H2 |].
  destruct (@stuck_count_follows_repeats sampleEngine samplePolling 1 _
              stillProcessing 500%Z H1 (or_intror H2))
    as (s' & Hs & Hfresh & _).
  assert (Hne : lastStatusRef (refs samplePolling)
                <> Some (polledStatusOf stillProcessing))
    by discriminate.
  destruct (Hfresh Hne) as [(_ & _ & _ & Hl & _ & _ & _ & Hi & _) Hc].
  exists s'. rewrite H2 in Hl. auto.
Defined.
